(** * Vernacular AI agent (app.py): a shallow embedding and its properties

    The development follows the layout of [app.py]:
    - [Py]: the fragment of Python's [str], [re] and [json] the program calls;
    - the helpers [sanitize_filename], [decode_unicode_text],
      [get_government_scheme_info], [transcribe_audio];
    - the turn orchestrator [generate_message];
    - the parts of [main] that own the session state and the temporary file.

    Python strings are sequences of Unicode code points, so [str] is
    [list N].  Exceptions are values of [Exc]; calls that leave the process
    (Bedrock, the knowledge agent, the speech services) are functions of an
    environment [Env], and their invocations are recorded in the trace of
    the world.  Calls of [logger] and [logging] are left out: nothing in the
    program reads the log. *)

From Stdlib Require Import ZArith NArith QArith List Lia Bool String Ascii.
From stdpp Require Import base option list gmap pretty.

Set Default Proof Using "Type".
Open Scope N_scope.

(* ===================================================================== *)
(** ** Python strings *)
(* ===================================================================== *)

Module Py.

(** A [str] is a list of code points. *)
Definition str := list N.

(** ASCII literals of the source are written [py "..."]. *)
Definition py (s : string) : str :=
  List.map N_of_ascii (list_ascii_of_string s).
#[global] Arguments py : simpl never.

Definition str_eqb (a b : str) : bool := bool_decide (a = b).

(** [str.isspace] for one code point, which is also what [\s] matches in
    a [str] pattern and what [str.strip()] removes: CPython decides all
    three with [Py_UNICODE_ISSPACE]. *)
Definition isspace (c : N) : bool :=
  ((0x09 <=? c) && (c <=? 0x0D)) || ((0x1C <=? c) && (c <=? 0x20))
  || (c =? 0x85) || (c =? 0xA0) || (c =? 0x1680)
  || ((0x2000 <=? c) && (c <=? 0x200A))
  || (c =? 0x2028) || (c =? 0x2029) || (c =? 0x202F) || (c =? 0x205F)
  || (c =? 0x3000).

Definition is_upper (c : N) : bool := (0x41 <=? c) && (c <=? 0x5A).
Definition is_lower (c : N) : bool := (0x61 <=? c) && (c <=? 0x7A).
Definition is_digit (c : N) : bool := (0x30 <=? c) && (c <=? 0x39).

(** [s.lstrip()], [s.rstrip()] and [s.strip()] without argument. *)
Fixpoint lstrip (s : str) : str :=
  match s with
  | [] => []
  | c :: t => if isspace c then lstrip t else s
  end.

Fixpoint rstrip (s : str) : str :=
  match s with
  | [] => []
  | c :: t =>
      match rstrip t with
      | [] => if isspace c then [] else [c]
      | r => c :: r
      end
  end.

Definition strip (s : str) : str := rstrip (lstrip s).

(** [s.split(sep)] for a one-character separator: never empty. *)
Fixpoint split (sep : N) (s : str) : list str :=
  match s with
  | [] => [[]]
  | c :: t =>
      if c =? sep then [] :: split sep t
      else match split sep t with
           | h :: r => (c :: h) :: r
           | [] => [[c]]
           end
  end.

(** [s.rfind(sep)]: the position of the last [sep], if any. *)
Fixpoint rfind (sep : N) (s : str) : option nat :=
  match s with
  | [] => None
  | c :: t =>
      match rfind sep t with
      | Some i => Some (S i)
      | None => if c =? sep then Some O else None
      end
  end.

(** [s.rsplit(sep, 1)]: at most one split, made at the last [sep]. *)
Definition rsplit1 (sep : N) (s : str) : list str :=
  match rfind sep s with
  | Some i => [take i s; drop (S i) s]
  | None => [s]
  end.

(** [l[0]] and [l[-1]] on lists of strings; both raise [IndexError] on
    the empty list, which [split] and [rsplit] never return. *)
Definition first (l : list str) : option str := head l.
Definition final (l : list str) : option str := last l.

(** [needle in s] for strings. *)
Fixpoint startswith (p s : str) : bool :=
  match p, s with
  | [], _ => true
  | a :: p', b :: s' => (a =? b) && startswith p' s'
  | _ :: _, [] => false
  end.

Fixpoint contains (needle s : str) : bool :=
  startswith needle s ||
  match s with
  | [] => false
  | _ :: t => contains needle t
  end.

(** [s.lower()] on the ASCII letters.  The program compares the result
    with the five ASCII words of its allow-list; no code point outside
    ASCII lowers to a letter of these words, so the test accepts the same
    names, with the same format, as with the full Unicode mapping.  Only
    the text of the error for a rejected name with other cased letters in
    its extension is shown without their lowering. *)
Definition lower_char (c : N) : N := if is_upper c then c + 32 else c.
Definition lower (s : str) : str := List.map lower_char s.

(** [sep.join(parts)] *)
Fixpoint join (sep : str) (parts : list str) : str :=
  match parts with
  | [] => []
  | [p] => p
  | p :: rest => p ++ sep ++ join sep rest
  end.

(** Truth value of a string, and of a value that may be [None]. *)
Definition truthy (s : str) : bool :=
  match s with [] => false | _ :: _ => true end.

Definition truthy_opt (o : option str) : bool :=
  match o with Some s => truthy s | None => false end.

(** [str(n)] for a non-negative integer. *)
Definition str_of_N (n : N) : str := py (pretty n).

(** *** Exceptions

    The classes the program raises or catches.  [HTTPError] and
    [Timeout] are subclasses of [RequestException] (requests), and all of
    them are subclasses of [Exception]. *)

Inductive http_body :=
| JsonBody (message : option str)   (* e.response.json() succeeds *)
| TextBody (text : str).            (* it raises: e.response.text *)

Inductive exn :=
| ValueError (msg : str)
| KeyError (key : str)
| IndexError (msg : str)
| UnicodeError (msg : str)
| FileNotFoundError (path : str)
| ClientError (text message : str)
| HTTPError (text : str) (status_code : N) (body : http_body)
| Timeout (text : str)
| RequestException (text : str)
| Exception (msg : str).

(** [str(e)] *)
Definition exn_str (e : exn) : str :=
  match e with
  | ValueError msg => msg
  | KeyError key => [0x27] ++ key ++ [0x27]
  | IndexError msg => msg
  | UnicodeError msg => msg
  | FileNotFoundError path => py "[Errno 2] No such file or directory: " ++ [0x27] ++ path ++ [0x27]
  | ClientError text _ => text
  | HTTPError text _ _ => text
  | Timeout text => text
  | RequestException text => text
  | Exception msg => msg
  end.

(** The outcome of evaluating an expression: a value or a raised
    exception. *)
Inductive Exc (A : Type) : Type :=
| Val (a : A)
| Raise (e : exn).
Arguments Val {A} a.
Arguments Raise {A} e.

Definition exc_bind {A B} (m : Exc A) (k : A -> Exc B) : Exc B :=
  match m with
  | Val a => k a
  | Raise e => Raise e
  end.

(** [d[key]] on a dict kept as an association list. *)
Fixpoint dict_get {V} (key : str) (d : list (str * V)) : Exc V :=
  match d with
  | [] => Raise (KeyError key)
  | (k, v) :: rest => if str_eqb k key then Val v else dict_get key rest
  end.

(** *** Codecs *)

Definition bytes := list N.

(** [bytes(text, "utf-8")]: surrogates cannot be encoded. *)
Definition utf8_char (c : N) : Exc bytes :=
  if c <? 0x80 then Val [c]
  else if c <? 0x800 then Val [0xC0 + c / 64; 0x80 + c mod 64]
  else if c <? 0x10000 then
    if (0xD800 <=? c) && (c <=? 0xDFFF)
    then Raise (UnicodeError (py "'utf-8' codec can't encode character: surrogates not allowed"))
    else Val [0xE0 + c / 4096; 0x80 + (c / 64) mod 64; 0x80 + c mod 64]
  else if c <=? 0x10FFFF then
    Val [0xF0 + c / 262144; 0x80 + (c / 4096) mod 64;
         0x80 + (c / 64) mod 64; 0x80 + c mod 64]
  else Raise (UnicodeError (py "not a code point")).

Fixpoint encode_utf8 (s : str) : Exc bytes :=
  match s with
  | [] => Val []
  | c :: t =>
      exc_bind (utf8_char c) (fun b =>
      exc_bind (encode_utf8 t) (fun r => Val (b ++ r)))
  end.

(** [b.decode("unicode_escape")], errors strict.  The decoder reads the
    bytes left to right; bytes outside an escape are Latin-1. *)
Inductive esc_state :=
| Plain
| Backslash
| Octal (more : nat) (acc : N)
| Hex (more : nat) (acc : N)
| NameStart
| Name (acc : list N).

Definition is_octal (c : N) : bool := (0x30 <=? c) && (c <=? 0x37).

Definition hex_value (c : N) : option N :=
  if is_digit c then Some (c - 0x30)
  else if (0x61 <=? c) && (c <=? 0x66) then Some (c - 0x61 + 10)
  else if (0x41 <=? c) && (c <=? 0x46) then Some (c - 0x41 + 10)
  else None.

Definition escape_error (msg : string) : exn :=
  UnicodeError (py "'unicodeescape' codec can't decode bytes: " ++ py msg).

Definition plain_step (c : N) (out : list N) : esc_state * list N :=
  if c =? 0x5C then (Backslash, out) else (Plain, c :: out).

Definition backslash_step (c : N) (out : list N) : esc_state * list N :=
  if c =? 0x0A then (Plain, out)
  else if c =? 0x5C then (Plain, 0x5C :: out)
  else if c =? 0x27 then (Plain, 0x27 :: out)
  else if c =? 0x22 then (Plain, 0x22 :: out)
  else if c =? 0x62 then (Plain, 0x08 :: out)
  else if c =? 0x66 then (Plain, 0x0C :: out)
  else if c =? 0x74 then (Plain, 0x09 :: out)
  else if c =? 0x6E then (Plain, 0x0A :: out)
  else if c =? 0x72 then (Plain, 0x0D :: out)
  else if c =? 0x76 then (Plain, 0x0B :: out)
  else if c =? 0x61 then (Plain, 0x07 :: out)
  else if is_octal c then (Octal 2 (c - 0x30), out)
  else if c =? 0x78 then (Hex 2 0, out)
  else if c =? 0x75 then (Hex 4 0, out)
  else if c =? 0x55 then (Hex 8 0, out)
  else if c =? 0x4E then (NameStart, out)
  else (Plain, c :: 0x5C :: out).

Definition escape_step (names : str -> option N)
    (st : esc_state) (c : N) (out : list N) : Exc (esc_state * list N) :=
  match st with
  | Plain => Val (plain_step c out)
  | Backslash => Val (backslash_step c out)
  | Octal (S n) acc =>
      if is_octal c then Val (Octal n (acc * 8 + (c - 0x30)), out)
      else Val (plain_step c (acc :: out))
  | Octal O acc => Val (plain_step c (acc :: out))
  | Hex (S n) acc =>
      match hex_value c with
      | Some v =>
          let acc' := acc * 16 + v in
          match n with
          | O => if acc' <=? 0x10FFFF then Val (Plain, acc' :: out)
                 else Raise (escape_error "illegal Unicode character")
          | S _ => Val (Hex n acc', out)
          end
      | None => Raise (escape_error "truncated escape")
      end
  | Hex O acc => Val (plain_step c (acc :: out))
  | NameStart =>
      if c =? 0x7B then Val (Name [], out)
      else Raise (escape_error "malformed \N character escape")
  | Name acc =>
      if c =? 0x7D then
        match acc with
        | [] => Raise (escape_error "malformed \N character escape")
        | _ :: _ =>
            match names (rev acc) with
            | Some cp => Val (Plain, cp :: out)
            | None => Raise (escape_error "unknown Unicode character name")
            end
        end
      else Val (Name (c :: acc), out)
  end.

Definition escape_finish (st : esc_state) (out : list N) : Exc str :=
  match st with
  | Plain => Val (rev out)
  | Backslash => Raise (escape_error "\ at end of string")
  | Octal _ acc => Val (rev (acc :: out))
  | Hex _ _ => Raise (escape_error "truncated escape")
  | NameStart | Name _ => Raise (escape_error "malformed \N character escape")
  end.

Fixpoint escape_run (names : str -> option N)
    (st : esc_state) (out : list N) (b : bytes) : Exc str :=
  match b with
  | [] => escape_finish st out
  | c :: t =>
      exc_bind (escape_step names st c out) (fun '(st', out') =>
      escape_run names st' out' t)
  end.

Definition decode_unicode_escape (names : str -> option N) (b : bytes) : Exc str :=
  escape_run names Plain [] b.

(** *** json.dumps on a dict of strings (ensure_ascii, default separators) *)

Definition hex_digit (d : N) : N := if d <? 10 then 0x30 + d else 0x57 + d.

Definition u_escape (c : N) : str :=
  [0x5C; 0x75; hex_digit ((c / 4096) mod 16); hex_digit ((c / 256) mod 16);
   hex_digit ((c / 16) mod 16); hex_digit (c mod 16)].

Definition json_escape_char (c : N) : str :=
  if c =? 0x22 then [0x5C; 0x22]
  else if c =? 0x5C then [0x5C; 0x5C]
  else if c =? 0x0A then [0x5C; 0x6E]
  else if c =? 0x0D then [0x5C; 0x72]
  else if c =? 0x09 then [0x5C; 0x74]
  else if c =? 0x08 then [0x5C; 0x62]
  else if c =? 0x0C then [0x5C; 0x66]
  else if (0x20 <=? c) && (c <=? 0x7E) then [c]
  else if c <? 0x10000 then u_escape c
  else u_escape (0xD800 + (c - 0x10000) / 1024)
       ++ u_escape (0xDC00 + (c - 0x10000) mod 1024).

Definition json_string (s : str) : str :=
  [0x22] ++ concat (List.map json_escape_char s) ++ [0x22].

Definition json_dumps (d : list (str * str)) : str :=
  py "{" ++ join (py ", ")
              (List.map (fun '(k, v) => json_string k ++ py ": " ++ json_string v) d)
  ++ py "}".

End Py.
Import Py.

(* ===================================================================== *)
(** ** Data model *)
(* ===================================================================== *)

(** A file handed over by [st.file_uploader]: [doc.file_id], the identity
    streamlit gives each upload, [doc.name], [doc.type], [doc.size], and
    what [doc.seek(0); doc.read()] returns. *)
Record UploadedFile := {
  file_id : str;
  file_name : str;
  file_type : str;
  file_size : Z;
  file_bytes : bytes;
}.

(** [a == b] on uploads: streamlit's [UploadedFile.__eq__] compares the
    [file_id] of the two uploads and nothing else; [a == b] on lists of
    uploads compares the lengths and the elements in order. *)
Definition same_upload (a b : UploadedFile) : bool :=
  str_eqb (file_id a) (file_id b).

Fixpoint same_uploads (a b : list UploadedFile) : bool :=
  match a, b with
  | [], [] => true
  | x :: a', y :: b' => same_upload x y && same_uploads a' b'
  | _, _ => false
  end.

(** [tool_request['toolUse']]; the [input] object is kept as the list of
    its string-valued fields. *)
Record ToolUse := {
  toolUseId : str;
  tool_name : str;
  tool_input : list (str * str);
}.

Inductive ToolResultContent :=
| JsonContent (json : list (str * str))
| TextContent (text : str).

Record ToolResult := {
  result_toolUseId : str;
  result_content : list ToolResultContent;
  result_status : option str;
}.

(** One element of a message's [content] list, by the key it carries. *)
Inductive ContentBlock :=
| TextBlock (text : str)
| DocumentBlock (name format : str) (source : bytes)
| ImageBlock (format : str) (source : bytes)
| ToolUseBlock (tool : ToolUse)
| ToolResultBlock (tool_result : ToolResult).

Record Message := {
  role : str;
  content : list ContentBlock;
}.

(** An entry of [st.session_state.chat_history]; [generate_message] tests
    ['text' in message], so the key may be absent. *)
Record Turn := {
  turn_role : str;
  turn_text : option str;
}.

(** [tool_config()]: one tool specification. *)
Record ToolSpec := {
  spec_name : str;
  spec_description : str;
  spec_properties : list (str * (str * str));
  spec_required : list str;
}.

(** The keyword arguments of [bedrock_client.converse]; [req_system] is
    [None] when the call passes no [system] argument, and otherwise holds
    the text of its single block (the value of SYSTEM_PROMPT). *)
Record ConverseRequest := {
  req_modelId : option str;
  req_messages : list Message;
  req_system : option (option str);
  req_toolConfig : list ToolSpec;
}.

(** [response['output']['message']] and [response['stopReason']]. *)
Record ConverseResponse := {
  output_message : Message;
  stopReason : str;
}.

(** [st.session_state] *)
Record SessionState := {
  chat_history : list Turn;
  last_uploaded_docs : list UploadedFile;
  last_uploaded_images : list UploadedFile;
  enable_tts : bool;
  tts_language : str;
}.

(** What the Sarvam speech-to-text request does: [requests.post] followed
    by [raise_for_status] raises, or [response.json()] is a dict whose
    ["transcript"] may be missing. *)
Inductive SttReply :=
| SttJson (transcript : option str)
| SttRaises (e : exn).

(** Configuration read from the environment, and the services the program
    calls.  Each service is given by what one call returns or raises; the
    two backend calls of a turn carry different requests, so a function of
    the request can answer them differently. *)
Record Env := {
  SARVAM_API_KEY : option str;
  BEDROCK_AGENT_ID : option str;
  BEDROCK_AGENT_ALIAS_ID : option str;
  BEDROCK_MODEL_ID : option str;
  SYSTEM_PROMPT : option str;
  (** [boto3.client("bedrock-runtime")], then [client.converse(...)] *)
  runtime_client : Exc unit;
  converse : ConverseRequest -> Exc ConverseResponse;
  (** [boto3.client("bedrock-agent-runtime")], then [invoke_agent]: the
      call raises or returns the event stream; reading one event and
      decoding its chunk gives a string or raises. *)
  agent_client : Exc unit;
  invoke_agent : str -> Exc (list (Exc str));
  (** Sarvam speech-to-text on the bytes of the posted file *)
  sarvam_stt : bytes -> SttReply;
  (** Sarvam text-to-speech: the request raises or the JSON reply holds the
      list under ["audios"]; [base64.b64decode] of an entry. *)
  sarvam_tts : str -> str -> Exc (list str);
  b64decode : str -> Exc bytes;
  (** the name [tempfile.NamedTemporaryFile] picks, given the files present *)
  temp_name : gmap str bytes -> str;
  (** the table behind [\N{...}] in the unicode_escape codec *)
  unicode_names : str -> option N;
}.

(** What the user sees: the streamlit calls of [main]. *)
Inductive UiCall :=
| StChatMessage (who : str)
| StMarkdown (text : str)
| StAudio (audio : bytes)
| StWarning (text : str)
| StError (text : str).

(** The calls the properties speak about, recorded where they are made:
    [EvConverse] by each [bedrock_client.converse], [EvToolCall] on entry of
    [get_government_scheme_info], [EvInvokeAgent] by [invoke_agent], [EvStt]
    and [EvTts] by the two speech requests, [EvUi] by each streamlit call. *)
Inductive Event :=
| EvConverse (req : ConverseRequest)
| EvToolCall (query : str)
| EvInvokeAgent (query : str)
| EvStt (audio : bytes)
| EvTts (text language : str)
| EvUi (call : UiCall).

(** The mutable world: session state, file system and the calls so far
    (oldest first). *)
Record World := {
  session : SessionState;
  files : gmap str bytes;
  trace : list Event;
}.

(** ** Statements with effects

    A statement runs in a world and leaves a world behind, also when it
    raises: nothing is rolled back. *)
Definition IO (A : Type) : Type := World -> Exc A * World.

Definition ret {A} (a : A) : IO A := fun w => (Val a, w).

Definition raise {A} (e : exn) : IO A := fun w => (Raise e, w).

Definition bind {A B} (m : IO A) (k : A -> IO B) : IO B :=
  fun w =>
    match m w with
    | (Val a, w') => k a w'
    | (Raise e, w') => (Raise e, w')
    end.

Notation "x <- m ;; k" := (bind m (fun x => k))
  (at level 100, m at next level, right associativity).
Notation "m ;; k" := (bind m (fun _ => k))
  (at level 100, right associativity).

Definition lift {A} (r : Exc A) : IO A := fun w => (r, w).

(** [try: body / except Exception as e: ...]: the handler gets the outcome
    of the body. *)
Definition try_except {A} (body : IO A) : IO (Exc A) :=
  fun w => let '(r, w') := body w in (Val r, w').

Definition emit (e : Event) : IO unit :=
  fun w => (Val tt, {| session := session w; files := files w;
                       trace := trace w ++ [e] |}).

Definition ui (c : UiCall) : IO unit := emit (EvUi c).

Definition get_session : IO SessionState := fun w => (Val (session w), w).

Definition put_session (s : SessionState) : IO unit :=
  fun w => (Val tt, {| session := s; files := files w; trace := trace w |}).

Definition get_files : IO (gmap str bytes) := fun w => (Val (files w), w).

Definition put_files (f : gmap str bytes) : IO unit :=
  fun w => (Val tt, {| session := session w; files := f; trace := trace w |}).

(* ===================================================================== *)
(** ** Session initialisation (module level of app.py) *)
(* ===================================================================== *)

(** [l[-n:]] for [n > 0]: the last [n] elements, or all of [l] when it is
    shorter. *)
Definition slice_last {A} (n : nat) (l : list A) : list A :=
  drop (length l - n) l.

(** [if len(chat_history) > 50: chat_history = chat_history[-50:]] *)
Definition limit_chat_history (history : list Turn) : list Turn :=
  if (50 <? length history)%nat then slice_last 50 history else history.

(** [st.session_state] before the defaults are filled in: a key may be
    absent. *)
Record RawSession := {
  raw_chat_history : option (list Turn);
  raw_last_uploaded_docs : option (list UploadedFile);
  raw_last_uploaded_images : option (list UploadedFile);
  raw_enable_tts : option bool;
  raw_tts_language : option str;
}.

Definition session_init (raw : RawSession) : SessionState :=
  {| chat_history := limit_chat_history (default [] (raw_chat_history raw));
     last_uploaded_docs := default [] (raw_last_uploaded_docs raw);
     last_uploaded_images := default [] (raw_last_uploaded_images raw);
     enable_tts := default false (raw_enable_tts raw);
     tts_language := default (py "hi-IN") (raw_tts_language raw) |}.

(* ===================================================================== *)
(** ** Helpers *)
(* ===================================================================== *)

(** [re.sub(r"[^A-Za-z0-9\s\-\(\)\[\]]", "_", s)]: the characters the class
    keeps, and the substitution. *)
Definition filename_char_ok (c : N) : bool :=
  is_upper c || is_lower c || is_digit c || isspace c
  || (c =? 0x2D) || (c =? 0x28) || (c =? 0x29) || (c =? 0x5B) || (c =? 0x5D).

Definition sub_bad_chars (s : str) : str :=
  List.map (fun c => if filename_char_ok c then c else 0x5F) s.

(** [re.sub(r"\s+", " ", s)]: every maximal run of whitespace becomes one
    space; a whitespace character is emitted (as a space) only when it
    closes its run. *)
Fixpoint sub_space_runs (s : str) : str :=
  match s with
  | [] => []
  | c :: t =>
      if isspace c then
        match t with
        | c' :: _ => if isspace c' then sub_space_runs t
                     else 0x20 :: sub_space_runs t
        | [] => [0x20]
        end
      else c :: sub_space_runs t
  end.

Definition sanitize_filename (filename : str) : str :=
  let name_without_ext := default [] (first (rsplit1 0x2E filename)) in
  let sanitized := sub_bad_chars name_without_ext in
  let sanitized := strip (sub_space_runs sanitized) in
  sanitized.

Definition tool_config : list ToolSpec :=
  [ {| spec_name := py "government_scheme_info";
       spec_description := py "MANDATORY: Always use this tool for ANY question about: government schemes, budgets, MSME, subsidies, grants, policies, ministries, or government programs. Use this tool FIRST before analyzing any uploaded documents when the question relates to government topics. Do not attempt to answer government-related questions from uploaded documents alone.";
       spec_properties :=
         [ (py "query",
            (py "string",
             py "The exact user question about government schemes, budgets, MSME, subsidies, grants, or policies.")) ];
       spec_required := [py "query"] |} ].

(** [n > x] for an [int] and a [float] whose value is the rational [x]
    (Python compares the two exactly). *)
Definition int_gt_float (n : Z) (x : Q) : bool := negb (Qle_bool (inject_Z n) x).

Definition DOCUMENT_FORMATS : list str :=
  [py "txt"; py "pdf"; py "docx"; py "csv"; py "json"].

(** [doc.name.split('.')[-1].lower()] and [img.type.split('/')[-1]] *)
Definition document_format (name : str) : str :=
  lower (default [] (final (split 0x2E name))).

Definition image_format (type : str) : str :=
  default [] (final (split 0x2F type)).

Section App.

Context (env : Env).

(** The warning that the [except] branch logs is not modelled. *)
Definition decode_unicode_text (text : str) : Exc str :=
  let body :=
    if contains (py "\u") text then
      exc_bind (encode_utf8 text) (decode_unicode_escape (unicode_names env))
    else Val text in
  match body with
  | Val decoded => Val decoded
  | Raise e => Val text
  end.

(** [for event in response.get("completion"): result += chunk.decode()] *)
Fixpoint read_completion (events : list (Exc str)) (result : str) : Exc str :=
  match events with
  | [] => Val result
  | event :: rest =>
      exc_bind event (fun chunk => read_completion rest (result ++ chunk))
  end.

Definition get_government_scheme_info (query : str) : IO (list (str * str)) :=
  emit (EvToolCall query) ;;
  if negb (truthy_opt (BEDROCK_AGENT_ID env))
     || negb (truthy_opt (BEDROCK_AGENT_ALIAS_ID env))
  then ret [(py "error", py "Bedrock agent configuration missing")]
  else
    lift (agent_client env) ;;
    attempt <- try_except (emit (EvInvokeAgent query) ;;
                    response <- lift (invoke_agent env query) ;;
                    lift (read_completion response [])) ;;
    match attempt with
    | Raise e =>
        ret [(py "error", py "Failed to retrieve information due to internal error.")]
    | Val result =>
        if negb (truthy result)
        then ret [(py "error", py "No relevant information found for your query.")]
        else ret [(py "detail", result)]
    end.

Definition transcribe_audio (file_path : str) : IO str :=
  if negb (truthy_opt (SARVAM_API_KEY env))
  then raise (Exception (py "SARVAM API key not configured"))
  else
    fs <- get_files ;;
    match fs !! file_path with
    | None => raise (Exception (py "Audio file not found: " ++ file_path))
    | Some audio =>
        attempt <- try_except (emit (EvStt audio) ;;
                        match sarvam_stt env audio with
                        | SttRaises e => raise e
                        | SttJson reply =>
                            let transcript := default [] reply in
                            if negb (truthy transcript)
                            then raise (Exception (py "Empty transcript received from SARVAM API"))
                            else ret transcript
                        end) ;;
        match attempt with
        | Val transcript => ret transcript
        | Raise (HTTPError _ status_code body) =>
            let error_msg := py "HTTP error during audio transcription: "
                             ++ str_of_N status_code in
            raise (Exception
                     (error_msg ++ py " - " ++
                      match body with
                      | JsonBody message => default (py "Unknown error") message
                      | TextBody text => text
                      end))
        | Raise (Timeout _) =>
            raise (Exception (py "Audio transcription timed out after 45 seconds"))
        | Raise (RequestException text) =>
            raise (Exception (py "Network error during audio transcription: " ++ text))
        | Raise e =>
            if contains (py "Audio transcription") (exn_str e)
               || contains (py "HTTP error") (exn_str e)
            then raise e
            else raise (Exception (py "Unexpected error during audio transcription: "
                                   ++ exn_str e))
        end
    end.

Definition text_to_speech (text language : str) : IO bytes :=
  if negb (truthy_opt (SARVAM_API_KEY env))
  then raise (Exception (py "SARVAM API key not configured"))
  else
    emit (EvTts text language) ;;
    audios <- lift (sarvam_tts env text language) ;;
    match audios with
    | audio_data :: _ =>
        if truthy audio_data then lift (b64decode env audio_data)
        else raise (Exception (py "No audio data in response"))
    | [] => raise (Exception (py "No audio data in response"))
    end.

(** *** generate_message *)

(** The body of [for doc in documents[:5]]. *)
Definition document_block (doc : UploadedFile) : Exc ContentBlock :=
  if int_gt_float (file_size doc) (4.5 * 1024 * 1024)%Q then
    Raise (ValueError (py "Document '" ++ file_name doc ++ py "' exceeds 4.5MB limit."))
  else
    let doc_format := document_format (file_name doc) in
    if negb (bool_decide (doc_format ∈ DOCUMENT_FORMATS)) then
      Raise (ValueError (py "Unsupported document format: " ++ doc_format))
    else
      let doc_name := sanitize_filename (file_name doc) in
      Val (DocumentBlock doc_name doc_format (file_bytes doc)).

(** The body of [for img in images[:20]]. *)
Definition image_block (img : UploadedFile) : Exc ContentBlock :=
  if int_gt_float (file_size img) (3.75 * 1024 * 1024)%Q then
    Raise (ValueError (py "Image '" ++ file_name img ++ py "' exceeds 3.75MB limit."))
  else
    let img_format := image_format (file_type img) in
    let img_name := sanitize_filename (file_name img) in
    Val (ImageBlock img_format (file_bytes img)).

(** A [for] loop that appends one block per item and stops at the first
    item that raises. *)
Fixpoint append_blocks {A} (block : A -> Exc ContentBlock) (items : list A)
    (content_blocks : list ContentBlock) : Exc (list ContentBlock) :=
  match items with
  | [] => Val content_blocks
  | item :: rest =>
      exc_bind (block item) (fun b =>
      append_blocks block rest (content_blocks ++ [b]))
  end.

(** Lines 187-214: the text block, then the documents, then the images. *)
Definition build_content_blocks (input_text : str)
    (documents images : list UploadedFile) : Exc (list ContentBlock) :=
  let content_blocks := [TextBlock input_text] in
  exc_bind (append_blocks document_block (take 5 documents) content_blocks)
    (fun content_blocks =>
  append_blocks image_block (take 20 images) content_blocks).

(** Lines 216-222: the text-only projection of the history. *)
Definition history_messages (chat_history : list Turn) : list Message :=
  omap (fun message =>
          match turn_text message with
          | Some text => Some {| role := turn_role message;
                                 content := [TextBlock text] |}
          | None => None
          end) chat_history.

Definition call_converse (req : ConverseRequest) : IO ConverseResponse :=
  emit (EvConverse req) ;; lift (converse env req).

(** Lines 247-258: the [try]/[except] around the tool call. *)
Definition run_tool (tool : ToolUse) : IO ToolResult :=
  attempt <- try_except
    (query <- lift (dict_get (py "query") (tool_input tool)) ;;
     result <- get_government_scheme_info query ;;
     ret {| result_toolUseId := toolUseId tool;
            result_content :=
              [JsonContent [(py "result", py "Tool Result: " ++ json_dumps result)]];
            result_status := None |}) ;;
  match attempt with
  | Val tool_result => ret tool_result
  | Raise err =>
      ret {| result_toolUseId := toolUseId tool;
             result_content := [TextContent (py "Tool Result: " ++ exn_str err)];
             result_status := Some (py "error") |}
  end.

(** Lines 243-274: the loop over [tool_requests]; the [return] inside the
    loop leaves the function, the fall-through returns the first
    response's message. *)
Fixpoint answer_tool_requests (model_id : option str) (messages : list Message)
    (first_message : Message) (tool_requests : list ContentBlock) : IO Message :=
  match tool_requests with
  | [] => ret first_message
  | ToolUseBlock tool :: rest =>
      if str_eqb (tool_name tool) (py "government_scheme_info") then
        tool_result <- run_tool tool ;;
        let tool_result_message :=
          {| role := py "user"; content := [ToolResultBlock tool_result] |} in
        let messages := messages ++ [tool_result_message] in
        response <- call_converse {| req_modelId := model_id;
                                     req_messages := messages;
                                     req_system := None;
                                     req_toolConfig := tool_config |} ;;
        ret (output_message response)
      else answer_tool_requests model_id messages first_message rest
  | _ :: rest => answer_tool_requests model_id messages first_message rest
  end.

Definition generate_message (model_id : option str) (input_text : str)
    (documents images : list UploadedFile)
    (chat_history_arg : option (list Turn)) : IO Message :=
  state <- get_session ;;
  let chat_history := default (chat_history state) chat_history_arg in
  if negb (truthy input_text) || negb (truthy (strip input_text)) then
    raise (ValueError (py "Input text cannot be empty"))
  else
    content_blocks <- lift (build_content_blocks input_text documents images) ;;
    let messages := history_messages chat_history in
    let messages := messages ++ [{| role := py "user"; content := content_blocks |}] in
    response <- call_converse {| req_modelId := model_id;
                                 req_messages := messages;
                                 req_system := Some (SYSTEM_PROMPT env);
                                 req_toolConfig := tool_config |} ;;
    let first_message := output_message response in
    let stop_reason := stopReason response in
    let messages := messages ++ [first_message] in
    if str_eqb stop_reason (py "tool_use") then
      answer_tool_requests model_id messages first_message (content first_message)
    else ret first_message.

(** *** main *)

Definition named_temporary_file (data : bytes) : IO str :=
  fs <- get_files ;;
  let temp_path := temp_name env fs in
  put_files (<[temp_path := data]> fs) ;;
  ret temp_path.

Definition os_unlink (path : str) : IO unit :=
  fs <- get_files ;;
  match fs !! path with
  | Some _ => put_files (delete path fs)
  | None => raise (FileNotFoundError path)
  end.

(** How the voice block of [main] ends: with the transcript, or with the
    [return] of its [except] branch. *)
Inductive VoiceOutcome :=
| Transcribed (audio_prompt : str)
| VoiceAborted.

(** Lines 350-365. *)
Definition transcription_step (wav : bytes) : IO VoiceOutcome :=
  attempt <- try_except
    (temp_path <- named_temporary_file wav ;;
     audio_prompt <- transcribe_audio temp_path ;;
     audio_prompt <- lift (decode_unicode_text audio_prompt) ;;
     os_unlink temp_path ;;
     ret audio_prompt) ;;
  match attempt with
  | Val audio_prompt => ret (Transcribed audio_prompt)
  | Raise e =>
      ui (StError (py "Audio transcription failed: " ++ exn_str e)) ;;
      ret VoiceAborted
  end.

(** [output_message['content'][0]['text']] *)
Definition first_text (message : Message) : Exc str :=
  match content message with
  | [] => Raise (IndexError (py "list index out of range"))
  | TextBlock text :: _ => Val text
  | _ :: _ => Raise (KeyError (py "text"))
  end.

Definition append_history (turn : Turn) : IO unit :=
  state <- get_session ;;
  put_session {| chat_history := chat_history state ++ [turn];
                 last_uploaded_docs := last_uploaded_docs state;
                 last_uploaded_images := last_uploaded_images state;
                 enable_tts := enable_tts state;
                 tts_language := tts_language state |}.

(** How one run of the submission block ends. *)
Inductive TtsOutcome :=
| TtsDisabled
| TtsPlayed
| TtsFailed (e : exn).

Inductive TurnOutcome :=
| NotSubmitted
| EmptyPrompt
| Completed (assistant_response : str) (tts : TtsOutcome)
| Failed (e : exn).

(** Lines 395-400. *)
Definition speak_reply (assistant_response : str) : IO TtsOutcome :=
  state <- get_session ;;
  if enable_tts state then
    attempt <- try_except
      (audio_data <- text_to_speech assistant_response (tts_language state) ;;
       ui (StAudio audio_data)) ;;
    match attempt with
    | Val _ => ret TtsPlayed
    | Raise e =>
        ui (StWarning (py "TTS failed: " ++ exn_str e)) ;;
        ret (TtsFailed e)
    end
  else ret TtsDisabled.

(** Lines 381-403: the body of the outer [try]. *)
Definition turn_body (prompt : str)
    (documents images : list UploadedFile) : IO TurnOutcome :=
  if negb (truthy (strip prompt)) then
    ui (StWarning (py "Please enter a prompt.")) ;;
    ret EmptyPrompt
  else
    ui (StChatMessage (py "user")) ;;
    ui (StMarkdown prompt) ;;
    ui (StChatMessage (py "assistant")) ;;
    lift (runtime_client env) ;;
    message <- generate_message (BEDROCK_MODEL_ID env) prompt documents images None ;;
    assistant_response <- lift (first_text message) ;;
    ui (StMarkdown assistant_response) ;;
    tts <- speak_reply assistant_response ;;
    append_history {| turn_role := py "user"; turn_text := Some prompt |} ;;
    append_history {| turn_role := py "assistant";
                      turn_text := Some assistant_response |} ;;
    ret (Completed assistant_response tts).

(** Line 377: the typed text wins over the transcript. *)
Definition submitted_prompt (text_input audio_prompt : option str) : str :=
  if truthy_opt text_input then strip (default [] text_input)
  else if truthy_opt audio_prompt then strip (default [] audio_prompt)
  else [].

(** Lines 367-408. *)
Definition submit (text_input audio_prompt : option str)
    (documents images : list UploadedFile) : IO TurnOutcome :=
  state <- get_session ;;
  let docs_changed := negb (same_uploads documents (last_uploaded_docs state)) in
  let images_changed := negb (same_uploads images (last_uploaded_images state)) in
  put_session {| chat_history := chat_history state;
                 last_uploaded_docs :=
                   if docs_changed then documents else last_uploaded_docs state;
                 last_uploaded_images :=
                   if images_changed then images else last_uploaded_images state;
                 enable_tts := enable_tts state;
                 tts_language := tts_language state |} ;;
  let prompt := submitted_prompt text_input audio_prompt in
  if truthy prompt && negb (docs_changed || images_changed) then
    attempt <- try_except (turn_body prompt documents images) ;;
    match attempt with
    | Val outcome => ret outcome
    | Raise (ClientError text message) =>
        ui (StError (py "A client error occurred: " ++ message)) ;;
        ret (Failed (ClientError text message))
    | Raise e =>
        ui (StError (py "Unexpected error: " ++ exn_str e)) ;;
        ret (Failed e)
    end
  else ret NotSubmitted.

(** Lines 338-408 of [main]: the recording, when there is one, is
    transcribed first; a failed transcription ends the run. *)
Definition main (text_input : option str) (recording : option bytes)
    (documents images : list UploadedFile) : IO (option TurnOutcome) :=
  match recording with
  | Some wav =>
      ui (StAudio wav) ;;
      voice <- transcription_step wav ;;
      match voice with
      | VoiceAborted => ret None
      | Transcribed audio_prompt =>
          outcome <- submit text_input (Some audio_prompt) documents images ;;
          ret (Some outcome)
      end
  | None =>
      outcome <- submit text_input None documents images ;;
      ret (Some outcome)
  end.

End App.

(* ===================================================================== *)
(** ** Predicates used in the statements *)
(* ===================================================================== *)

(** A string is single-spaced when each of its whitespace characters is a
    space that is not followed by whitespace. *)
Fixpoint single_spaced (s : str) : Prop :=
  match s with
  | [] => True
  | c :: t =>
      (isspace c = true ->
       c = 0x20 /\ match t with c' :: _ => isspace c' = false | [] => True end)
      /\ single_spaced t
  end.

(** The characters a sanitised name is made of. *)
Definition kept (c : N) : Prop := filename_char_ok c = true \/ c = 0x5F.

(** What [strip] returns does not start with whitespace. *)
Definition no_leading_space (s : str) : Prop :=
  match s with c :: _ => isspace c = false | [] => True end.

(** The shape of every sanitised name. *)
Definition sanitized (s : str) : Prop :=
  Forall kept s /\ single_spaced s /\ strip s = s.

(** The same file with another size. *)
Definition with_size (f : UploadedFile) (n : Z) : UploadedFile :=
  {| file_id := file_id f; file_name := file_name f; file_type := file_type f;
     file_size := n; file_bytes := file_bytes f |}.

(** An attachment that passes the checks of its loop body. *)
Definition document_ok (doc : UploadedFile) : Prop :=
  (inject_Z (file_size doc) <= 4.5 * 1024 * 1024)%Q
  /\ document_format (file_name doc) ∈ DOCUMENT_FORMATS.

Definition image_ok (img : UploadedFile) : Prop :=
  (inject_Z (file_size img) <= 3.75 * 1024 * 1024)%Q.

(** A prompt that is empty or holds whitespace only. *)
Definition blank (s : str) : Prop := Forall (fun c => isspace c = true) s.

(** The world after further calls were recorded. *)
Definition record (w : World) (events : list Event) : World :=
  {| session := session w; files := files w; trace := trace w ++ events |}.

(** The history after a completed turn. *)
Definition history_after (history : list Turn) (prompt assistant_response : str)
    : list Turn :=
  history ++ [{| turn_role := py "user"; turn_text := Some prompt |};
              {| turn_role := py "assistant"; turn_text := Some assistant_response |}].

(** Whether the submission block runs a turn: the prompt is not empty and
    the documents and the images are the last-seen ones. *)
Definition submits (state : SessionState) (text_input audio_prompt : option str)
    (documents images : list UploadedFile) : bool :=
  truthy (submitted_prompt text_input audio_prompt)
  && same_uploads documents (last_uploaded_docs state)
  && same_uploads images (last_uploaded_images state).

(** The session once [submit] has noted the attachments it was given: a
    list that differs from the last-seen one replaces it. *)
Definition noted_session (state : SessionState) (documents images : list UploadedFile)
    : SessionState :=
  {| chat_history := chat_history state;
     last_uploaded_docs :=
       if negb (same_uploads documents (last_uploaded_docs state))
       then documents else last_uploaded_docs state;
     last_uploaded_images :=
       if negb (same_uploads images (last_uploaded_images state))
       then images else last_uploaded_images state;
     enable_tts := enable_tts state;
     tts_language := tts_language state |}.

Definition note_uploads (w : World) (documents images : list UploadedFile) : World :=
  {| session := noted_session (session w) documents images;
     files := files w; trace := trace w |}.

(** What a turn shows before it calls the backend. *)
Definition turn_opening (prompt : str) : list Event :=
  [EvUi (StChatMessage (py "user")); EvUi (StMarkdown prompt);
   EvUi (StChatMessage (py "assistant"))].

(** A statement that only records calls: it leaves the session and the
    files alone, whether it returns or raises. *)
Definition traced {A} (m : IO A) : Prop :=
  forall w, exists events, snd (m w) = record w events.

(** The knowledge agent, as [get_government_scheme_info] uses it: both
    identifiers are set; the whole answer is read, or the call or the stream
    raises. *)
Definition agent_configured (env : Env) : Prop :=
  truthy_opt (BEDROCK_AGENT_ID env) = true
  /\ truthy_opt (BEDROCK_AGENT_ALIAS_ID env) = true.

Definition agent_reply (env : Env) (query : str) : Exc str :=
  exc_bind (invoke_agent env query) (fun response => read_completion response []).

(** The calls [run_tool] records for one [toolUse] entry: none when the
    entry has no query, else the call of the tool and, when the agent is
    configured and its client can be made, the call of the agent. *)
Definition tool_events (env : Env) (tool : ToolUse) : list Event :=
  match dict_get (py "query") (tool_input tool) with
  | Raise _ => []
  | Val query =>
      EvToolCall query
      :: (if truthy_opt (BEDROCK_AGENT_ID env) && truthy_opt (BEDROCK_AGENT_ALIAS_ID env)
          then match agent_client env with
               | Val _ => [EvInvokeAgent query]
               | Raise _ => []
               end
          else [])
  end.

(** The messages of the first backend call of a turn, and the two requests
    of a turn. *)
Definition turn_messages (w : World) (history : option (list Turn))
    (content_blocks : list ContentBlock) : list Message :=
  history_messages (default (chat_history (session w)) history)
  ++ [{| role := py "user"; content := content_blocks |}].

Definition first_request (env : Env) (model_id : option str)
    (messages : list Message) : ConverseRequest :=
  {| req_modelId := model_id; req_messages := messages;
     req_system := Some (SYSTEM_PROMPT env); req_toolConfig := tool_config |}.

Definition follow_up_request (model_id : option str) (messages : list Message)
    (first_message : Message) (tool_result : ToolResult) : ConverseRequest :=
  {| req_modelId := model_id;
     req_messages :=
       (messages ++ [first_message])
       ++ [{| role := py "user"; content := [ToolResultBlock tool_result] |}];
     req_system := None; req_toolConfig := tool_config |}.

(** What a call of [converse] gives back to [generate_message]. *)
Definition reply_message (r : Exc ConverseResponse) : Exc Message :=
  match r with
  | Val response => Val (output_message response)
  | Raise e => Raise e
  end.

(** Counting the calls of a trace. *)
Definition is_converse (e : Event) : bool :=
  match e with EvConverse _ => true | _ => false end.

Definition is_tool_call (e : Event) : bool :=
  match e with EvToolCall _ => true | _ => false end.

Definition converse_calls (events : list Event) : nat :=
  length (List.filter is_converse events).

Definition tool_calls (events : list Event) : nat :=
  length (List.filter is_tool_call events).

(** The [toolUse] entries of a content list that name the known tool. *)
Definition known_tool (block : ContentBlock) : option ToolUse :=
  match block with
  | ToolUseBlock tool =>
      if str_eqb (tool_name tool) (py "government_scheme_info") then Some tool
      else None
  | _ => None
  end.

Definition known_tools (blocks : list ContentBlock) : list ToolUse :=
  omap known_tool blocks.

(* ===================================================================== *)
(** ** Sample inputs *)
(* ===================================================================== *)

Definition numbered_turn (i : nat) : Turn :=
  {| turn_role := if Nat.even i then py "user" else py "assistant";
     turn_text := Some (py "turn " ++ str_of_N (N.of_nat i)) |}.

(** A history of [n] turns, oldest first. *)
Definition sample_history (n : nat) : list Turn := List.map numbered_turn (seq 0 n).

Definition sample_doc : UploadedFile :=
  {| file_id := py "upload-1";
     file_name := py "Budget Notes.TXT"; file_type := py "text/plain";
     file_size := 4; file_bytes := py "MSME" |}.

Definition sample_img : UploadedFile :=
  {| file_id := py "upload-2";
     file_name := py "scan.png"; file_type := py "image/png";
     file_size := 3; file_bytes := [0x89; 0x50; 0x4E] |}.

Definition empty_session : SessionState :=
  {| chat_history := []; last_uploaded_docs := []; last_uploaded_images := [];
     enable_tts := false; tts_language := py "hi-IN" |}.

Definition empty_world : World :=
  {| session := empty_session; files := ∅; trace := [] |}.

(** A session with one earlier exchange and text-to-speech switched on. *)
Definition speaking_world : World :=
  {| session := {| chat_history := sample_history 2;
                   last_uploaded_docs := []; last_uploaded_images := [];
                   enable_tts := true; tts_language := py "hi-IN" |};
     files := ∅; trace := [] |}.

Definition scheme_tool (id query : string) : ToolUse :=
  {| toolUseId := py id; tool_name := py "government_scheme_info";
     tool_input := [(py "query", py query)] |}.

Definition scheme_request (id query : string) : ContentBlock :=
  ToolUseBlock (scheme_tool id query).

Definition text_message (who text : string) : Message :=
  {| role := py who; content := [TextBlock (py text)] |}.

(** A backend that answers the first call of a turn (the one that carries
    the system prompt) with [first] and any follow-up call with a final
    text; the agent answers [chunks]; speech-to-text gives [stt]. *)
Definition sample_env (first : ConverseResponse)
    (agent : Exc (list (Exc str))) (stt : SttReply) : Env :=
  {| SARVAM_API_KEY := Some (py "key");
     BEDROCK_AGENT_ID := Some (py "AGENT");
     BEDROCK_AGENT_ALIAS_ID := Some (py "ALIAS");
     BEDROCK_MODEL_ID := Some (py "model");
     SYSTEM_PROMPT := Some (py "You are a helpful assistant.");
     runtime_client := Val tt;
     converse := fun req =>
       match req_system req with
       | Some _ => Val first
       | None => Val {| output_message := text_message "assistant" "The scheme offers a subsidy.";
                        stopReason := py "end_turn" |}
       end;
     agent_client := Val tt;
     invoke_agent := fun _ => agent;
     sarvam_stt := fun _ => stt;
     sarvam_tts := fun _ _ => Raise (Timeout (py "read timed out"));
     b64decode := fun _ => Val [];
     temp_name := fun _ => py "/tmp/tmpa1b2c3.wav";
     unicode_names := fun _ => None |}.

(** The same services behind a backend that rejects every call. *)
Definition backend_down (env : Env) : Env :=
  {| SARVAM_API_KEY := SARVAM_API_KEY env;
     BEDROCK_AGENT_ID := BEDROCK_AGENT_ID env;
     BEDROCK_AGENT_ALIAS_ID := BEDROCK_AGENT_ALIAS_ID env;
     BEDROCK_MODEL_ID := BEDROCK_MODEL_ID env;
     SYSTEM_PROMPT := SYSTEM_PROMPT env;
     runtime_client := runtime_client env;
     converse := fun _ =>
       Raise (ClientError (py "An error occurred (AccessDeniedException)")
                          (py "Access denied"));
     agent_client := agent_client env;
     invoke_agent := invoke_agent env;
     sarvam_stt := sarvam_stt env;
     sarvam_tts := sarvam_tts env;
     b64decode := b64decode env;
     temp_name := temp_name env;
     unicode_names := unicode_names env |}.

(** The first response asks twice for the known tool. *)
Definition two_requests : ConverseResponse :=
  {| output_message :=
       {| role := py "assistant";
          content := [TextBlock (py "Let me look that up.");
                      scheme_request "tool-1" "MSME subsidy";
                      scheme_request "tool-2" "MSME grant"] |};
     stopReason := py "tool_use" |}.

(** The first response asks for a tool the program does not know. *)
Definition unknown_request : ConverseResponse :=
  {| output_message :=
       {| role := py "assistant";
          content := [ToolUseBlock {| toolUseId := py "tool-9";
                                      tool_name := py "weather";
                                      tool_input := [] |}] |};
     stopReason := py "tool_use" |}.

Definition final_answer : ConverseResponse :=
  {| output_message := text_message "assistant" "Namaste.";
     stopReason := py "end_turn" |}.

Definition agent_answers : Exc (list (Exc str)) :=
  Val [Val (py "Subsidy of "); Val (py "25 percent.")].

Definition agent_unreachable : Exc (list (Exc str)) :=
  Raise (ClientError (py "An error occurred (ThrottlingException)") (py "Rate exceeded")).

Definition stt_ok : SttReply := SttJson (Some (py "\u0928\u092e\u0938\u094d\u0924\u0947")).

Definition stt_timeout : SttReply := SttRaises (Timeout (py "read timed out")).

(* ===================================================================== *)
(** ** Further predicates and samples *)
(* ===================================================================== *)

(** The two shapes of the dict [get_government_scheme_info] returns. *)
Definition scheme_info_error (result : list (str * str)) : Prop :=
  exists message, result = [(py "error", message)].

Definition scheme_info_detail (result : list (str * str)) : Prop :=
  exists detail, result = [(py "detail", detail)] /\ detail <> [].

(** A world in which the recording has been written to [path]. *)
Definition with_file (w : World) (path : str) (data : bytes) : World :=
  {| session := session w; files := <[path := data]> (files w); trace := trace w |}.

(** The services of [env] without a Sarvam key. *)
Definition without_sarvam_key (env : Env) : Env :=
  {| SARVAM_API_KEY := None;
     BEDROCK_AGENT_ID := BEDROCK_AGENT_ID env;
     BEDROCK_AGENT_ALIAS_ID := BEDROCK_AGENT_ALIAS_ID env;
     BEDROCK_MODEL_ID := BEDROCK_MODEL_ID env;
     SYSTEM_PROMPT := SYSTEM_PROMPT env;
     runtime_client := runtime_client env;
     converse := converse env;
     agent_client := agent_client env;
     invoke_agent := invoke_agent env;
     sarvam_stt := sarvam_stt env;
     sarvam_tts := sarvam_tts env;
     b64decode := b64decode env;
     temp_name := temp_name env;
     unicode_names := unicode_names env |}.

(** The services of [env] with an empty agent alias and in a process that
    cannot make the agent client. *)
Definition without_agent_alias (env : Env) : Env :=
  {| SARVAM_API_KEY := SARVAM_API_KEY env;
     BEDROCK_AGENT_ID := BEDROCK_AGENT_ID env;
     BEDROCK_AGENT_ALIAS_ID := Some [];
     BEDROCK_MODEL_ID := BEDROCK_MODEL_ID env;
     SYSTEM_PROMPT := SYSTEM_PROMPT env;
     runtime_client := runtime_client env;
     converse := converse env;
     agent_client := Raise (Exception (py "You must specify a region."));
     invoke_agent := invoke_agent env;
     sarvam_stt := sarvam_stt env;
     sarvam_tts := sarvam_tts env;
     b64decode := b64decode env;
     temp_name := temp_name env;
     unicode_names := unicode_names env |}.

Definition demo_env : Env := sample_env final_answer agent_answers stt_ok.

(** The services of [env] with a speech service that answers [audios],
    whose entries decode to [audio]. *)
Definition with_speech (env : Env) (audios : list str) (audio : bytes) : Env :=
  {| SARVAM_API_KEY := SARVAM_API_KEY env;
     BEDROCK_AGENT_ID := BEDROCK_AGENT_ID env;
     BEDROCK_AGENT_ALIAS_ID := BEDROCK_AGENT_ALIAS_ID env;
     BEDROCK_MODEL_ID := BEDROCK_MODEL_ID env;
     SYSTEM_PROMPT := SYSTEM_PROMPT env;
     runtime_client := runtime_client env;
     converse := converse env;
     agent_client := agent_client env;
     invoke_agent := invoke_agent env;
     sarvam_stt := sarvam_stt env;
     sarvam_tts := fun _ _ => Val audios;
     b64decode := fun _ => Val audio;
     temp_name := temp_name env;
     unicode_names := unicode_names env |}.

(** A turn of the history that has a text (['text' in message]), and its
    message. *)
Definition has_text (turn : Turn) : bool :=
  match turn_text turn with
  | Some _ => true
  | None => false
  end.

Definition turn_message (turn : Turn) : Message :=
  {| role := turn_role turn; content := [TextBlock (default [] (turn_text turn))] |}.

(** A document block as the normaliser builds them: an allowed format and
    a sanitised name; an image block. *)
Definition valid_document_block (block : ContentBlock) : Prop :=
  match block with
  | DocumentBlock name format _ => format ∈ DOCUMENT_FORMATS /\ sanitized name
  | _ => False
  end.

Definition is_image_block (block : ContentBlock) : Prop :=
  match block with
  | ImageBlock _ _ => True
  | _ => False
  end.

(** The session state as the next run of the script finds it. *)
Definition as_raw (state : SessionState) : RawSession :=
  {| raw_chat_history := Some (chat_history state);
     raw_last_uploaded_docs := Some (last_uploaded_docs state);
     raw_last_uploaded_images := Some (last_uploaded_images state);
     raw_enable_tts := Some (enable_tts state);
     raw_tts_language := Some (tts_language state) |}.

(** The session after a completed turn: the history grows, the rest stays. *)
Definition completed_session (state : SessionState) (prompt assistant_response : str)
    : SessionState :=
  {| chat_history := history_after (chat_history state) prompt assistant_response;
     last_uploaded_docs := last_uploaded_docs state;
     last_uploaded_images := last_uploaded_images state;
     enable_tts := enable_tts state;
     tts_language := tts_language state |}.

(** An event that is not a call of the backend or of the tool. *)
Definition local_event (e : Event) : Prop :=
  is_converse e = false /\ is_tool_call e = false.

(** A code point that is ASCII and not a backslash: the unicode-escape pass
    has nothing to do with it. *)
Definition plain_ascii (c : N) : Prop := c < 0x80 /\ c <> 0x5C.

(** The code point that four hexadecimal digits spell. *)
Definition hex4 (d1 d2 d3 d4 : N) : N := ((d1 * 16 + d2) * 16 + d3) * 16 + d4.


(** The same file uploaded again: the upload gets an id of its own. *)
Definition uploaded_again (f : UploadedFile) (id : str) : UploadedFile :=
  {| file_id := id; file_name := file_name f; file_type := file_type f;
     file_size := file_size f; file_bytes := file_bytes f |}.

(** A world in which [documents] are the last-seen documents. *)
Definition with_last_docs (w : World) (documents : list UploadedFile) : World :=
  {| session := {| chat_history := chat_history (session w);
                   last_uploaded_docs := documents;
                   last_uploaded_images := last_uploaded_images (session w);
                   enable_tts := enable_tts (session w);
                   tts_language := tts_language (session w) |};
     files := files w; trace := trace w |}.

(** The world the next run of the script works in: the session as the
    initialisation at the top of the script leaves it. *)
Definition next_run (w : World) : World :=
  {| session := session_init (as_raw (session w));
     files := files w; trace := trace w |}.
(* ===================================================================== *)
(** * Properties *)
(* ===================================================================== *)

(** Closed decidable goals are settled by evaluation. *)
Ltac decided := apply (bool_decide_unpack _); vm_compute; exact I.

(** ** Filename sanitisation *)

Example sanitize_report :
  sanitize_filename (py "my  report (v2).final.pdf") = py "my report (v2)_final".
Proof. reflexivity. Qed.

Example sanitize_no_extension : sanitize_filename (py " a+b ") = py "a_b".
Proof. reflexivity. Qed.

Section Sanitize.

Lemma kept_not_dot c : kept c -> c <> 0x2E.
Proof. intros [H | E] ->; [vm_compute in H|]; discriminate. Qed.

Lemma sub_bad_chars_kept s : Forall kept (sub_bad_chars s).
Proof.
  induction s as [|c t IH]; simpl; constructor; auto.
  destruct (filename_char_ok c) eqn:E; [left | right]; auto.
Qed.

Lemma sub_bad_chars_fixed s : Forall kept s -> sub_bad_chars s = s.
Proof.
  induction 1 as [|c t [H | ->] _ IH]; simpl; [reflexivity | |].
  - rewrite H. f_equal. exact IH.
  - f_equal. exact IH.
Qed.

Lemma rfind_none sep s : Forall (fun c => c <> sep) s -> rfind sep s = None.
Proof.
  induction 1 as [|c t H _ IH]; simpl; [reflexivity|].
  rewrite IH. apply N.eqb_neq in H. rewrite H. reflexivity.
Qed.

Lemma rsplit1_no_sep sep s :
  Forall (fun c => c <> sep) s -> first (rsplit1 sep s) = Some s.
Proof. intros H. unfold rsplit1. rewrite rfind_none by exact H. reflexivity. Qed.

Lemma space_kept : kept 0x20.
Proof. left. reflexivity. Qed.

Lemma sub_space_runs_kept s : Forall kept s -> Forall kept (sub_space_runs s).
Proof.
  induction 1 as [|c t Hc Ht IH]; simpl; [constructor|].
  destruct (isspace c).
  - destruct t as [|c' t']; [repeat constructor; apply space_kept|].
    destruct (isspace c'); [exact IH|constructor; [apply space_kept|exact IH]].
  - constructor; assumption.
Qed.

Lemma sub_space_runs_head c t :
  isspace c = false -> sub_space_runs (c :: t) = c :: sub_space_runs t.
Proof. intros H. simpl. rewrite H. reflexivity. Qed.

Lemma sub_space_runs_single_spaced s : single_spaced (sub_space_runs s).
Proof.
  induction s as [|c t IH]; [exact I|].
  cbn [sub_space_runs]. destruct (isspace c) eqn:Ec.
  - destruct t as [|c' t']; [simpl; auto|].
    destruct (isspace c') eqn:Ec'; [exact IH|].
    split; [|exact IH]. intros _. split; [reflexivity|].
    rewrite sub_space_runs_head by exact Ec'. exact Ec'.
  - split; [|exact IH]. intros H. congruence.
Qed.

Lemma sub_space_runs_fixed s : single_spaced s -> sub_space_runs s = s.
Proof.
  induction s as [|c t IH]; [reflexivity|].
  intros [Hc Ht]. cbn [sub_space_runs]. destruct (isspace c) eqn:Ec.
  - destruct (Hc eq_refl) as [-> Hn]. destruct t as [|c' t']; [reflexivity|].
    rewrite Hn. f_equal. apply IH, Ht.
  - f_equal. apply IH, Ht.
Qed.

Lemma lstrip_suffix s : exists p, s = p ++ lstrip s.
Proof.
  induction s as [|c t [p IH]]; [exists []; reflexivity|].
  simpl. destruct (isspace c).
  - exists (c :: p). simpl. f_equal. exact IH.
  - exists []. reflexivity.
Qed.

Lemma single_spaced_app_r p s : single_spaced (p ++ s) -> single_spaced s.
Proof. induction p as [|c p IH]; simpl; [auto|]. intros [_ H]. auto. Qed.

Lemma lstrip_single_spaced s : single_spaced s -> single_spaced (lstrip s).
Proof.
  intros H. destruct (lstrip_suffix s) as [p E]. rewrite E in H.
  eapply single_spaced_app_r, H.
Qed.

Lemma lstrip_kept s : Forall kept s -> Forall kept (lstrip s).
Proof.
  intros H. destruct (lstrip_suffix s) as [p E]. rewrite E in H.
  apply Forall_app in H. apply H.
Qed.

(** [rstrip] keeps the head of what it keeps. *)
Lemma rstrip_cons_inv s c r : rstrip s = c :: r -> exists t, s = c :: t.
Proof.
  destruct s as [|d t]; simpl; [discriminate|].
  destruct (rstrip t); [destruct (isspace d)|]; intros H; inversion H; eauto.
Qed.

Lemma rstrip_single_spaced s : single_spaced s -> single_spaced (rstrip s).
Proof.
  induction s as [|c t IH]; [auto|]. intros [Hc Ht]. simpl.
  destruct (rstrip t) as [|d r] eqn:E.
  - destruct (isspace c) eqn:Ec; simpl; [exact I|]. split; [congruence|exact I].
  - split; [|apply IH, Ht]. intros Hs. destruct (Hc Hs) as [-> Hn].
    split; [reflexivity|]. apply rstrip_cons_inv in E as [t' ->]. exact Hn.
Qed.

Lemma rstrip_kept s : Forall kept s -> Forall kept (rstrip s).
Proof.
  induction 1 as [|c t Hc Ht IH]; simpl; [constructor|].
  destruct (rstrip t); [destruct (isspace c)|]; try constructor; auto.
Qed.

Lemma lstrip_no_leading s : no_leading_space (lstrip s).
Proof.
  induction s as [|c t IH]; simpl; [exact I|].
  destruct (isspace c) eqn:E; [exact IH|exact E].
Qed.

Lemma lstrip_fixed s : no_leading_space s -> lstrip s = s.
Proof. destruct s as [|c t]; simpl; [reflexivity|]. intros ->. reflexivity. Qed.

Lemma rstrip_no_leading s : no_leading_space s -> no_leading_space (rstrip s).
Proof.
  destruct s as [|c t]; simpl; [auto|]. intros H. rewrite H.
  destruct (rstrip t); exact H.
Qed.

Lemma rstrip_idempotent s : rstrip (rstrip s) = rstrip s.
Proof.
  induction s as [|c t IH]; [reflexivity|]. simpl.
  destruct (rstrip t) as [|d r] eqn:E.
  - destruct (isspace c) eqn:Ec; simpl; [reflexivity|]. rewrite Ec. reflexivity.
  - cbn [rstrip] in IH |- *. rewrite IH. reflexivity.
Qed.

Lemma strip_idempotent s : strip (strip s) = strip s.
Proof.
  unfold strip.
  rewrite (lstrip_fixed (rstrip (lstrip s))).
  - apply rstrip_idempotent.
  - apply rstrip_no_leading, lstrip_no_leading.
Qed.

Lemma sanitize_filename_sanitized x : sanitized (sanitize_filename x).
Proof.
  unfold sanitize_filename, sanitized.
  set (n := default [] (first (rsplit1 0x2E x))).
  split; [|split].
  - apply rstrip_kept, lstrip_kept, sub_space_runs_kept, sub_bad_chars_kept.
  - apply rstrip_single_spaced, lstrip_single_spaced, sub_space_runs_single_spaced.
  - apply strip_idempotent.
Qed.

Lemma sanitize_filename_fixed s : sanitized s -> sanitize_filename s = s.
Proof.
  intros (Hk & Hs & Ht). unfold sanitize_filename.
  rewrite rsplit1_no_sep.
  - simpl. rewrite sub_bad_chars_fixed by exact Hk.
    rewrite sub_space_runs_fixed by exact Hs. exact Ht.
  - eapply Forall_impl; [exact Hk|]. intros c. apply kept_not_dot.
Qed.

End Sanitize.

(** C8. Sanitising a file name twice gives the same name as sanitising it
    once: [sanitize_filename] is idempotent on every string. *)
Theorem sanitize_filename_idempotent (x : str) :
  sanitize_filename (sanitize_filename x) = sanitize_filename x.
Proof. apply sanitize_filename_fixed, sanitize_filename_sanitized. Qed.

(** ** History cap *)

Lemma slice_last_split {A} (n : nat) (l : list A) :
  l = take (length l - n) l ++ slice_last n l.
Proof. unfold slice_last. symmetry. apply take_drop. Qed.

Lemma limit_chat_history_short (history : list Turn) :
  (length history <= 50)%nat -> limit_chat_history history = history.
Proof.
  intros H. unfold limit_chat_history.
  destruct (Nat.ltb_spec 50 (length history)); [lia|reflexivity].
Qed.

Lemma session_init_history (raw : RawSession) (history : list Turn) :
  raw_chat_history raw = Some history ->
  chat_history (session_init raw) = limit_chat_history history.
Proof. intros H. unfold session_init. rewrite H. reflexivity. Qed.

Example limit_52 :
  limit_chat_history (sample_history 52) = List.map numbered_turn (seq 2 50).
Proof. vm_compute. reflexivity. Qed.

(** C9. A history longer than the cap of 50 is cut to its 50 most recent
    turns: the history is the evicted oldest turns followed by the retained
    ones, in their original order. *)
Theorem limit_chat_history_keeps_most_recent (history : list Turn) :
  (50 < length history)%nat ->
  exists evicted,
    history = evicted ++ limit_chat_history history
    /\ length (limit_chat_history history) = 50%nat
    /\ length evicted = (length history - 50)%nat.
Proof.
  intros H. exists (take (length history - 50) history).
  unfold limit_chat_history.
  destruct (Nat.ltb_spec 50 (length history)) as [_|]; [|lia].
  split; [apply slice_last_split|]. split.
  - unfold slice_last. rewrite length_drop. lia.
  - rewrite length_take. lia.
Qed.

Lemma limit_chat_history_keeps_most_recent_witness :
  exists evicted,
    sample_history 52 = evicted ++ limit_chat_history (sample_history 52)
    /\ length (limit_chat_history (sample_history 52)) = 50%nat
    /\ length evicted = (length (sample_history 52) - 50)%nat.
Proof.
  apply (limit_chat_history_keeps_most_recent (sample_history 52)).
  vm_compute. lia.
Defined.

(** ** Attachment sizes and counts *)

Lemma int_gt_float_false n x : (inject_Z n <= x)%Q -> int_gt_float n x = false.
Proof.
  intros H. unfold int_gt_float. apply Qle_bool_iff in H. rewrite H. reflexivity.
Qed.

Lemma int_gt_float_true n x : (x < inject_Z n)%Q -> int_gt_float n x = true.
Proof.
  intros H. unfold int_gt_float. destruct (Qle_bool (inject_Z n) x) eqn:E; [|reflexivity].
  apply Qle_bool_iff in E. exfalso. eapply Qlt_not_le; eassumption.
Qed.

(** The two limits are whole numbers of bytes. *)
Lemma document_limit_bytes : (4.5 * 1024 * 1024 == inject_Z 4718592)%Q.
Proof. reflexivity. Qed.

Lemma image_limit_bytes : (3.75 * 1024 * 1024 == inject_Z 3932160)%Q.
Proof. reflexivity. Qed.

Lemma document_block_ok doc :
  document_ok doc ->
  document_block doc =
    Val (DocumentBlock (sanitize_filename (file_name doc))
                       (document_format (file_name doc)) (file_bytes doc)).
Proof.
  intros [Hs Hf]. unfold document_block.
  rewrite int_gt_float_false by exact Hs.
  rewrite bool_decide_eq_true_2 by exact Hf. reflexivity.
Qed.

Lemma document_block_too_large doc :
  (4.5 * 1024 * 1024 < inject_Z (file_size doc))%Q ->
  document_block doc =
    Raise (ValueError (py "Document '" ++ file_name doc ++ py "' exceeds 4.5MB limit.")).
Proof.
  intros H. unfold document_block. rewrite int_gt_float_true by exact H. reflexivity.
Qed.

Lemma image_block_ok img :
  image_ok img ->
  image_block img = Val (ImageBlock (image_format (file_type img)) (file_bytes img)).
Proof.
  intros H. unfold image_block. rewrite int_gt_float_false by exact H. reflexivity.
Qed.

Lemma image_block_too_large img :
  (3.75 * 1024 * 1024 < inject_Z (file_size img))%Q ->
  image_block img =
    Raise (ValueError (py "Image '" ++ file_name img ++ py "' exceeds 3.75MB limit.")).
Proof.
  intros H. unfold image_block. rewrite int_gt_float_true by exact H. reflexivity.
Qed.

Lemma inject_Z_succ n : (inject_Z (n + 1) == inject_Z n + 1)%Q.
Proof. rewrite inject_Z_plus. reflexivity. Qed.

(** C7. A document of exactly 4.5 MB is accepted and one of 4.5 MB plus one
    byte is rejected with a ValueError; an image of exactly 3.75 MB is
    accepted and one of 3.75 MB plus one byte is rejected. *)
Theorem attachment_size_boundaries (text : str) (doc img : UploadedFile)
    (doc_limit img_limit : Z) :
  (inject_Z doc_limit == 4.5 * 1024 * 1024)%Q ->
  (inject_Z img_limit == 3.75 * 1024 * 1024)%Q ->
  document_format (file_name doc) ∈ DOCUMENT_FORMATS ->
  build_content_blocks text [with_size doc doc_limit] [] =
    Val [TextBlock text;
         DocumentBlock (sanitize_filename (file_name doc))
                       (document_format (file_name doc)) (file_bytes doc)]
  /\ build_content_blocks text [with_size doc (doc_limit + 1)] [] =
       Raise (ValueError (py "Document '" ++ file_name doc ++ py "' exceeds 4.5MB limit."))
  /\ build_content_blocks text [] [with_size img img_limit] =
       Val [TextBlock text; ImageBlock (image_format (file_type img)) (file_bytes img)]
  /\ build_content_blocks text [] [with_size img (img_limit + 1)] =
       Raise (ValueError (py "Image '" ++ file_name img ++ py "' exceeds 3.75MB limit.")).
Proof.
  intros Hd Hi Hf. unfold build_content_blocks. cbn [take append_blocks exc_bind].
  repeat split.
  - rewrite document_block_ok; [reflexivity|].
    split; [cbn [with_size file_size]; rewrite Hd; apply Qle_refl|exact Hf].
  - rewrite document_block_too_large; [reflexivity|].
    cbn [with_size file_size]. rewrite inject_Z_succ, Hd. reflexivity.
  - rewrite image_block_ok; [reflexivity|].
    unfold image_ok. cbn [with_size file_size]. rewrite Hi. apply Qle_refl.
  - rewrite image_block_too_large; [reflexivity|].
    cbn [with_size file_size]. rewrite inject_Z_succ, Hi. reflexivity.
Qed.

Lemma attachment_size_boundaries_witness :
  build_content_blocks (py "Summarize") [with_size sample_doc 4718592] [] =
    Val [TextBlock (py "Summarize");
         DocumentBlock (py "Budget Notes") (py "txt") (py "MSME")]
  /\ build_content_blocks (py "Summarize") [with_size sample_doc (4718592 + 1)] [] =
       Raise (ValueError (py "Document 'Budget Notes.TXT' exceeds 4.5MB limit."))
  /\ build_content_blocks (py "Summarize") [] [with_size sample_img 3932160] =
       Val [TextBlock (py "Summarize"); ImageBlock (py "png") [0x89; 0x50; 0x4E]]
  /\ build_content_blocks (py "Summarize") [] [with_size sample_img (3932160 + 1)] =
       Raise (ValueError (py "Image 'scan.png' exceeds 3.75MB limit.")).
Proof.
  apply (attachment_size_boundaries (py "Summarize") sample_doc sample_img
           4718592 3932160).
  - reflexivity.
  - reflexivity.
  - decided.
Defined.

Lemma append_blocks_all {A} (block : A -> Exc ContentBlock) (value : A -> ContentBlock)
    (items : list A) (content_blocks : list ContentBlock) :
  Forall (fun item => block item = Val (value item)) items ->
  append_blocks block items content_blocks =
    Val (content_blocks ++ List.map value items).
Proof.
  intros H. revert content_blocks.
  induction H as [|item rest Hi _ IH]; intros content_blocks; simpl.
  - rewrite app_nil_r. reflexivity.
  - rewrite Hi. simpl. rewrite IH, <- app_assoc. reflexivity.
Qed.

(** Only the first five documents and the first twenty images are read. *)
Lemma build_content_blocks_take text documents images :
  build_content_blocks text documents images =
  build_content_blocks text (take 5 documents) (take 20 images).
Proof. unfold build_content_blocks. rewrite !take_take. reflexivity. Qed.

(** C2 (as the code has it). Attachments beyond the fifth document and the
    twentieth image are dropped without an error: when the first five
    documents and the first twenty images pass their checks, normalisation
    succeeds with the text block, one block per retained document and one
    per retained image, whatever the number of attachments; these are the
    blocks of the retained attachments alone. *)
Theorem excess_attachments_dropped (text : str) (documents images : list UploadedFile) :
  Forall document_ok (take 5 documents) ->
  Forall image_ok (take 20 images) ->
  exists blocks,
    build_content_blocks text documents images = Val blocks
    /\ blocks = TextBlock text
                :: List.map (fun doc => DocumentBlock (sanitize_filename (file_name doc))
                                          (document_format (file_name doc)) (file_bytes doc))
                     (take 5 documents)
                ++ List.map (fun img => ImageBlock (image_format (file_type img))
                                          (file_bytes img))
                     (take 20 images)
    /\ length blocks = (1 + min 5 (length documents) + min 20 (length images))%nat
    /\ build_content_blocks text (take 5 documents) (take 20 images) = Val blocks.
Proof.
  intros Hd Hi. eexists. split; [|split; [reflexivity|split]].
  - unfold build_content_blocks.
    rewrite (append_blocks_all document_block
               (fun doc => DocumentBlock (sanitize_filename (file_name doc))
                             (document_format (file_name doc)) (file_bytes doc))).
    + cbn [exc_bind].
      rewrite (append_blocks_all image_block
                 (fun img => ImageBlock (image_format (file_type img)) (file_bytes img))).
      * reflexivity.
      * eapply Forall_impl; [exact Hi|]. intros img. apply image_block_ok.
    + eapply Forall_impl; [exact Hd|]. intros doc. apply document_block_ok.
  - cbn [length]. rewrite length_app, !length_map, !length_take. lia.
  - rewrite <- build_content_blocks_take.
    unfold build_content_blocks.
    rewrite (append_blocks_all document_block
               (fun doc => DocumentBlock (sanitize_filename (file_name doc))
                             (document_format (file_name doc)) (file_bytes doc))).
    + cbn [exc_bind].
      rewrite (append_blocks_all image_block
                 (fun img => ImageBlock (image_format (file_type img)) (file_bytes img))).
      * reflexivity.
      * eapply Forall_impl; [exact Hi|]. intros img. apply image_block_ok.
    + eapply Forall_impl; [exact Hd|]. intros doc. apply document_block_ok.
Qed.

Lemma sample_doc_ok : document_ok sample_doc.
Proof. split; [vm_compute; discriminate | decided]. Qed.

Lemma sample_img_ok : image_ok sample_img.
Proof. vm_compute. discriminate. Qed.

Lemma excess_attachments_dropped_witness :
  exists blocks,
    build_content_blocks (py "hi") (replicate 6 sample_doc) (replicate 21 sample_img)
      = Val blocks
    /\ blocks = TextBlock (py "hi")
                :: List.map (fun doc => DocumentBlock (sanitize_filename (file_name doc))
                                          (document_format (file_name doc)) (file_bytes doc))
                     (take 5 (replicate 6 sample_doc))
                ++ List.map (fun img => ImageBlock (image_format (file_type img))
                                          (file_bytes img))
                     (take 20 (replicate 21 sample_img))
    /\ length blocks = (1 + min 5 (length (replicate 6 sample_doc))
                        + min 20 (length (replicate 21 sample_img)))%nat
    /\ build_content_blocks (py "hi") (take 5 (replicate 6 sample_doc))
         (take 20 (replicate 21 sample_img)) = Val blocks.
Proof.
  apply (excess_attachments_dropped (py "hi") (replicate 6 sample_doc)
           (replicate 21 sample_img)).
  - vm_compute take. repeat constructor; solve [vm_compute; discriminate | decided].
  - vm_compute take. repeat constructor; vm_compute; discriminate.
Defined.

(** C2 as stated does not hold: six valid documents are normalised without
    an error, and only five of them reach the content blocks. *)
Lemma six_documents_accepted :
  ~ (forall (text : str) (documents images : list UploadedFile),
        (5 < length documents)%nat \/ (20 < length images)%nat ->
        exists e, build_content_blocks text documents images = Raise e).
Proof.
  intros H.
  destruct (H (py "hi") (replicate 6 sample_doc) []) as [e He].
  - left. vm_compute. lia.
  - vm_compute in He. discriminate He.
Qed.

Example six_documents_five_blocks :
  build_content_blocks (py "hi") (replicate 6 sample_doc) [] =
  Val (TextBlock (py "hi")
       :: replicate 5 (DocumentBlock (py "Budget Notes") (py "txt") (py "MSME"))).
Proof. vm_compute. reflexivity. Qed.

(** ** Empty prompts *)

Lemma lstrip_blank s : blank s -> lstrip s = [].
Proof. induction 1 as [|c t H _ IH]; simpl; [reflexivity|]. rewrite H. exact IH. Qed.

Lemma strip_blank s : blank s -> strip s = [].
Proof. intros H. unfold strip. rewrite lstrip_blank by exact H. reflexivity. Qed.

(** C4. With an empty or whitespace-only prompt [generate_message] raises
    ValueError and leaves the world as it found it: no call is recorded, so
    the reasoning backend was not called. *)
Theorem empty_prompt_rejected (env : Env) (model_id : option str) (input_text : str)
    (documents images : list UploadedFile) (history : option (list Turn)) (w : World) :
  blank input_text ->
  generate_message env model_id input_text documents images history w =
    (Raise (ValueError (py "Input text cannot be empty")), w).
Proof.
  intros H.
  unfold generate_message, bind, get_session.
  rewrite (strip_blank input_text H). cbn [truthy negb].
  rewrite orb_true_r. reflexivity.
Qed.

Lemma empty_prompt_rejected_witness :
  generate_message (sample_env final_answer agent_answers stt_ok) (Some (py "model"))
      (py "  ") [sample_doc] [] None empty_world =
    (Raise (ValueError (py "Input text cannot be empty")), empty_world).
Proof.
  apply (empty_prompt_rejected (sample_env final_answer agent_answers stt_ok)
           (Some (py "model")) (py "  ") [sample_doc] [] None empty_world).
  repeat constructor.
Defined.

(** ** Unicode-escape decoding of transcripts *)

Example decode_escaped_transcript :
  decode_unicode_text (sample_env final_answer agent_answers stt_ok)
    (py "\u0928\u092e\u0938\u094d\u0924\u0947")
  = Val [0x928; 0x92E; 0x938; 0x94D; 0x924; 0x947].
Proof. vm_compute. reflexivity. Qed.

Example decode_truncated_escape :
  decode_unicode_text (sample_env final_answer agent_answers stt_ok) (py "50\u20")
  = Val (py "50\u20").
Proof. vm_compute. reflexivity. Qed.

Lemma decode_unicode_text_returns (env : Env) (text : str) :
  exists decoded, decode_unicode_text env text = Val decoded.
Proof.
  unfold decode_unicode_text.
  destruct (contains (py "\u") text); [|eauto].
  destruct (exc_bind _ _); eauto.
Qed.

(** C10. [decode_unicode_text] returns a string for every input; it
    returns the input itself when the input holds no backslash-u, and also
    when encoding the input or decoding its escapes raises. *)
Theorem decode_unicode_text_total (env : Env) (text : str) :
  (exists decoded, decode_unicode_text env text = Val decoded)
  /\ (contains (py "\u") text = false -> decode_unicode_text env text = Val text)
  /\ (forall e,
        exc_bind (encode_utf8 text) (decode_unicode_escape (unicode_names env)) = Raise e ->
        decode_unicode_text env text = Val text).
Proof.
  split; [apply decode_unicode_text_returns|].
  unfold decode_unicode_text. split.
  - intros ->. reflexivity.
  - intros e He. destruct (contains (py "\u") text); [|reflexivity].
    rewrite He. reflexivity.
Qed.

Lemma decode_unicode_text_total_witness :
  decode_unicode_text (sample_env final_answer agent_answers stt_ok) (py "namaste")
    = Val (py "namaste")
  /\ decode_unicode_text (sample_env final_answer agent_answers stt_ok) (py "50\u20")
    = Val (py "50\u20").
Proof.
  split.
  - apply (decode_unicode_text_total (sample_env final_answer agent_answers stt_ok)
             (py "namaste")).
    vm_compute. reflexivity.
  - destruct (decode_unicode_text_total (sample_env final_answer agent_answers stt_ok)
                (py "50\u20")) as (_ & _ & H).
    apply (H (escape_error "truncated escape")).
    vm_compute. reflexivity.
Defined.

(** ** Worlds and traces *)

Lemma record_nil w : record w [] = w.
Proof. destruct w. unfold record. simpl. rewrite app_nil_r. reflexivity. Qed.

Lemma record_app w a b : record (record w a) b = record w (a ++ b).
Proof. unfold record. simpl. rewrite app_assoc. reflexivity. Qed.

Lemma emit_record e w : emit e w = (Val tt, record w [e]).
Proof. reflexivity. Qed.

Lemma converse_calls_app a b :
  converse_calls (a ++ b) = (converse_calls a + converse_calls b)%nat.
Proof. unfold converse_calls. rewrite List.filter_app, length_app. reflexivity. Qed.

Lemma tool_calls_app a b : tool_calls (a ++ b) = (tool_calls a + tool_calls b)%nat.
Proof. unfold tool_calls. rewrite List.filter_app, length_app. reflexivity. Qed.

Lemma traced_ret {A} (a : A) : traced (ret a).
Proof. intros w. exists []. symmetry. apply record_nil. Qed.

Lemma traced_raise {A} e : traced (@raise A e).
Proof. intros w. exists []. symmetry. apply record_nil. Qed.

Lemma traced_lift {A} (r : Exc A) : traced (lift r).
Proof. intros w. exists []. symmetry. apply record_nil. Qed.

Lemma traced_emit e : traced (emit e).
Proof. intros w. exists [e]. reflexivity. Qed.

Lemma traced_ui c : traced (ui c).
Proof. apply traced_emit. Qed.

Lemma traced_get_session : traced get_session.
Proof. intros w. exists []. symmetry. apply record_nil. Qed.

Lemma traced_get_files : traced get_files.
Proof. intros w. exists []. symmetry. apply record_nil. Qed.

Lemma traced_bind {A B} (m : IO A) (k : A -> IO B) :
  traced m -> (forall a, traced (k a)) -> traced (bind m k).
Proof.
  intros Hm Hk w. unfold bind. destruct (Hm w) as [ev1 E1].
  destruct (m w) as [[a|e] w1]; simpl in E1; subst w1.
  - destruct (Hk a (record w ev1)) as [ev2 E2]. exists (ev1 ++ ev2).
    rewrite E2. apply record_app.
  - exists ev1. reflexivity.
Qed.

Lemma traced_try_except {A} (body : IO A) : traced body -> traced (try_except body).
Proof.
  intros H w. unfold try_except. destruct (H w) as [ev E]. exists ev.
  destruct (body w). exact E.
Qed.

(** What a traced statement does in a world. *)
Lemma traced_run {A} (m : IO A) w :
  traced m -> exists r events, m w = (r, record w events).
Proof.
  intros H. destruct (H w) as [ev E]. destruct (m w) as [r w'].
  exists r, ev. simpl in E. rewrite E. reflexivity.
Qed.

Create HintDb traced.
#[local] Hint Resolve traced_ret traced_raise traced_lift traced_emit traced_ui
  traced_get_session traced_get_files traced_try_except : traced.

Ltac traced_step :=
  first
    [ apply traced_bind; [|intros ?]
    | apply traced_try_except
    | solve [auto with traced]
    | match goal with
      | |- traced (match ?x with _ => _ end) => destruct x
      | |- traced (if ?b then _ else _) => destruct b
      | |- traced (let _ := _ in _) => cbv zeta
      end ].

Ltac prove_traced := repeat traced_step.

Lemma traced_get_government_scheme_info env query :
  traced (get_government_scheme_info env query).
Proof. unfold get_government_scheme_info. prove_traced. Qed.

Lemma traced_run_tool env tool : traced (run_tool env tool).
Proof.
  unfold run_tool. pose proof traced_get_government_scheme_info.
  prove_traced.
Qed.

Lemma traced_call_converse env req : traced (call_converse env req).
Proof. unfold call_converse. prove_traced. Qed.

#[local] Hint Resolve traced_get_government_scheme_info traced_run_tool
  traced_call_converse : traced.

Lemma traced_answer_tool_requests env model_id messages first_message tool_requests :
  traced (answer_tool_requests env model_id messages first_message tool_requests).
Proof.
  induction tool_requests as [|block rest IH]; simpl; [auto with traced|].
  destruct block; try exact IH.
  destruct (str_eqb _ _); [|exact IH]. prove_traced.
Qed.

Lemma traced_generate_message env model_id input_text documents images history :
  traced (generate_message env model_id input_text documents images history).
Proof.
  unfold generate_message.
  pose proof traced_answer_tool_requests. prove_traced.
Qed.

Lemma traced_text_to_speech env text language : traced (text_to_speech env text language).
Proof. unfold text_to_speech. prove_traced. Qed.

Lemma traced_transcribe_audio env file_path : traced (transcribe_audio env file_path).
Proof. unfold transcribe_audio. prove_traced. Qed.

#[local] Hint Resolve traced_answer_tool_requests traced_generate_message
  traced_text_to_speech traced_transcribe_audio : traced.

Lemma traced_speak_reply env assistant_response :
  traced (speak_reply env assistant_response).
Proof. unfold speak_reply. prove_traced. Qed.

#[local] Hint Resolve traced_speak_reply : traced.

(** ** The tool path *)

Ltac run_io :=
  unfold bind, try_except, lift, ret, raise, emit, call_converse; cbn.

Ltac same_world :=
  unfold record; cbn; rewrite <- ?app_assoc; reflexivity.

Lemma run_tool_events env tool w :
  snd (run_tool env tool w) = record w (tool_events env tool).
Proof.
  unfold run_tool, get_government_scheme_info, tool_events. run_io.
  destruct (dict_get _ _) as [query|e]; cbn; [|symmetry; apply record_nil].
  destruct (truthy_opt (BEDROCK_AGENT_ID env)); cbn; [|same_world].
  destruct (truthy_opt (BEDROCK_AGENT_ALIAS_ID env)); cbn; [|same_world].
  destruct (agent_client env) as [[]|e]; cbn; [|same_world].
  destruct (invoke_agent env query) as [response|e]; cbn; [|same_world].
  destruct (read_completion response []) as [result|e]; cbn; [|same_world].
  destruct (truthy result); same_world.
Qed.

Lemma tool_events_counts env tool :
  converse_calls (tool_events env tool) = 0%nat
  /\ tool_calls (tool_events env tool) =
       match dict_get (py "query") (tool_input tool) with
       | Val _ => 1%nat
       | Raise _ => 0%nat
       end.
Proof.
  unfold tool_events. destruct (dict_get _ _); [|split; reflexivity].
  destruct (_ && _); [destruct (agent_client env)|]; split; reflexivity.
Qed.

(** The result [run_tool] builds for a failure inside the agent call. *)
Lemma run_tool_agent_failure env tool w query e :
  dict_get (py "query") (tool_input tool) = Val query ->
  agent_configured env ->
  agent_client env = Val tt ->
  agent_reply env query = Raise e ->
  fst (run_tool env tool w) =
    Val {| result_toolUseId := toolUseId tool;
           result_content :=
             [JsonContent
                [(py "result",
                  py "Tool Result: " ++
                  json_dumps [(py "error",
                               py "Failed to retrieve information due to internal error.")])]];
           result_status := None |}.
Proof.
  intros Hq [Hi Ha] Hc Hr.
  unfold run_tool, get_government_scheme_info. run_io.
  rewrite Hq, Hi, Ha, Hc. cbn.
  unfold agent_reply in Hr.
  destruct (invoke_agent env query) as [response|e']; cbn in Hr |- *; [|reflexivity].
  rewrite Hr. reflexivity.
Qed.

(** [run_tool] always returns, with a result for the entry it was given;
    the result is marked as an error exactly when the lookup of the query
    or the construction of the agent client raised. *)
Lemma run_tool_returns env tool w :
  exists tool_result,
    fst (run_tool env tool w) = Val tool_result
    /\ result_toolUseId tool_result = toolUseId tool
    /\ (result_status tool_result = Some (py "error") <->
        exists e,
          result_content tool_result = [TextContent (py "Tool Result: " ++ exn_str e)]
          /\ (dict_get (py "query") (tool_input tool) = Raise e
              \/ (exists query, dict_get (py "query") (tool_input tool) = Val query)
                 /\ agent_configured env /\ agent_client env = Raise e)).
Proof.
  unfold run_tool, get_government_scheme_info, agent_configured. run_io.
  destruct (dict_get _ _) as [query|e]; cbn.
  2:{ eexists. split; [reflexivity|]. split; [reflexivity|]. cbn. split.
      - intros _. exists e. split; [reflexivity|]. left. reflexivity.
      - reflexivity. }
  destruct (truthy_opt (BEDROCK_AGENT_ID env)) eqn:Hi; cbn.
  2:{ eexists. split; [reflexivity|]. split; [reflexivity|]. cbn. split.
      - discriminate.
      - intros (e & He & [Hq | (_ & [Hc _] & _)]); discriminate. }
  destruct (truthy_opt (BEDROCK_AGENT_ALIAS_ID env)) eqn:Ha; cbn.
  2:{ eexists. split; [reflexivity|]. split; [reflexivity|]. cbn. split.
      - discriminate.
      - intros (e & He & [Hq | (_ & [_ Hc] & _)]); discriminate. }
  destruct (agent_client env) as [[]|e] eqn:Hc; cbn.
  2:{ eexists. split; [reflexivity|]. split; [reflexivity|]. cbn. split.
      - intros _. exists e. split; [reflexivity|]. right. eauto.
      - reflexivity. }
  assert (forall r : ToolResult,
             result_status r = None ->
             result_status r = Some (py "error") <->
             exists e,
               result_content r = [TextContent (py "Tool Result: " ++ exn_str e)]
               /\ (@Val str query = Raise e
                   \/ (exists q, @Val str query = Val q)
                      /\ (true = true /\ true = true) /\ @Val unit tt = Raise e)) as Hno.
  { intros r Hr. rewrite Hr. split; [discriminate|].
    intros (e & _ & [H | (_ & _ & H)]); discriminate. }
  destruct (invoke_agent env query) as [response|e]; cbn.
  2:{ eexists. split; [reflexivity|]. split; [reflexivity|]. apply Hno. reflexivity. }
  destruct (read_completion response []) as [result|e]; cbn.
  2:{ eexists. split; [reflexivity|]. split; [reflexivity|]. apply Hno. reflexivity. }
  destruct (truthy result); cbn;
    (eexists; split; [reflexivity|]; split; [reflexivity|]; apply Hno; reflexivity).
Qed.

(** The result that carries the agent's failure to the backend. *)
Example agent_failure_result :
  fst (run_tool (sample_env two_requests agent_unreachable stt_ok)
         (scheme_tool "tool-1" "MSME subsidy") empty_world) =
  Val {| result_toolUseId := py "tool-1";
         result_content :=
           [JsonContent
              [(py "result",
                py "Tool Result: {" ++ [0x22] ++ py "error" ++ [0x22] ++ py ": " ++ [0x22]
                ++ py "Failed to retrieve information due to internal error."
                ++ [0x22] ++ py "}")]];
         result_status := None |}.
Proof. vm_compute. reflexivity. Qed.

(** C3 (as the code has it). [run_tool] returns a ToolResult with the
    entry's toolUseId for every dispatched entry and never raises.  A
    failure of the agent call or of its stream is caught inside
    [get_government_scheme_info] and reaches the backend as a result with
    no status field whose JSON content carries the message; the status
    [error] is set exactly when the lookup of the query or the construction
    of the agent client raised. *)
Theorem tool_failures_absorbed (env : Env) (tool : ToolUse) (w : World) :
  exists tool_result,
    run_tool env tool w = (Val tool_result, record w (tool_events env tool))
    /\ result_toolUseId tool_result = toolUseId tool
    /\ (forall query e,
          dict_get (py "query") (tool_input tool) = Val query ->
          agent_configured env ->
          agent_client env = Val tt ->
          agent_reply env query = Raise e ->
          result_status tool_result = None
          /\ result_content tool_result =
               [JsonContent
                  [(py "result",
                    py "Tool Result: " ++
                    json_dumps [(py "error",
                                 py "Failed to retrieve information due to internal error.")])]])
    /\ (result_status tool_result = Some (py "error") <->
        exists e,
          result_content tool_result = [TextContent (py "Tool Result: " ++ exn_str e)]
          /\ (dict_get (py "query") (tool_input tool) = Raise e
              \/ (exists query, dict_get (py "query") (tool_input tool) = Val query)
                 /\ agent_configured env /\ agent_client env = Raise e)).
Proof.
  destruct (run_tool_returns env tool w) as (tool_result & Hr & Hid & Hst).
  exists tool_result. split; [|split; [exact Hid|split; [|exact Hst]]].
  - pose proof (run_tool_events env tool w) as Hw.
    destruct (run_tool env tool w) as [r w']. cbn in Hr, Hw. subst. reflexivity.
  - intros query e Hq Hc Hcl Hf.
    pose proof (run_tool_agent_failure env tool w query e Hq Hc Hcl Hf) as H.
    rewrite Hr in H. injection H as ->. split; reflexivity.
Qed.

Lemma tool_failures_absorbed_witness :
  exists tool_result,
    run_tool (sample_env two_requests agent_unreachable stt_ok)
      (scheme_tool "tool-1" "MSME subsidy") empty_world
    = (Val tool_result,
       record empty_world
         (tool_events (sample_env two_requests agent_unreachable stt_ok)
            (scheme_tool "tool-1" "MSME subsidy")))
    /\ result_toolUseId tool_result = py "tool-1"
    /\ result_status tool_result = None.
Proof.
  destruct (tool_failures_absorbed (sample_env two_requests agent_unreachable stt_ok)
              (scheme_tool "tool-1" "MSME subsidy") empty_world)
    as (tool_result & Hrun & Hid & Hfail & _).
  exists tool_result. split; [exact Hrun|]. split; [exact Hid|].
  apply (Hfail (py "MSME subsidy")
           (ClientError (py "An error occurred (ThrottlingException)") (py "Rate exceeded"))).
  - reflexivity.
  - split; reflexivity.
  - reflexivity.
  - reflexivity.
Defined.

(** C3 as stated does not hold: the agent call raises, and the result that
    [run_tool] builds has no status, so it is not marked as an error. *)
Lemma agent_failure_not_marked_error :
  agent_reply (sample_env two_requests agent_unreachable stt_ok) (py "MSME subsidy")
    = Raise (ClientError (py "An error occurred (ThrottlingException)") (py "Rate exceeded"))
  /\ exists tool_result w',
       run_tool (sample_env two_requests agent_unreachable stt_ok)
         (scheme_tool "tool-1" "MSME subsidy") empty_world = (Val tool_result, w')
       /\ result_status tool_result <> Some (py "error").
Proof.
  split; [reflexivity|].
  eexists. eexists. split; [vm_compute; reflexivity|]. cbn. discriminate.
Qed.

(** ** The tool round trip *)

Lemma lstrip_nil_blank s : lstrip s = [] -> blank s.
Proof.
  induction s as [|c t IH]; simpl; [constructor|].
  destruct (isspace c) eqn:E; [|discriminate].
  intros H. constructor; [exact E|exact (IH H)].
Qed.

Lemma rstrip_nil_blank s : rstrip s = [] -> blank s.
Proof.
  induction s as [|c t IH]; simpl; [constructor|].
  destruct (rstrip t); [|discriminate].
  destruct (isspace c) eqn:E; [|discriminate].
  intros _. constructor; [exact E|apply IH; reflexivity].
Qed.

Lemma strip_nil_blank s : strip s = [] -> blank s.
Proof.
  unfold strip. intros H. apply rstrip_nil_blank in H.
  apply lstrip_nil_blank. pose proof (lstrip_no_leading s) as Hn.
  destruct (lstrip s) as [|c t]; [reflexivity|].
  inversion H; subst. simpl in Hn. congruence.
Qed.

Lemma not_blank_accepted s :
  ~ blank s -> negb (truthy s) || negb (truthy (strip s)) = false.
Proof.
  intros H. destruct s as [|c t]; [destruct H; constructor|].
  destruct (strip (c :: t)) eqn:E; [|reflexivity].
  destruct H. apply strip_nil_blank, E.
Qed.

Lemma answer_tool_requests_known env model_id messages first_message tool_requests w :
  answer_tool_requests env model_id messages first_message tool_requests w =
  match known_tools tool_requests with
  | [] => (Val first_message, w)
  | tool :: _ =>
      (tool_result <- run_tool env tool ;;
       response <- call_converse env
                     {| req_modelId := model_id;
                        req_messages :=
                          messages ++ [{| role := py "user";
                                          content := [ToolResultBlock tool_result] |}];
                        req_system := None;
                        req_toolConfig := tool_config |} ;;
       ret (output_message response)) w
  end.
Proof.
  induction tool_requests as [|block rest IH]; [reflexivity|].
  unfold known_tools in *. cbn [answer_tool_requests omap list_omap].
  destruct block; cbn [known_tool]; try exact IH.
  destruct (str_eqb (tool_name tool) (py "government_scheme_info")); [reflexivity|exact IH].
Qed.

Lemma str_eqb_refl s : str_eqb s s = true.
Proof. unfold str_eqb. apply bool_decide_eq_true_2. reflexivity. Qed.

(** Up to the first response: the prompt is accepted, the blocks are built
    and the backend is called once. *)
Lemma generate_message_first_call env model_id input_text documents images history w
    blocks :
  ~ blank input_text ->
  build_content_blocks input_text documents images = Val blocks ->
  generate_message env model_id input_text documents images history w =
  let messages := turn_messages w history blocks in
  let request := first_request env model_id messages in
  match converse env request with
  | Raise e => (Raise e, record w [EvConverse request])
  | Val first =>
      if str_eqb (stopReason first) (py "tool_use") then
        answer_tool_requests env model_id (messages ++ [output_message first])
          (output_message first) (content (output_message first))
          (record w [EvConverse request])
      else (Val (output_message first), record w [EvConverse request])
  end.
Proof.
  intros Hnb Hb. unfold generate_message, bind, get_session.
  rewrite (not_blank_accepted _ Hnb), Hb.
  unfold lift, call_converse, bind. rewrite emit_record.
  cbv zeta. unfold turn_messages, first_request, lift.
  destruct (converse env _) as [first|e]; [|reflexivity].
  destruct (str_eqb _ _); reflexivity.
Qed.

Lemma run_tool_run env tool w :
  exists tool_result,
    run_tool env tool w = (Val tool_result, record w (tool_events env tool))
    /\ result_toolUseId tool_result = toolUseId tool.
Proof.
  destruct (run_tool_returns env tool w) as (tool_result & Hr & Hid & _).
  exists tool_result. split; [|exact Hid].
  pose proof (run_tool_events env tool w) as Hw.
  destruct (run_tool env tool w) as [r w']. cbn in Hr, Hw. subst. reflexivity.
Qed.

(** C1 (as the code has it). When the first response stops for tool use,
    [generate_message] handles the first toolUse entry named
    government_scheme_info and no other: it runs the tool for that entry
    (at most one tool call), appends one toolResult message, calls the
    backend exactly once more and returns what that call returns, its
    output message whatever its stop reason; with no such entry it calls
    neither the tool nor the backend again and returns the first
    response's message. *)
Theorem tool_use_round_trip (env : Env) (model_id : option str) (input_text : str)
    (documents images : list UploadedFile) (history : option (list Turn)) (w : World)
    (blocks : list ContentBlock) (first : ConverseResponse) :
  let messages := turn_messages w history blocks in
  let request := first_request env model_id messages in
  ~ blank input_text ->
  build_content_blocks input_text documents images = Val blocks ->
  converse env request = Val first ->
  stopReason first = py "tool_use" ->
  match known_tools (content (output_message first)) with
  | [] =>
      generate_message env model_id input_text documents images history w =
        (Val (output_message first), record w [EvConverse request])
  | tool :: _ =>
      exists tool_result,
        run_tool env tool (record w [EvConverse request]) =
          (Val tool_result, record w ([EvConverse request] ++ tool_events env tool))
        /\ result_toolUseId tool_result = toolUseId tool
        /\ let follow_up :=
             follow_up_request model_id messages (output_message first) tool_result in
           let events := [EvConverse request] ++ tool_events env tool
                         ++ [EvConverse follow_up] in
           generate_message env model_id input_text documents images history w =
             (reply_message (converse env follow_up), record w events)
           /\ converse_calls events = 2%nat
           /\ tool_calls events =
                match dict_get (py "query") (tool_input tool) with
                | Val _ => 1%nat
                | Raise _ => 0%nat
                end
  end.
Proof.
  intros messages request Hnb Hb Hc Hs.
  rewrite (generate_message_first_call _ _ _ _ _ _ _ blocks Hnb Hb). cbv zeta.
  fold messages. fold request. rewrite Hc, Hs, str_eqb_refl.
  rewrite answer_tool_requests_known.
  destruct (known_tools (content (output_message first))) as [|tool rest]; [reflexivity|].
  destruct (run_tool_run env tool (record w [EvConverse request]))
    as (tool_result & Hrun & Hid).
  rewrite record_app in Hrun.
  exists tool_result. split; [exact Hrun|]. split; [exact Hid|]. cbv zeta.
  split; [|split].
  - unfold bind at 1. rewrite Hrun. unfold call_converse, bind, lift, ret.
    rewrite emit_record, record_app, <- (app_assoc [EvConverse request]).
    fold (follow_up_request model_id messages (output_message first) tool_result).
    unfold reply_message.
    destruct (converse env (follow_up_request _ _ _ _)); reflexivity.
  - rewrite !converse_calls_app.
    destruct (tool_events_counts env tool) as [-> _]. reflexivity.
  - rewrite !tool_calls_app.
    destruct (tool_events_counts env tool) as [_ ->].
    destruct (dict_get _ _); reflexivity.
Qed.

Lemma tool_use_round_trip_witness :
  let env := sample_env two_requests agent_answers stt_ok in
  let prompt := py "What is the MSME subsidy scheme?" in
  let messages := turn_messages empty_world None [TextBlock prompt] in
  let request := first_request env (Some (py "model")) messages in
  exists tool_result,
    run_tool env (scheme_tool "tool-1" "MSME subsidy")
      (record empty_world [EvConverse request]) =
      (Val tool_result,
       record empty_world
         ([EvConverse request] ++ tool_events env (scheme_tool "tool-1" "MSME subsidy")))
    /\ result_toolUseId tool_result = py "tool-1"
    /\ let follow_up :=
         follow_up_request (Some (py "model")) messages (output_message two_requests)
           tool_result in
       let events := [EvConverse request]
                     ++ tool_events env (scheme_tool "tool-1" "MSME subsidy")
                     ++ [EvConverse follow_up] in
       generate_message env (Some (py "model")) prompt [] [] None empty_world =
         (reply_message (converse env follow_up), record empty_world events)
       /\ converse_calls events = 2%nat
       /\ tool_calls events = 1%nat.
Proof.
  intros env prompt messages request.
  apply (tool_use_round_trip env (Some (py "model")) prompt [] [] None empty_world
           [TextBlock prompt] two_requests).
  - intros H. apply Forall_inv in H. vm_compute in H. discriminate H.
  - reflexivity.
  - reflexivity.
  - reflexivity.
Defined.

(** C1 as stated does not hold: the first response stops for tool use and
    holds two entries of the known tool, and the turn makes one tool call,
    not two. *)
Lemma second_tool_request_not_dispatched :
  let env := sample_env two_requests agent_answers stt_ok in
  let run := generate_message env (Some (py "model"))
               (py "What is the MSME subsidy scheme?") [] [] None empty_world in
  stopReason two_requests = py "tool_use"
  /\ known_tools (content (output_message two_requests)) =
       [scheme_tool "tool-1" "MSME subsidy"; scheme_tool "tool-2" "MSME grant"]
  /\ fst run = Val (text_message "assistant" "The scheme offers a subsidy.")
  /\ tool_calls (trace (snd run)) = 1%nat
  /\ List.filter is_tool_call (trace (snd run)) = [EvToolCall (py "MSME subsidy")].
Proof. vm_compute. repeat split. Qed.

(** A tool-use stop without an entry of the known tool: no tool call, no
    second backend call, and the first response's message is returned. *)
Example unknown_tool_no_round_trip :
  let env := sample_env unknown_request agent_answers stt_ok in
  let run := generate_message env (Some (py "model")) (py "Will it rain?") [] [] None
               empty_world in
  fst run = Val (output_message unknown_request)
  /\ converse_calls (trace (snd run)) = 1%nat
  /\ tool_calls (trace (snd run)) = 0%nat.
Proof. vm_compute. repeat split. Qed.

(** ** The temporary audio file *)

(** The file is removed when the transcript arrives and stays when the
    block ends in its [except] branch. *)
Lemma transcription_step_files env wav w :
  let temp_path := temp_name env (files w) in
  exists outcome w',
    transcription_step env wav w = (Val outcome, w')
    /\ match outcome with
       | Transcribed _ => files w' = delete temp_path (<[temp_path := wav]> (files w))
       | VoiceAborted => files w' = <[temp_path := wav]> (files w)
       end.
Proof.
  intros temp_path. unfold transcription_step, named_temporary_file, os_unlink.
  unfold bind at 1. unfold try_except. unfold bind at 1. unfold bind at 1.
  unfold get_files at 1. unfold bind at 1. unfold put_files at 1. unfold ret at 1.
  fold temp_path.
  set (w1 := {| session := session w; files := <[temp_path:=wav]> (files w);
                trace := trace w |}).
  unfold bind at 1.
  destruct (traced_run (transcribe_audio env temp_path) w1) as (r & events & Hr);
    [apply traced_transcribe_audio|].
  rewrite Hr. destruct r as [audio_prompt|e]; cbv beta iota.
  - unfold bind at 1. unfold lift.
    destruct (decode_unicode_text_returns env audio_prompt) as [decoded Hd].
    rewrite Hd. unfold bind, get_files. cbn [files record w1].
    rewrite lookup_insert_eq. unfold put_files, ret. cbn.
    eexists. eexists. split; reflexivity.
  - unfold bind, ui. rewrite emit_record. unfold ret. cbn.
    eexists. eexists. split; reflexivity.
Qed.

(** Every raise of [transcribe_audio] ends the block in its [except]
    branch. *)
Lemma failed_transcription_aborts env wav w e :
  let temp_path := temp_name env (files w) in
  let w1 := {| session := session w; files := <[temp_path := wav]> (files w);
               trace := trace w |} in
  fst (transcribe_audio env temp_path w1) = Raise e ->
  exists w',
    transcription_step env wav w = (Val VoiceAborted, w')
    /\ files w' !! temp_path = Some wav.
Proof.
  intros temp_path w1 He.
  destruct (transcription_step_files env wav w) as (outcome & w' & Hrun & Hfiles).
  fold temp_path in Hfiles.
  assert (outcome = VoiceAborted) as ->.
  { revert Hrun. unfold transcription_step, named_temporary_file.
    unfold bind at 1. unfold try_except. unfold bind at 1. unfold bind at 1.
    unfold get_files at 1. unfold bind at 1. unfold put_files at 1. unfold ret at 1.
    fold temp_path. fold w1. unfold bind at 1.
    destruct (transcribe_audio env temp_path w1) as [r w2]. cbn in He. subst r.
    cbv beta iota. unfold bind, ui, emit, ret. intros H. injection H as H _.
    symmetry. exact H. }
  exists w'. split; [exact Hrun|]. rewrite Hfiles. apply lookup_insert_eq.
Qed.

Example transcript_arrives_file_removed :
  let run := transcription_step (sample_env final_answer agent_answers stt_ok)
               (py "RIFF") empty_world in
  fst run = Val (Transcribed [0x928; 0x92E; 0x938; 0x94D; 0x924; 0x947])
  /\ files (snd run) !! py "/tmp/tmpa1b2c3.wav" = None.
Proof. vm_compute. split; reflexivity. Qed.

(** C6. The claim fails on the code: when the speech-to-text request times
    out, [transcribe_audio] raises, the block ends in its [except] branch,
    and the temporary file is still there with the recording in it. *)
Theorem failed_transcription_leaves_temp_file :
  let run := transcription_step (sample_env final_answer agent_answers stt_timeout)
               (py "RIFF") empty_world in
  fst run = Val VoiceAborted
  /\ files (snd run) !! py "/tmp/tmpa1b2c3.wav" = Some (py "RIFF")
  /\ last (trace (snd run)) =
       Some (EvUi (StError (py "Audio transcription failed: Audio transcription timed out after 45 seconds"))).
Proof. vm_compute. repeat split. Qed.

(** ** History updates *)

(** Reply playback never raises, whatever the speech service does. *)
Lemma speak_reply_returns env assistant_response w :
  exists tts events, speak_reply env assistant_response w = (Val tts, record w events).
Proof.
  destruct (traced_run (speak_reply env assistant_response) w) as (r & events & Hr);
    [apply traced_speak_reply|].
  assert (exists tts, fst (speak_reply env assistant_response w) = Val tts) as [tts Ht].
  { unfold speak_reply, bind, get_session, try_except.
    destruct (enable_tts (session w)); [|eexists; reflexivity].
    destruct (text_to_speech env assistant_response (tts_language (session w)) w)
      as [[audio_data|e] w1]; cbn; eexists; reflexivity. }
  rewrite Hr in Ht. cbn in Ht. subst r. eauto.
Qed.

(** A failed synthesis is reported as such, not raised. *)
Lemma speak_reply_failure env assistant_response w e :
  enable_tts (session w) = true ->
  fst (text_to_speech env assistant_response (tts_language (session w)) w) = Raise e ->
  fst (speak_reply env assistant_response w) = Val (TtsFailed e).
Proof.
  intros He Hf. unfold speak_reply, bind, get_session, try_except. rewrite He.
  destruct (text_to_speech env assistant_response (tts_language (session w)) w)
    as [r w1]. cbn in Hf. subst r. reflexivity.
Qed.

Lemma session_record w events : session (record w events) = session w.
Proof. reflexivity. Qed.

(** What playback reports follows what [text_to_speech] did. *)
Lemma speak_reply_label env assistant_response w :
  fst (speak_reply env assistant_response w) =
  Val (if enable_tts (session w) then
         match fst (text_to_speech env assistant_response (tts_language (session w)) w) with
         | Val _ => TtsPlayed
         | Raise e => TtsFailed e
         end
       else TtsDisabled).
Proof.
  unfold speak_reply, bind, get_session, try_except.
  destruct (enable_tts (session w)); [|reflexivity].
  destruct (text_to_speech env assistant_response (tts_language (session w)) w)
    as [[audio_data|e] w1]; reflexivity.
Qed.

Lemma submitted_prompt_stripped text_input audio_prompt :
  strip (submitted_prompt text_input audio_prompt) = submitted_prompt text_input audio_prompt.
Proof.
  unfold submitted_prompt.
  destruct (truthy_opt text_input); [apply strip_idempotent|].
  destruct (truthy_opt audio_prompt); [apply strip_idempotent|reflexivity].
Qed.

(** The test of line 379, on the equality of the uploads. *)
Lemma submit_condition state text_input audio_prompt documents images :
  truthy (submitted_prompt text_input audio_prompt)
  && negb (negb (same_uploads documents (last_uploaded_docs state))
           || negb (same_uploads images (last_uploaded_images state)))
  = submits state text_input audio_prompt documents images.
Proof.
  unfold submits. destruct (truthy _), (same_uploads documents _), (same_uploads images _);
    reflexivity.
Qed.

(** The body of the [try] step by step: each statement runs in the world
    the one before it left, the first raise ends the body, and the two
    turns are appended after playback, at the end. *)
Lemma turn_body_run env prompt documents images w0 :
  truthy (strip prompt) = true ->
  turn_body env prompt documents images w0 =
  match runtime_client env with
  | Raise e => (Raise e, record w0 (turn_opening prompt))
  | Val _ =>
      match generate_message env (BEDROCK_MODEL_ID env) prompt documents images None
              (record w0 (turn_opening prompt)) with
      | (Raise e, w2) => (Raise e, w2)
      | (Val message, w2) =>
          match first_text message with
          | Raise e => (Raise e, w2)
          | Val assistant_response =>
              match speak_reply env assistant_response
                      (record w2 [EvUi (StMarkdown assistant_response)]) with
              | (Raise e, w3) => (Raise e, w3)
              | (Val tts, w3) =>
                  (Val (Completed assistant_response tts),
                   {| session :=
                        {| chat_history :=
                             history_after (chat_history (session w3)) prompt
                               assistant_response;
                           last_uploaded_docs := last_uploaded_docs (session w3);
                           last_uploaded_images := last_uploaded_images (session w3);
                           enable_tts := enable_tts (session w3);
                           tts_language := tts_language (session w3) |};
                      files := files w3; trace := trace w3 |})
              end
          end
      end
  end.
Proof.
  intros Hp. unfold turn_body. rewrite Hp. cbn [negb].
  unfold ui. unfold bind at 1. rewrite emit_record.
  unfold bind at 1. rewrite emit_record, record_app.
  unfold bind at 1. rewrite emit_record, record_app.
  change (([EvUi (StChatMessage (py "user"))] ++ [EvUi (StMarkdown prompt)])
          ++ [EvUi (StChatMessage (py "assistant"))]) with (turn_opening prompt).
  unfold bind at 1. unfold lift at 1.
  destruct (runtime_client env) as [[]|e]; [|reflexivity].
  unfold bind at 1.
  destruct (generate_message env (BEDROCK_MODEL_ID env) prompt documents images None
              (record w0 (turn_opening prompt))) as [[message|e] w2]; [|reflexivity].
  unfold bind at 1. unfold lift at 1.
  destruct (first_text message) as [assistant_response|e]; [|reflexivity].
  unfold bind at 1. rewrite emit_record.
  unfold bind at 1.
  destruct (speak_reply env assistant_response
              (record w2 [EvUi (StMarkdown assistant_response)])) as [[tts|e] w3];
    [|reflexivity].
  unfold bind, append_history, get_session, put_session, ret. cbn.
  unfold history_after. rewrite <- app_assoc. reflexivity.
Qed.

(** The two handlers of the outer [try] report the exception and raise
    nothing. *)
Lemma submit_handlers e w1 :
  exists text,
    match e with
    | ClientError text message =>
        ui (StError (py "A client error occurred: " ++ message)) ;;
        ret (Failed (ClientError text message))
    | _ => ui (StError (py "Unexpected error: " ++ exn_str e)) ;; ret (Failed e)
    end w1 = (Val (Failed e), record w1 [EvUi (StError text)]).
Proof. destruct e; eexists; reflexivity. Qed.

(** C5. The submission block of [main] always ends without raising.  Its
    outcome is fixed by what the services do: nothing is submitted without
    a prompt or with new uploads; the turn fails when the client cannot be
    made, when [generate_message] raises, or when the message it returns
    does not start with a text block; otherwise the turn completes,
    whatever [text_to_speech] does, a raise of it included.  The history is
    the old one followed by the new user turn and the assistant turn
    exactly when the turn completed, and is unchanged otherwise. *)
Theorem history_updated_only_after_completed_turn (env : Env)
    (text_input audio_prompt : option str) (documents images : list UploadedFile)
    (w : World) :
  let prompt := submitted_prompt text_input audio_prompt in
  let w1 := record (note_uploads w documents images) (turn_opening prompt) in
  exists outcome w',
    submit env text_input audio_prompt documents images w = (Val outcome, w')
    /\ chat_history (session w') =
         match outcome with
         | Completed assistant_response _ =>
             history_after (chat_history (session w)) prompt assistant_response
         | NotSubmitted | EmptyPrompt | Failed _ => chat_history (session w)
         end
    /\ if submits (session w) text_input audio_prompt documents images then
         match runtime_client env with
         | Raise e => outcome = Failed e
         | Val _ =>
             match generate_message env (BEDROCK_MODEL_ID env) prompt documents images
                     None w1 with
             | (Raise e, _) => outcome = Failed e
             | (Val message, w2) =>
                 match content message with
                 | TextBlock assistant_response :: _ =>
                     let w3 := record w2 [EvUi (StMarkdown assistant_response)] in
                     exists tts,
                       outcome = Completed assistant_response tts
                       /\ fst (speak_reply env assistant_response w3) = Val tts
                       /\ match enable_tts (session w),
                                fst (text_to_speech env assistant_response
                                       (tts_language (session w)) w3) with
                          | false, _ => tts = TtsDisabled
                          | true, Val _ => tts = TtsPlayed
                          | true, Raise e => tts = TtsFailed e
                          end
                 | [] => outcome = Failed (IndexError (py "list index out of range"))
                 | _ :: _ => outcome = Failed (KeyError (py "text"))
                 end
             end
         end
       else outcome = NotSubmitted.
Proof.
  intros prompt w1. unfold submit. unfold bind at 1. unfold get_session at 1.
  unfold bind at 1. unfold put_session at 1. cbv zeta.
  rewrite submit_condition.
  fold (noted_session (session w) documents images).
  fold (note_uploads w documents images). fold prompt.
  destruct (submits (session w) text_input audio_prompt documents images) eqn:Hs.
  2:{ exists NotSubmitted. eexists. split; [reflexivity|]. split; reflexivity. }
  assert (truthy (strip prompt) = true) as Hp.
  { unfold prompt. rewrite submitted_prompt_stripped. unfold submits in Hs.
    destruct (truthy (submitted_prompt text_input audio_prompt)); [reflexivity|].
    discriminate Hs. }
  unfold bind at 1. unfold try_except.
  rewrite (turn_body_run env prompt documents images _ Hp). fold w1.
  destruct (runtime_client env) as [[]|e].
  2:{ destruct (submit_handlers e w1) as [text Hh]. rewrite Hh.
      exists (Failed e). eexists. split; [reflexivity|]. split; reflexivity. }
  destruct (traced_run
              (generate_message env (BEDROCK_MODEL_ID env) prompt documents images None)
              w1) as (r & ev1 & Hg); [apply traced_generate_message|].
  rewrite Hg. destruct r as [message|e].
  2:{ destruct (submit_handlers e (record w1 ev1)) as [text Hh]. rewrite Hh.
      exists (Failed e). eexists. split; [reflexivity|]. split; reflexivity. }
  unfold first_text. destruct (content message) as [|block more].
  { destruct (submit_handlers (IndexError (py "list index out of range"))
                (record w1 ev1)) as [text Hh]. rewrite Hh.
    eexists. eexists. split; [reflexivity|]. split; reflexivity. }
  destruct block as [assistant_response| | | |];
    try (destruct (submit_handlers (KeyError (py "text")) (record w1 ev1))
           as [text Hh]; rewrite Hh;
         eexists; eexists; split; [reflexivity|]; split; reflexivity).
  set (w3 := record (record w1 ev1) [EvUi (StMarkdown assistant_response)]).
  pose proof (speak_reply_label env assistant_response w3) as Hl.
  destruct (speak_reply_returns env assistant_response w3) as (tts & ev2 & Hr).
  destruct (speak_reply env assistant_response w3) as [r3 w4].
  injection Hr as -> ->. cbn [fst] in Hl. injection Hl as Hl.
  exists (Completed assistant_response tts). eexists.
  split; [reflexivity|]. split; [reflexivity|].
  exists tts. split; [reflexivity|]. split; [reflexivity|].
  change (enable_tts (session w3)) with (enable_tts (session w)) in Hl.
  change (tts_language (session w3)) with (tts_language (session w)) in Hl.
  destruct (enable_tts (session w)); [|exact Hl].
  destruct (fst (text_to_speech env assistant_response (tts_language (session w)) w3));
    exact Hl.
Qed.

Example completed_turn_despite_tts_failure :
  let env := sample_env final_answer agent_answers stt_ok in
  exists w',
    submit env (Some (py " Namaste ")) None [] [] speaking_world =
      (Val (Completed (py "Namaste.") (TtsFailed (Timeout (py "read timed out")))), w')
    /\ chat_history (session w') =
         history_after (chat_history (session speaking_world)) (py "Namaste")
           (py "Namaste.").
Proof. eexists. split; vm_compute; reflexivity. Qed.

(** The speech service times out: the reply is shown, a warning is given,
    and the two turns are appended all the same. *)
Example tts_failure_keeps_turn :
  let run := submit (sample_env final_answer agent_answers stt_ok)
               (Some (py " Namaste ")) None [] [] speaking_world in
  fst run = Val (Completed (py "Namaste.") (TtsFailed (Timeout (py "read timed out"))))
  /\ chat_history (session (snd run)) =
       sample_history 2
       ++ [{| turn_role := py "user"; turn_text := Some (py "Namaste") |};
           {| turn_role := py "assistant"; turn_text := Some (py "Namaste.") |}]
  /\ last (trace (snd run)) = Some (EvUi (StWarning (py "TTS failed: read timed out"))).
Proof. vm_compute. repeat split. Qed.

(** The backend rejects the call: the error is shown and the history stays. *)
Example backend_failure_keeps_history :
  let run := submit (backend_down (sample_env final_answer agent_answers stt_ok))
               (Some (py "Namaste")) None [] [] speaking_world in
  fst run = Val (Failed (ClientError (py "An error occurred (AccessDeniedException)")
                                     (py "Access denied")))
  /\ chat_history (session (snd run)) = sample_history 2
  /\ last (trace (snd run)) =
       Some (EvUi (StError (py "A client error occurred: Access denied"))).
Proof. vm_compute. repeat split. Qed.

(** A first response whose first block is a tool request cannot be shown:
    the turn fails on the missing text and the history stays. *)
Example unanswered_tool_request_keeps_history :
  let run := submit (sample_env unknown_request agent_answers stt_ok)
               (Some (py "Will it rain?")) None [] [] speaking_world in
  fst run = Val (Failed (KeyError (py "text")))
  /\ chat_history (session (snd run)) = sample_history 2.
Proof. vm_compute. repeat split. Qed.

(** New uploads alone do not submit a turn. *)
Example upload_is_not_a_submission :
  let run := submit (sample_env final_answer agent_answers stt_ok)
               (Some (py "Summarize")) None [sample_doc] [] speaking_world in
  fst run = Val NotSubmitted
  /\ chat_history (session (snd run)) = sample_history 2
  /\ last_uploaded_docs (session (snd run)) = [sample_doc]
  /\ trace (snd run) = [].
Proof. vm_compute. repeat split. Qed.

(* ===================================================================== *)
(** * Further properties of the helpers *)
(* ===================================================================== *)

(** ** get_government_scheme_info *)

Lemma read_completion_all chunks result :
  read_completion (List.map Val chunks) result = Val (result ++ concat chunks).
Proof.
  revert result. induction chunks as [|chunk rest IH]; intros result; simpl.
  - rewrite app_nil_r. reflexivity.
  - rewrite IH, <- app_assoc. reflexivity.
Qed.

(** X1. Without an agent id or an agent alias (unset or empty)
    [get_government_scheme_info] returns the dict with the error "Bedrock
    agent configuration missing" without raising; no client is made and the
    agent is not called, also when making the client would raise. *)
Theorem scheme_info_unconfigured (env : Env) (query : str) (w : World) :
  ~ agent_configured env ->
  get_government_scheme_info env query w =
    (Val [(py "error", py "Bedrock agent configuration missing")],
     record w [EvToolCall query]).
Proof.
  intros H. unfold get_government_scheme_info, agent_configured in *.
  unfold bind at 1. rewrite emit_record.
  destruct (truthy_opt (BEDROCK_AGENT_ID env)); [|reflexivity].
  destruct (truthy_opt (BEDROCK_AGENT_ALIAS_ID env)); [|reflexivity].
  destruct H. split; reflexivity.
Qed.

Lemma scheme_info_unconfigured_witness :
  get_government_scheme_info (without_agent_alias demo_env) (py "MSME") empty_world =
    (Val [(py "error", py "Bedrock agent configuration missing")],
     record empty_world [EvToolCall (py "MSME")]).
Proof.
  apply (scheme_info_unconfigured (without_agent_alias demo_env) (py "MSME") empty_world).
  intros [_ H]. vm_compute in H. discriminate H.
Defined.

(** X2. When the agent is configured and every chunk of its stream is
    read, the answer is the concatenation of the chunks in the order of the
    stream, returned under "detail"; an empty concatenation gives the error
    "No relevant information found for your query." instead.  The agent is
    called once. *)
Theorem scheme_info_concatenates (env : Env) (query : str) (w : World)
    (chunks : list str) :
  agent_configured env ->
  agent_client env = Val tt ->
  invoke_agent env query = Val (List.map Val chunks) ->
  get_government_scheme_info env query w =
    (Val (if truthy (concat chunks) then [(py "detail", concat chunks)]
          else [(py "error", py "No relevant information found for your query.")]),
     record w [EvToolCall query; EvInvokeAgent query]).
Proof.
  intros [Hi Ha] Hc Hr. unfold get_government_scheme_info.
  unfold bind at 1. rewrite emit_record. rewrite Hi, Ha. cbn [negb orb].
  unfold bind at 1. rewrite Hc. unfold lift at 1.
  unfold bind at 1. unfold try_except.
  unfold bind at 1. rewrite emit_record, record_app.
  unfold bind at 1. rewrite Hr. unfold lift.
  rewrite read_completion_all. cbn [app].
  destruct (truthy (concat chunks)); reflexivity.
Qed.

Lemma scheme_info_concatenates_witness :
  get_government_scheme_info demo_env (py "MSME") empty_world =
    (Val (if truthy (concat [py "Subsidy of "; py "25 percent."])
          then [(py "detail", concat [py "Subsidy of "; py "25 percent."])]
          else [(py "error", py "No relevant information found for your query.")]),
     record empty_world [EvToolCall (py "MSME"); EvInvokeAgent (py "MSME")]).
Proof.
  apply (scheme_info_concatenates demo_env (py "MSME") empty_world
           [py "Subsidy of "; py "25 percent."]).
  - split; reflexivity.
  - reflexivity.
  - reflexivity.
Defined.

(** X3. [get_government_scheme_info] returns a dict with exactly one key:
    "error" with a message, or "detail" with a non-empty answer.  It raises
    only what the construction of the agent client raises: a failure of the
    agent call or of its stream never leaves the function. *)
Theorem scheme_info_result_shape (env : Env) (query : str) (w : World) :
  match fst (get_government_scheme_info env query w) with
  | Val result => scheme_info_error result \/ scheme_info_detail result
  | Raise e => agent_configured env /\ agent_client env = Raise e
  end.
Proof.
  unfold get_government_scheme_info, agent_configured, scheme_info_error,
    scheme_info_detail.
  unfold bind at 1. rewrite emit_record.
  destruct (truthy_opt (BEDROCK_AGENT_ID env)); [|left; eexists; reflexivity].
  destruct (truthy_opt (BEDROCK_AGENT_ALIAS_ID env)); [|left; eexists; reflexivity].
  cbn [negb orb]. unfold bind at 1. unfold lift at 1.
  destruct (agent_client env) as [[]|e]; [|cbn; auto].
  unfold bind at 1. unfold try_except. unfold bind at 1. rewrite emit_record.
  unfold bind at 1. unfold lift.
  destruct (invoke_agent env query) as [response|e]; [|left; eexists; reflexivity].
  destruct (read_completion response []) as [result|e]; [|left; eexists; reflexivity].
  destruct result as [|c t]; cbn.
  - left. eexists. reflexivity.
  - right. eexists. split; [reflexivity|discriminate].
Qed.

(** ** transcribe_audio *)

(** X4. [transcribe_audio] checks the key and the file before it sends
    anything: without a Sarvam key, or when the file does not exist, it
    raises an Exception naming the cause and the world is unchanged, so no
    request was made.  The key is checked first. *)
Theorem transcribe_audio_checks_first (env : Env) (file_path : str) (w : World) :
  truthy_opt (SARVAM_API_KEY env) = false \/ files w !! file_path = None ->
  transcribe_audio env file_path w =
    (Raise (Exception (if truthy_opt (SARVAM_API_KEY env)
                       then py "Audio file not found: " ++ file_path
                       else py "SARVAM API key not configured")), w).
Proof.
  intros H. unfold transcribe_audio.
  destruct (truthy_opt (SARVAM_API_KEY env)); [|reflexivity].
  destruct H as [H|H]; [discriminate|].
  cbn [negb]. unfold bind, get_files. rewrite H. reflexivity.
Qed.

Lemma transcribe_audio_checks_first_witness :
  transcribe_audio demo_env (py "/tmp/missing.wav") empty_world =
    (Raise (Exception (if truthy_opt (SARVAM_API_KEY demo_env)
                       then py "Audio file not found: " ++ py "/tmp/missing.wav"
                       else py "SARVAM API key not configured")), empty_world).
Proof.
  apply (transcribe_audio_checks_first demo_env (py "/tmp/missing.wav") empty_world).
  right. reflexivity.
Defined.

(** X5. [transcribe_audio] returns a transcript exactly when the key is
    set, the file exists, and the service answers the bytes of the file
    with a non-empty transcript, which is then the value returned. *)
Theorem transcribe_audio_success (env : Env) (file_path : str) (w : World)
    (transcript : str) :
  fst (transcribe_audio env file_path w) = Val transcript <->
  truthy_opt (SARVAM_API_KEY env) = true
  /\ exists audio,
       files w !! file_path = Some audio
       /\ sarvam_stt env audio = SttJson (Some transcript)
       /\ transcript <> [].
Proof.
  unfold transcribe_audio.
  destruct (truthy_opt (SARVAM_API_KEY env)); cbn [negb];
    [|split; [discriminate|intros [H _]; discriminate]].
  unfold bind at 1. unfold get_files.
  destruct (files w !! file_path) as [audio|];
    [|split; [discriminate|intros (_ & audio & H & _); discriminate]].
  unfold bind at 1. unfold try_except. unfold bind at 1. rewrite emit_record.
  destruct (sarvam_stt env audio) as [[[|c t]|]|e] eqn:Hs.
  - cbn. split; [discriminate|].
    intros (_ & a & Ha & Hr & Hn). injection Ha as <-.
    rewrite Hs in Hr. injection Hr as <-. destruct Hn. reflexivity.
  - cbn. split.
    + intros H. injection H as <-. split; [reflexivity|].
      exists audio. split; [reflexivity|]. split; [exact Hs|discriminate].
    + intros (_ & a & Ha & Hr & _). injection Ha as <-.
      rewrite Hs in Hr. injection Hr as <-. reflexivity.
  - cbn. split; [discriminate|].
    intros (_ & a & Ha & Hr & _). injection Ha as <-.
    rewrite Hs in Hr. discriminate Hr.
  - assert (forall r : Exc str * World,
              fst r <> Val transcript ->
              fst r = Val transcript <->
              true = true /\
              exists a, Some audio = Some a
                        /\ sarvam_stt env a = SttJson (Some transcript)
                        /\ transcript <> []) as Hno.
    { intros r Hr. split; [contradiction|].
      intros (_ & a & Ha & H & _). injection Ha as <-.
      rewrite Hs in H. discriminate H. }
    unfold raise. cbv beta iota.
    destruct e; try (apply Hno; cbn; discriminate).
    all: cbv beta iota;
      match goal with
      | |- context [if ?b then _ else _] => destruct b
      end; apply Hno; cbn; discriminate.
Qed.

Lemma transcribe_audio_success_witness :
  fst (transcribe_audio demo_env (py "/tmp/a.wav")
         (with_file empty_world (py "/tmp/a.wav") (py "RIFF")))
  = Val (py "\u0928\u092e\u0938\u094d\u0924\u0947").
Proof.
  apply (transcribe_audio_success demo_env (py "/tmp/a.wav")
           (with_file empty_world (py "/tmp/a.wav") (py "RIFF"))
           (py "\u0928\u092e\u0938\u094d\u0924\u0947")).
  split; [reflexivity|]. exists (py "RIFF").
  split; [vm_compute; reflexivity|]. split; [reflexivity|].
  vm_compute. discriminate.
Defined.

Lemma transcribe_audio_events env file_path w :
  exists events,
    snd (transcribe_audio env file_path w) = record w events
    /\ (events = []
        \/ exists audio, files w !! file_path = Some audio /\ events = [EvStt audio]).
Proof.
  unfold transcribe_audio.
  destruct (truthy_opt (SARVAM_API_KEY env)); cbn [negb];
    [|exists []; split; [symmetry; apply record_nil|left; reflexivity]].
  unfold bind at 1. unfold get_files.
  destruct (files w !! file_path) as [audio|] eqn:Hf;
    [|exists []; split; [symmetry; apply record_nil|left; reflexivity]].
  exists [EvStt audio]. split; [|right; eauto].
  unfold bind at 1. unfold try_except. unfold bind at 1. rewrite emit_record.
  destruct (sarvam_stt env audio) as [[[|c t]|]|e]; try reflexivity.
  unfold raise. cbv beta iota. destruct e; try reflexivity.
  all: cbv beta iota;
    match goal with
    | |- context [if ?b then _ else _] => destruct b
    end; reflexivity.
Qed.

(** X6. [transcribe_audio] only reads: it leaves the session and the files
    as they are, whether it returns or raises, and it sends at most one
    request, which carries the bytes of the file. *)
Theorem transcribe_audio_one_request (env : Env) (file_path : str) (w : World) :
  exists events,
    snd (transcribe_audio env file_path w) = record w events
    /\ (events = []
        \/ exists audio, files w !! file_path = Some audio /\ events = [EvStt audio]).
Proof. apply transcribe_audio_events. Qed.

(** X7. A reply without a transcript, or with an empty one, is raised inside
    the [try] and caught by the function's own last handler; as its text
    holds neither "Audio transcription" nor "HTTP error" it leaves the
    function wrapped as an unexpected error. *)
Theorem transcribe_audio_empty_transcript (env : Env) (file_path : str) (w : World)
    (audio : bytes) :
  truthy_opt (SARVAM_API_KEY env) = true ->
  files w !! file_path = Some audio ->
  sarvam_stt env audio = SttJson None \/ sarvam_stt env audio = SttJson (Some []) ->
  fst (transcribe_audio env file_path w) =
    Raise (Exception (py "Unexpected error during audio transcription: Empty transcript received from SARVAM API")).
Proof.
  intros Hk Hf Hs. unfold transcribe_audio. rewrite Hk. cbn [negb].
  unfold bind at 1. unfold get_files. rewrite Hf.
  unfold bind at 1. unfold try_except. unfold bind at 1. rewrite emit_record.
  destruct Hs as [-> | ->]; vm_compute; reflexivity.
Qed.

Lemma transcribe_audio_empty_transcript_witness :
  fst (transcribe_audio (sample_env final_answer agent_answers (SttJson None))
         (py "/tmp/a.wav") (with_file empty_world (py "/tmp/a.wav") (py "RIFF"))) =
    Raise (Exception (py "Unexpected error during audio transcription: Empty transcript received from SARVAM API")).
Proof.
  apply (transcribe_audio_empty_transcript
           (sample_env final_answer agent_answers (SttJson None))
           (py "/tmp/a.wav") (with_file empty_world (py "/tmp/a.wav") (py "RIFF"))
           (py "RIFF")).
  - reflexivity.
  - vm_compute. reflexivity.
  - left. reflexivity.
Defined.

(** ** text_to_speech *)

(** X8. [text_to_speech] returns audio exactly when the key is set, the
    service answers with a list whose first entry is not empty, and that
    entry decodes; the audio is the decoding of the first entry, and later
    entries are not read. *)
Theorem text_to_speech_success (env : Env) (text language : str) (w : World)
    (audio : bytes) :
  fst (text_to_speech env text language w) = Val audio <->
  truthy_opt (SARVAM_API_KEY env) = true
  /\ exists audio_data rest,
       sarvam_tts env text language = Val (audio_data :: rest)
       /\ audio_data <> []
       /\ b64decode env audio_data = Val audio.
Proof.
  unfold text_to_speech.
  destruct (truthy_opt (SARVAM_API_KEY env)); cbn [negb];
    [|split; [discriminate|intros [H _]; discriminate]].
  unfold bind at 1. rewrite emit_record. unfold bind, lift.
  destruct (sarvam_tts env text language) as [[|[|c t] rest]|e]; cbn.
  - split; [discriminate|]. intros (_ & a & r & H & _). discriminate.
  - split; [discriminate|]. intros (_ & a & r & H & Hn & _).
    injection H as <- <-. destruct Hn. reflexivity.
  - split.
    + intros H. split; [reflexivity|]. exists (c :: t), rest.
      split; [reflexivity|]. split; [discriminate|exact H].
    + intros (_ & a & r & H & _ & Hd). injection H as <- <-. exact Hd.
  - split; [discriminate|]. intros (_ & a & r & H & _). discriminate.
Qed.

Lemma text_to_speech_success_witness :
  fst (text_to_speech (with_speech demo_env [py "UklGRg=="; py "ignored"] (py "RIFF"))
         (py "Namaste") (py "hi-IN") empty_world) = Val (py "RIFF").
Proof.
  apply (text_to_speech_success
           (with_speech demo_env [py "UklGRg=="; py "ignored"] (py "RIFF"))
           (py "Namaste") (py "hi-IN") empty_world (py "RIFF")).
  split; [reflexivity|]. exists (py "UklGRg=="), [py "ignored"].
  split; [reflexivity|]. split; [vm_compute; discriminate|reflexivity].
Defined.

(** ** generate_message: what is sent *)

Lemma history_messages_cons turn history :
  history_messages (turn :: history) =
  match turn_text turn with
  | Some text => {| role := turn_role turn; content := [TextBlock text] |}
                 :: history_messages history
  | None => history_messages history
  end.
Proof. unfold history_messages. cbn. destruct (turn_text turn); reflexivity. Qed.

Lemma filter_has_text_cons turn history :
  List.filter has_text (turn :: history) =
  match turn_text turn with
  | Some _ => turn :: List.filter has_text history
  | None => List.filter has_text history
  end.
Proof. cbn [List.filter]. unfold has_text at 1. destruct (turn_text turn); reflexivity. Qed.

(** X9. The history is sent as text only.  The turns that have a text are
    projected one by one, in their order, each to a message with the role
    of the turn and its text as the only block; a turn without a text is
    skipped, wherever it stands, and the turns around it are kept.  So
    every projected message holds exactly one text block, and there are
    as many messages as turns with a text. *)
Theorem history_messages_text_only (history : list Turn) :
  history_messages history = List.map turn_message (List.filter has_text history)
  /\ Forall (fun message => exists text, content message = [TextBlock text])
       (history_messages history)
  /\ length (history_messages history) = length (List.filter has_text history)
  /\ (length (history_messages history) <= length history)%nat.
Proof.
  induction history as [|turn rest (IH1 & IH2 & IH3 & IH4)].
  - repeat split; auto.
  - rewrite history_messages_cons, filter_has_text_cons.
    destruct (turn_text turn) as [text|] eqn:Ht.
    + cbn [List.map length]. unfold turn_message at 1. rewrite Ht.
      cbn [default from_option id].
      split; [rewrite IH1; reflexivity|].
      split; [constructor; [eexists; reflexivity|exact IH2]|].
      split; [rewrite IH3; reflexivity|lia].
    + split; [exact IH1|]. split; [exact IH2|]. split; [exact IH3|].
      cbn [length]. lia.
Qed.

(** A turn without a text in the middle of the history: it alone is
    missing from what is sent. *)
Example history_messages_skips_textless :
  history_messages
    [{| turn_role := py "user"; turn_text := Some (py "Namaste") |};
     {| turn_role := py "assistant"; turn_text := None |};
     {| turn_role := py "user"; turn_text := Some (py "MSME") |}]
  = [{| role := py "user"; content := [TextBlock (py "Namaste")] |};
     {| role := py "user"; content := [TextBlock (py "MSME")] |}].
Proof. reflexivity. Qed.

Lemma append_blocks_inv {A} (block : A -> Exc ContentBlock) (items : list A)
    (content_blocks result : list ContentBlock) :
  append_blocks block items content_blocks = Val result ->
  exists added,
    result = content_blocks ++ added
    /\ Forall2 (fun item b => block item = Val b) items added.
Proof.
  revert content_blocks. induction items as [|item rest IH]; intros content_blocks; simpl.
  - intros H. injection H as <-. exists []. split; [symmetry; apply app_nil_r|constructor].
  - destruct (block item) as [b|e] eqn:Hb; simpl; [|discriminate].
    intros H. destruct (IH _ H) as (added & -> & Hall).
    exists (b :: added). split; [rewrite <- app_assoc; reflexivity|].
    constructor; assumption.
Qed.

Lemma document_block_inv doc b : document_block doc = Val b -> valid_document_block b.
Proof.
  unfold document_block. destruct (int_gt_float _ _); [discriminate|].
  destruct (bool_decide _) eqn:Hf; [|discriminate]. cbn [negb].
  intros H. injection H as <-. split.
  - apply bool_decide_eq_true_1 in Hf. exact Hf.
  - apply sanitize_filename_sanitized.
Qed.

Lemma image_block_inv img b : image_block img = Val b -> is_image_block b.
Proof.
  unfold image_block. destruct (int_gt_float _ _); [discriminate|].
  intros H. injection H as <-. exact I.
Qed.

(** X10. Whenever the content blocks are built, they are the text block
    with the prompt, then one document block for each of the first five
    documents, each with an allowed format and a sanitised name, then one
    image block for each of the first twenty images. *)
Theorem content_blocks_shape (input_text : str) (documents images : list UploadedFile)
    (blocks : list ContentBlock) :
  build_content_blocks input_text documents images = Val blocks ->
  exists document_blocks image_blocks,
    blocks = TextBlock input_text :: document_blocks ++ image_blocks
    /\ Forall valid_document_block document_blocks
    /\ Forall is_image_block image_blocks
    /\ length document_blocks = min 5 (length documents)
    /\ length image_blocks = min 20 (length images).
Proof.
  unfold build_content_blocks. intros H.
  destruct (append_blocks document_block (take 5 documents) [TextBlock input_text])
    as [with_documents|e] eqn:Hd; [|discriminate]. cbn [exc_bind] in H.
  apply append_blocks_inv in Hd as (document_blocks & -> & Hdocs).
  apply append_blocks_inv in H as (image_blocks & -> & Himgs).
  exists document_blocks, image_blocks. split; [rewrite <- app_assoc; reflexivity|].
  split; [|split; [|split]].
  - clear Himgs. induction Hdocs as [|doc b docs bs Hb _ IH]; constructor; auto.
    eapply document_block_inv, Hb.
  - clear Hdocs. induction Himgs as [|img b imgs bs Hb _ IH]; constructor; auto.
    eapply image_block_inv, Hb.
  - apply Forall2_length in Hdocs. rewrite <- Hdocs, length_take. lia.
  - apply Forall2_length in Himgs. rewrite <- Himgs, length_take. lia.
Qed.

Lemma content_blocks_shape_witness :
  exists document_blocks image_blocks,
    TextBlock (py "hi")
    :: replicate 5 (DocumentBlock (py "Budget Notes") (py "txt") (py "MSME"))
    = TextBlock (py "hi") :: document_blocks ++ image_blocks
    /\ Forall valid_document_block document_blocks
    /\ Forall is_image_block image_blocks
    /\ length document_blocks = min 5 (length (replicate 6 sample_doc))
    /\ length image_blocks = min 20 (length (@nil UploadedFile)).
Proof.
  apply (content_blocks_shape (py "hi") (replicate 6 sample_doc) []).
  vm_compute. reflexivity.
Defined.

(** ** generate_message: calls of the backend *)

Lemma accepted_not_blank s :
  negb (truthy s) || negb (truthy (strip s)) = false -> ~ blank s.
Proof.
  intros H Hb. rewrite (strip_blank s Hb) in H. cbn in H.
  rewrite orb_true_r in H. discriminate H.
Qed.

Lemma rejected_attachment_no_call_aux env model_id input_text documents images
    history w e :
  ~ blank input_text ->
  build_content_blocks input_text documents images = Raise e ->
  generate_message env model_id input_text documents images history w = (Raise e, w).
Proof.
  intros Hnb Hb. unfold generate_message, bind, get_session.
  rewrite (not_blank_accepted _ Hnb), Hb. reflexivity.
Qed.

(** X11. An attachment that fails its check stops the turn before the
    backend is called: [generate_message] raises the error of the
    normaliser and records no call. *)
Theorem rejected_attachment_no_call (env : Env) (model_id : option str)
    (input_text : str) (documents images : list UploadedFile)
    (history : option (list Turn)) (w : World) (e : exn) :
  ~ blank input_text ->
  build_content_blocks input_text documents images = Raise e ->
  generate_message env model_id input_text documents images history w = (Raise e, w).
Proof. apply rejected_attachment_no_call_aux. Qed.

Lemma rejected_attachment_no_call_witness :
  generate_message demo_env (Some (py "model")) (py "Summarize")
      [with_size sample_doc 5000000] [] None empty_world =
    (Raise (ValueError (py "Document 'Budget Notes.TXT' exceeds 4.5MB limit.")),
     empty_world).
Proof.
  apply (rejected_attachment_no_call demo_env (Some (py "model")) (py "Summarize")
           [with_size sample_doc 5000000] [] None empty_world).
  - intros H. apply Forall_inv in H. vm_compute in H. discriminate H.
  - vm_compute. reflexivity.
Defined.

(** X12. When the first response stops for another reason than tool use,
    [generate_message] returns its message after exactly one backend call,
    made with the history, the new user message and the system prompt; the
    tool is not called, whatever the message contains. *)
Theorem plain_answer_single_call (env : Env) (model_id : option str)
    (input_text : str) (documents images : list UploadedFile)
    (history : option (list Turn)) (w : World)
    (blocks : list ContentBlock) (first : ConverseResponse) :
  let request := first_request env model_id (turn_messages w history blocks) in
  ~ blank input_text ->
  build_content_blocks input_text documents images = Val blocks ->
  converse env request = Val first ->
  stopReason first <> py "tool_use" ->
  generate_message env model_id input_text documents images history w =
    (Val (output_message first), record w [EvConverse request]).
Proof.
  intros request Hnb Hb Hc Hs.
  rewrite (generate_message_first_call _ _ _ _ _ _ _ blocks Hnb Hb). cbv zeta.
  fold request. rewrite Hc. unfold str_eqb.
  rewrite bool_decide_eq_false_2 by exact Hs. reflexivity.
Qed.

Lemma plain_answer_single_call_witness :
  let request := first_request demo_env (Some (py "model"))
                   (turn_messages empty_world None [TextBlock (py "Namaste")]) in
  generate_message demo_env (Some (py "model")) (py "Namaste") [] [] None empty_world =
    (Val (output_message final_answer), record empty_world [EvConverse request]).
Proof.
  apply (plain_answer_single_call demo_env (Some (py "model")) (py "Namaste") [] []
           None empty_world [TextBlock (py "Namaste")] final_answer).
  - intros H. apply Forall_inv in H. vm_compute in H. discriminate H.
  - reflexivity.
  - reflexivity.
  - vm_compute. discriminate.
Defined.

(** X13. A backend call that raises on the first request ends
    [generate_message] with that exception: the call is made once and is
    not repeated, and the tool is not called. *)
Theorem backend_error_propagates (env : Env) (model_id : option str)
    (input_text : str) (documents images : list UploadedFile)
    (history : option (list Turn)) (w : World)
    (blocks : list ContentBlock) (e : exn) :
  let request := first_request env model_id (turn_messages w history blocks) in
  ~ blank input_text ->
  build_content_blocks input_text documents images = Val blocks ->
  converse env request = Raise e ->
  generate_message env model_id input_text documents images history w =
    (Raise e, record w [EvConverse request]).
Proof.
  intros request Hnb Hb Hc.
  rewrite (generate_message_first_call _ _ _ _ _ _ _ blocks Hnb Hb). cbv zeta.
  fold request. rewrite Hc. reflexivity.
Qed.

Lemma backend_error_propagates_witness :
  let request := first_request (backend_down demo_env) (Some (py "model"))
                   (turn_messages empty_world None [TextBlock (py "Namaste")]) in
  generate_message (backend_down demo_env) (Some (py "model")) (py "Namaste") [] []
      None empty_world =
    (Raise (ClientError (py "An error occurred (AccessDeniedException)")
                        (py "Access denied")),
     record empty_world [EvConverse request]).
Proof.
  apply (backend_error_propagates (backend_down demo_env) (Some (py "model"))
           (py "Namaste") [] [] None empty_world [TextBlock (py "Namaste")]).
  - intros H. apply Forall_inv in H. vm_compute in H. discriminate H.
  - reflexivity.
  - reflexivity.
Defined.

(** X14. For every input and every behaviour of the services,
    [generate_message] leaves the session and the files as they are and
    records at most two backend calls and at most one tool call; a tool
    call is always followed by the second backend call. *)
Theorem generate_message_call_bounds (env : Env) (model_id : option str)
    (input_text : str) (documents images : list UploadedFile)
    (history : option (list Turn)) (w : World) :
  exists events,
    snd (generate_message env model_id input_text documents images history w)
      = record w events
    /\ (converse_calls events <= 2)%nat
    /\ (tool_calls events <= 1)%nat
    /\ (tool_calls events = 0%nat \/ converse_calls events = 2%nat).
Proof.
  assert (forall events, events = [] \/ (exists r, events = [EvConverse r]) ->
            (converse_calls events <= 2)%nat /\ (tool_calls events <= 1)%nat
            /\ (tool_calls events = 0%nat \/ converse_calls events = 2%nat)) as Hsmall.
  { intros events [-> | [r ->]]; cbn; repeat split; try lia; left; reflexivity. }
  destruct (negb (truthy input_text) || negb (truthy (strip input_text))) eqn:Ht.
  { exists []. split; [|apply Hsmall; auto].
    unfold generate_message, bind, get_session. rewrite Ht. cbn.
    symmetry. apply record_nil. }
  apply accepted_not_blank in Ht.
  destruct (build_content_blocks input_text documents images) as [blocks|e] eqn:Hb.
  2:{ exists []. split; [|apply Hsmall; auto].
      rewrite (rejected_attachment_no_call_aux env model_id input_text documents images
                 history w e Ht Hb). symmetry. apply record_nil. }
  rewrite (generate_message_first_call _ _ _ _ _ _ _ blocks Ht Hb). cbv zeta.
  set (messages := turn_messages w history blocks).
  set (request := first_request env model_id messages).
  destruct (converse env request) as [first|e].
  2:{ exists [EvConverse request]. split; [reflexivity|apply Hsmall; eauto]. }
  destruct (str_eqb (stopReason first) (py "tool_use")).
  2:{ exists [EvConverse request]. split; [reflexivity|apply Hsmall; eauto]. }
  rewrite answer_tool_requests_known.
  destruct (known_tools (content (output_message first))) as [|tool rest].
  { exists [EvConverse request]. split; [reflexivity|apply Hsmall; eauto]. }
  destruct (run_tool_run env tool (record w [EvConverse request]))
    as (tool_result & Hrun & _).
  rewrite record_app in Hrun.
  exists ([EvConverse request] ++ tool_events env tool
          ++ [EvConverse (follow_up_request model_id messages (output_message first)
                            tool_result)]).
  split.
  - unfold bind at 1. rewrite Hrun. unfold call_converse, bind, lift, ret.
    rewrite emit_record, record_app, <- (app_assoc [EvConverse request]).
    fold (follow_up_request model_id messages (output_message first) tool_result).
    destruct (converse env (follow_up_request _ _ _ _)); reflexivity.
  - rewrite !converse_calls_app, !tool_calls_app.
    destruct (tool_events_counts env tool) as [-> ->].
    destruct (dict_get _ _); cbn; repeat split; try lia; right; reflexivity.
Qed.

(** ** File names *)

Lemma split_not_nil sep s : split sep s <> [].
Proof.
  destruct s as [|c t]; simpl; [discriminate|].
  destruct (c =? sep); [discriminate|]. destruct (split sep t); discriminate.
Qed.

Lemma split_no_sep sep s : Forall (fun c => c <> sep) s -> split sep s = [s].
Proof.
  induction 1 as [|c t H _ IH]; simpl; [reflexivity|].
  apply N.eqb_neq in H. rewrite H, IH. reflexivity.
Qed.

(** [(a + sep + b).split(sep) == a.split(sep) + b.split(sep)] *)
Lemma split_app_sep sep a b :
  split sep (a ++ sep :: b) = split sep a ++ split sep b.
Proof.
  induction a as [|c t IH]; simpl.
  - rewrite N.eqb_refl. reflexivity.
  - destruct (c =? sep); [rewrite IH; reflexivity|].
    rewrite IH. pose proof (split_not_nil sep t) as Hn.
    destruct (split sep t); [contradiction|reflexivity].
Qed.

Lemma final_split_extension sep base ext :
  Forall (fun c => c <> sep) ext ->
  final (split sep (base ++ sep :: ext)) = Some ext.
Proof.
  intros H. rewrite split_app_sep, (split_no_sep sep ext H).
  unfold final. apply last_snoc.
Qed.

(** X15. The format of a document is the part of its name after the last
    dot, lowered.  For a name that ends in a dot and an extension of ASCII
    characters without a dot: a document within the size limit is accepted
    with the lowered extension as its format when that is one of txt, pdf,
    docx, csv, json, and is rejected with a ValueError naming the lowered
    extension otherwise. *)
Theorem document_extension_decides (base ext : str) (doc : UploadedFile) :
  file_name doc = base ++ [0x2E] ++ ext ->
  Forall (fun c => c <> 0x2E) ext ->
  Forall (fun c => c < 0x80) ext ->
  (inject_Z (file_size doc) <= 4.5 * 1024 * 1024)%Q ->
  document_block doc =
    if bool_decide (lower ext ∈ DOCUMENT_FORMATS)
    then Val (DocumentBlock (sanitize_filename (file_name doc)) (lower ext)
                (file_bytes doc))
    else Raise (ValueError (py "Unsupported document format: " ++ lower ext)).
Proof.
  intros Hn He _ Hs. unfold document_block, document_format.
  rewrite int_gt_float_false by exact Hs.
  rewrite Hn. cbn [app]. rewrite (final_split_extension 0x2E base ext He).
  cbn [default from_option id].
  destruct (bool_decide (lower ext ∈ DOCUMENT_FORMATS)); reflexivity.
Qed.

Lemma document_extension_decides_witness :
  document_block sample_doc =
    if bool_decide (lower (py "TXT") ∈ DOCUMENT_FORMATS)
    then Val (DocumentBlock (sanitize_filename (file_name sample_doc)) (lower (py "TXT"))
                (file_bytes sample_doc))
    else Raise (ValueError (py "Unsupported document format: " ++ lower (py "TXT"))).
Proof.
  apply (document_extension_decides (py "Budget Notes") (py "TXT") sample_doc).
  - reflexivity.
  - repeat constructor; discriminate.
  - repeat constructor.
  - vm_compute. discriminate.
Defined.

Lemma rfind_last_sep sep base ext :
  Forall (fun c => c <> sep) ext ->
  rfind sep (base ++ sep :: ext) = Some (length base).
Proof.
  intros H. induction base as [|c t IH]; simpl.
  - rewrite (rfind_none sep ext H), N.eqb_refl. reflexivity.
  - rewrite IH. reflexivity.
Qed.

Lemma rsplit1_extension sep base ext :
  Forall (fun c => c <> sep) ext ->
  first (rsplit1 sep (base ++ sep :: ext)) = Some base.
Proof.
  intros H. unfold rsplit1. rewrite (rfind_last_sep sep base ext H). cbn.
  rewrite take_app_length. reflexivity.
Qed.

(** X16. The extension does not reach the sanitised name: two file names
    that differ only in what follows their last dot are given the same
    name. *)
Theorem sanitize_filename_ignores_extension (base ext1 ext2 : str) :
  Forall (fun c => c <> 0x2E) ext1 ->
  Forall (fun c => c <> 0x2E) ext2 ->
  sanitize_filename (base ++ [0x2E] ++ ext1) = sanitize_filename (base ++ [0x2E] ++ ext2).
Proof.
  intros H1 H2. unfold sanitize_filename. cbn [app].
  rewrite (rsplit1_extension 0x2E base ext1 H1), (rsplit1_extension 0x2E base ext2 H2).
  reflexivity.
Qed.

Lemma sanitize_filename_ignores_extension_witness :
  sanitize_filename (py "report v1" ++ [0x2E] ++ py "pdf")
  = sanitize_filename (py "report v1" ++ [0x2E] ++ py "docx").
Proof.
  apply (sanitize_filename_ignores_extension (py "report v1") (py "pdf") (py "docx"));
    repeat constructor; discriminate.
Defined.

Lemma lstrip_length s : (length (lstrip s) <= length s)%nat.
Proof.
  induction s as [|c t IH]; simpl; [lia|]. destruct (isspace c); simpl; lia.
Qed.

Lemma rstrip_length s : (length (rstrip s) <= length s)%nat.
Proof.
  induction s as [|c t IH]; simpl; [lia|].
  destruct (rstrip t); [destruct (isspace c)|]; simpl in *; lia.
Qed.

Lemma sub_space_runs_length s : (length (sub_space_runs s) <= length s)%nat.
Proof.
  induction s as [|c t IH]; [simpl; lia|]. cbn [sub_space_runs].
  destruct (isspace c); [|simpl; lia].
  destruct t as [|c' t']; [simpl; lia|].
  destruct (isspace c'); simpl in *; lia.
Qed.

Lemma rsplit1_first_length sep s :
  (length (default [] (first (rsplit1 sep s))) <= length s)%nat.
Proof.
  unfold rsplit1. destruct (rfind sep s); cbn; [|lia].
  rewrite length_take. lia.
Qed.

(** X17. A sanitised name is never longer than the file name, is made of
    ASCII letters, digits, whitespace, hyphens, round and square brackets
    and underscores only, has single spaces as its only whitespace, and
    neither starts nor ends with whitespace. *)
Theorem sanitize_filename_shape (filename : str) :
  (length (sanitize_filename filename) <= length filename)%nat
  /\ Forall kept (sanitize_filename filename)
  /\ single_spaced (sanitize_filename filename)
  /\ strip (sanitize_filename filename) = sanitize_filename filename.
Proof.
  split; [|apply sanitize_filename_sanitized].
  unfold sanitize_filename, strip.
  pose proof (rsplit1_first_length 0x2E filename) as H1.
  set (name := default [] (first (rsplit1 0x2E filename))) in *.
  pose proof (rstrip_length (lstrip (sub_space_runs (sub_bad_chars name)))) as H2.
  pose proof (lstrip_length (sub_space_runs (sub_bad_chars name))) as H3.
  pose proof (sub_space_runs_length (sub_bad_chars name)) as H4.
  unfold sub_bad_chars in *. rewrite length_map in H4. lia.
Qed.

(** ** Session initialisation *)

Lemma limit_chat_history_length history :
  (length (limit_chat_history history) <= 50)%nat.
Proof.
  unfold limit_chat_history, slice_last.
  destruct (Nat.ltb_spec 50 (length history)); [rewrite length_drop|]; lia.
Qed.

(** X18. After the initialisation at the top of the script the history
    holds at most 50 turns and is a suffix of the stored history (empty
    when none was stored), and running the initialisation again on its own
    result changes nothing. *)
Theorem session_init_stable (raw : RawSession) :
  (length (chat_history (session_init raw)) <= 50)%nat
  /\ (exists evicted,
        default [] (raw_chat_history raw) = evicted ++ chat_history (session_init raw))
  /\ session_init (as_raw (session_init raw)) = session_init raw.
Proof.
  split; [apply limit_chat_history_length|]. split.
  - unfold session_init. cbn [chat_history].
    set (history := default [] (raw_chat_history raw)).
    unfold limit_chat_history. destruct (50 <? length history)%nat.
    + eexists. apply slice_last_split.
    + exists []. reflexivity.
  - unfold session_init, as_raw. cbn.
    rewrite (limit_chat_history_short (limit_chat_history _))
      by apply limit_chat_history_length.
    reflexivity.
Qed.

(** ** The submission block of main *)

(** The world a run of the [try] body leaves: only a completed turn changes
    the session, and then only its history; the files are not touched. *)
Lemma turn_body_world env prompt documents images w :
  exists r events,
    turn_body env prompt documents images w =
      (r, {| session := match r with
                        | Val (Completed assistant_response _) =>
                            completed_session (session w) prompt assistant_response
                        | _ => session w
                        end;
             files := files w;
             trace := trace w ++ events |})
    /\ match r with
       | Val (Completed _ _) | Raise _ => True
       | Val EmptyPrompt => truthy (strip prompt) = false
       | Val _ => False
       end.
Proof.
  unfold turn_body. destruct (truthy (strip prompt)) eqn:Hp; cbn [negb].
  2:{ exists (Val EmptyPrompt), [EvUi (StWarning (py "Please enter a prompt."))].
      split; reflexivity. }
  unfold ui. unfold bind at 1. rewrite emit_record.
  unfold bind at 1. rewrite emit_record, record_app.
  unfold bind at 1. rewrite emit_record, record_app.
  set (shown := ([EvUi (StChatMessage (py "user"))] ++ [EvUi (StMarkdown prompt)])
                ++ [EvUi (StChatMessage (py "assistant"))]).
  unfold bind at 1. unfold lift at 1.
  destruct (runtime_client env) as [[]|e].
  2:{ exists (Raise e), shown. split; [reflexivity|exact I]. }
  unfold bind at 1.
  destruct (traced_run
              (generate_message env (BEDROCK_MODEL_ID env) prompt documents images None)
              (record w shown)) as (r & ev1 & Hg);
    [apply traced_generate_message|].
  rewrite Hg, record_app. destruct r as [message|e].
  2:{ exists (Raise e), (shown ++ ev1). split; [reflexivity|exact I]. }
  unfold bind at 1. unfold lift at 1.
  destruct (first_text message) as [assistant_response|e].
  2:{ exists (Raise e), (shown ++ ev1). split; [reflexivity|exact I]. }
  unfold bind at 1. rewrite emit_record, record_app.
  unfold bind at 1.
  destruct (speak_reply_returns env assistant_response
              (record w ((shown ++ ev1) ++ [EvUi (StMarkdown assistant_response)])))
    as (tts & ev2 & Hs).
  rewrite Hs, record_app.
  exists (Val (Completed assistant_response tts)),
    (((shown ++ ev1) ++ [EvUi (StMarkdown assistant_response)]) ++ ev2).
  split; [|exact I].
  cbn. unfold completed_session, history_after. rewrite <- app_assoc. reflexivity.
Qed.

(** What [submit] leaves behind, for every input. *)
Lemma submit_world env text_input audio_prompt documents images w :
  exists outcome events,
    submit env text_input audio_prompt documents images w =
      (Val outcome,
       {| session :=
            match outcome with
            | Completed assistant_response _ =>
                completed_session (noted_session (session w) documents images)
                  (submitted_prompt text_input audio_prompt) assistant_response
            | _ => noted_session (session w) documents images
            end;
          files := files w;
          trace := trace w ++ events |})
    /\ outcome <> EmptyPrompt
    /\ (outcome = NotSubmitted ->
        events = []
        /\ submits (session w) text_input audio_prompt documents images = false).
Proof.
  unfold submit. unfold bind at 1. unfold get_session at 1.
  unfold bind at 1. unfold put_session at 1. cbv zeta.
  rewrite submit_condition.
  fold (noted_session (session w) documents images).
  fold (note_uploads w documents images).
  destruct (submits (session w) text_input audio_prompt documents images) eqn:Hs.
  2:{ exists NotSubmitted, []. split.
      - unfold ret, note_uploads. rewrite app_nil_r. reflexivity.
      - split; [discriminate|]. intros _. split; reflexivity. }
  unfold bind at 1. unfold try_except.
  destruct (turn_body_world env (submitted_prompt text_input audio_prompt)
              documents images (note_uploads w documents images))
    as (r & events & Hr & Hk).
  rewrite Hr. cbn [note_uploads session files trace].
  destruct r as [outcome|e].
  - exists outcome, events. split; [reflexivity|].
    destruct outcome; try contradiction.
    + rewrite submitted_prompt_stripped in Hk. unfold submits in Hs.
      rewrite Hk in Hs. discriminate Hs.
    + split; discriminate.
  - assert (forall text,
              (ui (StError text) ;; ret (Failed e))
                {| session := noted_session (session w) documents images;
                   files := files w; trace := trace w ++ events |}
              = (Val (Failed e),
                 {| session := noted_session (session w) documents images;
                    files := files w;
                    trace := trace w ++ events ++ [EvUi (StError text)] |})) as Hf.
    { intros text. unfold bind, ui, emit, ret. cbn. rewrite <- app_assoc. reflexivity. }
    destruct e; cbv beta iota; rewrite Hf;
      (eexists (Failed _); eexists; split;
       [reflexivity|split; discriminate]).
Qed.

Lemma submit_skipped env text_input audio_prompt documents images w :
  submits (session w) text_input audio_prompt documents images = false ->
  submit env text_input audio_prompt documents images w =
    (Val NotSubmitted, note_uploads w documents images).
Proof.
  intros H. unfold submit. unfold bind at 1. unfold get_session at 1.
  unfold bind at 1. unfold put_session at 1. cbv zeta.
  rewrite submit_condition, H. reflexivity.
Qed.

Lemma same_uploads_refl uploads : same_uploads uploads uploads = true.
Proof.
  induction uploads as [|f rest IH]; [reflexivity|].
  cbn. unfold same_upload. rewrite str_eqb_refl. exact IH.
Qed.

Lemma noted_uploads_same uploads last_seen :
  same_uploads uploads
    (if negb (same_uploads uploads last_seen) then uploads else last_seen) = true.
Proof.
  destruct (same_uploads uploads last_seen) eqn:E; cbn [negb].
  - exact E.
  - apply same_uploads_refl.
Qed.

(** X19. Whatever the submission block does, it ends without raising and
    leaves as the last-seen attachments lists that compare equal to the
    ones it was given: the given list where it differs from the last-seen
    one, the last-seen one where it does not.  The speech settings and the
    files are as before. *)
Theorem submit_notes_uploads (env : Env) (text_input audio_prompt : option str)
    (documents images : list UploadedFile) (w : World) :
  exists outcome w',
    submit env text_input audio_prompt documents images w = (Val outcome, w')
    /\ same_uploads documents (last_uploaded_docs (session w')) = true
    /\ same_uploads images (last_uploaded_images (session w')) = true
    /\ last_uploaded_docs (session w') =
         (if same_uploads documents (last_uploaded_docs (session w))
          then last_uploaded_docs (session w) else documents)
    /\ last_uploaded_images (session w') =
         (if same_uploads images (last_uploaded_images (session w))
          then last_uploaded_images (session w) else images)
    /\ enable_tts (session w') = enable_tts (session w)
    /\ tts_language (session w') = tts_language (session w)
    /\ files w' = files w.
Proof.
  destruct (submit_world env text_input audio_prompt documents images w)
    as (outcome & events & Hrun & _).
  eexists. eexists. split; [exact Hrun|].
  assert (forall uploads last_seen : list UploadedFile,
            (if negb (same_uploads uploads last_seen) then uploads else last_seen)
            = (if same_uploads uploads last_seen then last_seen else uploads)) as Hn.
  { intros uploads last_seen. destruct (same_uploads uploads last_seen); reflexivity. }
  destruct outcome; cbn [session files completed_session noted_session
                         last_uploaded_docs last_uploaded_images enable_tts tts_language];
    (split; [apply noted_uploads_same|]);
    (split; [apply noted_uploads_same|]);
    (split; [apply Hn|]); (split; [apply Hn|]); repeat split; reflexivity.
Qed.

(** X20. A run in which the documents or the images do not compare equal
    to the last-seen ones submits nothing, also when a prompt was typed or
    spoken: no call is recorded, the history is unchanged and the new
    attachments become the last-seen ones.  Uploads compare by their id, so
    this is also the run after the same file was uploaded again. *)
Theorem upload_change_not_submitted (env : Env) (text_input audio_prompt : option str)
    (documents images : list UploadedFile) (w : World) :
  same_uploads documents (last_uploaded_docs (session w)) = false
  \/ same_uploads images (last_uploaded_images (session w)) = false ->
  exists w',
    submit env text_input audio_prompt documents images w = (Val NotSubmitted, w')
    /\ trace w' = trace w
    /\ files w' = files w
    /\ chat_history (session w') = chat_history (session w)
    /\ last_uploaded_docs (session w') =
         (if same_uploads documents (last_uploaded_docs (session w))
          then last_uploaded_docs (session w) else documents)
    /\ last_uploaded_images (session w') =
         (if same_uploads images (last_uploaded_images (session w))
          then last_uploaded_images (session w) else images).
Proof.
  intros H. exists (note_uploads w documents images). split.
  - apply submit_skipped. unfold submits.
    destruct H as [H|H]; rewrite H.
    + rewrite andb_false_r. reflexivity.
    + apply andb_false_r.
  - cbn [note_uploads noted_session session trace files chat_history
         last_uploaded_docs last_uploaded_images].
    repeat split.
    + destruct (same_uploads documents _); reflexivity.
    + destruct (same_uploads images _); reflexivity.
Qed.

Lemma upload_change_not_submitted_witness :
  exists w',
    submit demo_env (Some (py "Summarize")) None [uploaded_again sample_doc (py "upload-7")]
      [] (with_last_docs speaking_world [sample_doc]) = (Val NotSubmitted, w')
    /\ trace w' = []
    /\ files w' = ∅
    /\ chat_history (session w') = sample_history 2
    /\ last_uploaded_docs (session w') = [uploaded_again sample_doc (py "upload-7")]
    /\ last_uploaded_images (session w') = [].
Proof.
  apply (upload_change_not_submitted demo_env (Some (py "Summarize")) None
           [uploaded_again sample_doc (py "upload-7")] []
           (with_last_docs speaking_world [sample_doc])).
  left. vm_compute. reflexivity.
Defined.

(** X21. The submission block never takes the branch that warns "Please
    enter a prompt.": the prompt it tests there was stripped before and
    found non-empty. *)
Theorem submit_never_warns_empty_prompt (env : Env)
    (text_input audio_prompt : option str) (documents images : list UploadedFile)
    (w : World) :
  exists outcome w',
    submit env text_input audio_prompt documents images w = (Val outcome, w')
    /\ match outcome with
       | EmptyPrompt => False
       | NotSubmitted | Completed _ _ | Failed _ => True
       end.
Proof.
  destruct (submit_world env text_input audio_prompt documents images w)
    as (outcome & events & Hrun & Hne & _).
  eexists. eexists. split; [exact Hrun|].
  destruct outcome; try exact I. apply Hne. reflexivity.
Qed.

(** X22. Typed text wins over the transcript also when it is only
    whitespace: the prompt is then empty, nothing is submitted and the
    transcript of the recording is dropped. *)
Theorem blank_text_drops_transcript (env : Env) (text_input : str)
    (audio_prompt : option str) (documents images : list UploadedFile) (w : World) :
  text_input <> [] ->
  blank text_input ->
  submit env (Some text_input) audio_prompt documents images w =
    (Val NotSubmitted,
     {| session := noted_session (session w) documents images;
        files := files w; trace := trace w |}).
Proof.
  intros Hne Hb. apply submit_skipped. unfold submits.
  unfold submitted_prompt. destruct text_input as [|c t]; [contradiction|].
  cbn [truthy_opt truthy default from_option id].
  rewrite (strip_blank _ Hb). reflexivity.
Qed.

Lemma blank_text_drops_transcript_witness :
  submit demo_env (Some (py "  ")) (Some (py "What is the MSME subsidy scheme?"))
    [] [] speaking_world =
    (Val NotSubmitted,
     {| session := noted_session (session speaking_world) [] [];
        files := files speaking_world; trace := trace speaking_world |}).
Proof.
  apply (blank_text_drops_transcript demo_env (py "  ")
           (Some (py "What is the MSME subsidy scheme?")) [] [] speaking_world).
  - discriminate.
  - repeat constructor.
Defined.

(** ** The voice block of main *)

Lemma local_ui c : local_event (EvUi c).
Proof. split; reflexivity. Qed.

Lemma local_events_calls events :
  Forall local_event events ->
  converse_calls events = 0%nat /\ tool_calls events = 0%nat.
Proof.
  induction 1 as [|e t [Hc Ht] _ [IHc IHt]]; [split; reflexivity|].
  unfold converse_calls, tool_calls in *. cbn. rewrite Hc, Ht. auto.
Qed.

(** The world the voice block leaves, and how its outcome follows what
    [transcribe_audio] did with the temporary file. *)
Lemma transcription_step_world env wav w :
  let temp_path := temp_name env (files w) in
  exists outcome events,
    transcription_step env wav w =
      (Val outcome,
       {| session := session w;
          files := match outcome with
                   | Transcribed _ => delete temp_path (<[temp_path := wav]> (files w))
                   | VoiceAborted => <[temp_path := wav]> (files w)
                   end;
          trace := trace w ++ events |})
    /\ match outcome with
       | Transcribed audio_prompt =>
           Forall local_event events
           /\ exists transcript,
                fst (transcribe_audio env temp_path (with_file w temp_path wav))
                  = Val transcript
                /\ decode_unicode_text env transcript = Val audio_prompt
       | VoiceAborted =>
           exists e before,
             fst (transcribe_audio env temp_path (with_file w temp_path wav)) = Raise e
             /\ Forall local_event before
             /\ events = before
                         ++ [EvUi (StError (py "Audio transcription failed: "
                                            ++ exn_str e))]
       end.
Proof.
  intros temp_path. unfold transcription_step, named_temporary_file, os_unlink.
  unfold bind at 1. unfold try_except. unfold bind at 1. unfold bind at 1.
  unfold get_files at 1. unfold bind at 1. unfold put_files at 1. unfold ret at 1.
  fold temp_path. fold (with_file w temp_path wav).
  set (w1 := with_file w temp_path wav).
  unfold bind at 1.
  destruct (transcribe_audio_events env temp_path w1) as (before & Hw & Hev).
  assert (Forall local_event before) as Hlocal.
  { destruct Hev as [-> | (audio & _ & ->)]; repeat constructor. }
  destruct (transcribe_audio env temp_path w1) as [r w2] eqn:Hr.
  cbn [snd] in Hw. subst w2. destruct r as [transcript|e]; cbv beta iota.
  - unfold bind at 1. unfold lift.
    destruct (decode_unicode_text_returns env transcript) as [decoded Hd].
    rewrite Hd. unfold bind, get_files. cbn [files record w1 with_file].
    rewrite lookup_insert_eq. unfold put_files, ret. cbn.
    exists (Transcribed decoded), before. split; [reflexivity|].
    split; [exact Hlocal|]. exists transcript. split; [reflexivity|exact Hd].
  - unfold bind, ui. rewrite emit_record. unfold ret. cbn.
    exists VoiceAborted,
      (before ++ [EvUi (StError (py "Audio transcription failed: " ++ exn_str e))]).
    split; [unfold record; cbn; rewrite <- app_assoc; reflexivity|].
    exists e, before. repeat split; assumption.
Qed.

(** X23. When the transcript arrives, the temporary file is gone again: a
    voice block that created its file under a name that was free leaves the
    files, and the session, exactly as they were, and hands on the
    transcript after the unicode-escape pass. *)
Theorem transcript_restores_files (env : Env) (wav : bytes) (w w' : World)
    (audio_prompt : str) :
  files w !! temp_name env (files w) = None ->
  transcription_step env wav w = (Val (Transcribed audio_prompt), w') ->
  files w' = files w
  /\ session w' = session w
  /\ exists transcript,
       fst (transcribe_audio env (temp_name env (files w))
              (with_file w (temp_name env (files w)) wav)) = Val transcript
       /\ decode_unicode_text env transcript = Val audio_prompt.
Proof.
  intros Hfree Hrun.
  destruct (transcription_step_world env wav w) as (outcome & events & Hw & Hk).
  rewrite Hrun in Hw. injection Hw as <- ->. cbn [files session].
  split; [apply delete_insert_id, Hfree|]. split; [reflexivity|apply Hk].
Qed.

Lemma transcript_restores_files_witness :
  files (snd (transcription_step demo_env (py "RIFF") empty_world)) = files empty_world
  /\ session (snd (transcription_step demo_env (py "RIFF") empty_world))
     = session empty_world
  /\ exists transcript,
       fst (transcribe_audio demo_env (temp_name demo_env (files empty_world))
              (with_file empty_world (temp_name demo_env (files empty_world)) (py "RIFF")))
         = Val transcript
       /\ decode_unicode_text demo_env transcript
          = Val [0x928; 0x92E; 0x938; 0x94D; 0x924; 0x947].
Proof.
  apply (transcript_restores_files demo_env (py "RIFF") empty_world
           (snd (transcription_step demo_env (py "RIFF") empty_world))
           [0x928; 0x92E; 0x938; 0x94D; 0x924; 0x947]).
  - reflexivity.
  - vm_compute. reflexivity.
Defined.

(** X24. A recording whose transcription raises ends the run of [main]
    there: the error is shown, nothing is submitted, also when text was
    typed in the same run; the session is unchanged and neither the backend
    nor the tool is called. *)
Theorem failed_voice_ends_run (env : Env) (text_input : option str) (wav : bytes)
    (documents images : list UploadedFile) (w : World) (e : exn) :
  let temp_path := temp_name env (files w) in
  fst (transcribe_audio env temp_path
         (with_file (record w [EvUi (StAudio wav)]) temp_path wav)) = Raise e ->
  exists w',
    main env text_input (Some wav) documents images w = (Val None, w')
    /\ session w' = session w
    /\ converse_calls (trace w') = converse_calls (trace w)
    /\ tool_calls (trace w') = tool_calls (trace w)
    /\ last (trace w') =
         Some (EvUi (StError (py "Audio transcription failed: " ++ exn_str e))).
Proof.
  intros temp_path He. unfold main. unfold bind at 1. unfold ui at 1.
  rewrite emit_record. unfold bind at 1.
  destruct (transcription_step_world env wav (record w [EvUi (StAudio wav)]))
    as (outcome & events & Hw & Hk).
  cbn [files record] in Hw, Hk. fold temp_path in Hw, Hk.
  rewrite Hw. destruct outcome as [audio_prompt|].
  { destruct Hk as (_ & transcript & Ht & _). rewrite He in Ht. discriminate Ht. }
  destruct Hk as (e' & before & He' & Hlocal & ->).
  rewrite He in He'. injection He' as <-.
  eexists. split; [reflexivity|]. cbn [session trace record].
  destruct (local_events_calls before Hlocal) as [Hc Ht].
  split; [reflexivity|]. rewrite !converse_calls_app, !tool_calls_app, Hc, Ht.
  split; [cbn; lia|]. split; [cbn; lia|].
  rewrite !app_assoc. apply last_snoc.
Qed.

Lemma failed_voice_ends_run_witness :
  exists w',
    main (sample_env final_answer agent_answers stt_timeout) (Some (py "typed text"))
      (Some (py "RIFF")) [] [] empty_world = (Val None, w')
    /\ session w' = session empty_world
    /\ converse_calls (trace w') = converse_calls (trace empty_world)
    /\ tool_calls (trace w') = tool_calls (trace empty_world)
    /\ last (trace w') =
         Some (EvUi (StError (py "Audio transcription failed: "
                              ++ exn_str (Exception (py "Audio transcription timed out after 45 seconds"))))).
Proof.
  apply (failed_voice_ends_run (sample_env final_answer agent_answers stt_timeout)
           (Some (py "typed text")) (py "RIFF") [] [] empty_world
           (Exception (py "Audio transcription timed out after 45 seconds"))).
  vm_compute. reflexivity.
Defined.

(** ** decode_unicode_text on escaped transcripts *)

Lemma encode_utf8_ascii s : Forall (fun c => c < 0x80) s -> encode_utf8 s = Val s.
Proof.
  induction 1 as [|c t H _ IH]; simpl; [reflexivity|].
  unfold utf8_char. apply N.ltb_lt in H. rewrite H. cbn. rewrite IH. reflexivity.
Qed.

Lemma escape_run_plain names out b rest :
  Forall (fun c => c <> 0x5C) b ->
  escape_run names Plain out (b ++ rest) = escape_run names Plain (rev b ++ out) rest.
Proof.
  intros H. revert out. induction H as [|c t Hc _ IH]; intros out; [reflexivity|].
  cbn [app escape_run escape_step exc_bind]. unfold plain_step.
  apply N.eqb_neq in Hc. rewrite Hc. rewrite IH. cbn [rev].
  rewrite <- app_assoc. reflexivity.
Qed.

Lemma hex_value_bound c d : hex_value c = Some d -> d < 16.
Proof.
  unfold hex_value, is_digit.
  destruct ((0x30 <=? c) && (c <=? 0x39)) eqn:E1.
  { intros H. injection H as <-. apply andb_true_iff in E1 as [_ E].
    apply N.leb_le in E. lia. }
  destruct ((0x61 <=? c) && (c <=? 0x66)) eqn:E2.
  { intros H. injection H as <-. apply andb_true_iff in E2 as [_ E].
    apply N.leb_le in E. lia. }
  destruct ((0x41 <=? c) && (c <=? 0x46)) eqn:E3; [|discriminate].
  intros H. injection H as <-. apply andb_true_iff in E3 as [_ E].
  apply N.leb_le in E. lia.
Qed.

Lemma hex_value_not_octal_state names acc c out d n :
  hex_value c = Some d ->
  escape_step names (Hex (S (S n)) acc) c out = Val (Hex (S n) (acc * 16 + d), out).
Proof. intros H. cbn. rewrite H. reflexivity. Qed.

(** One [\uXXXX] escape read by the decoder. *)
Lemma escape_run_u names out h1 h2 h3 h4 d1 d2 d3 d4 rest :
  hex_value h1 = Some d1 -> hex_value h2 = Some d2 ->
  hex_value h3 = Some d3 -> hex_value h4 = Some d4 ->
  escape_run names Plain out (0x5C :: 0x75 :: h1 :: h2 :: h3 :: h4 :: rest) =
  escape_run names Plain (hex4 d1 d2 d3 d4 :: out) rest.
Proof.
  intros H1 H2 H3 H4.
  pose proof (hex_value_bound _ _ H1). pose proof (hex_value_bound _ _ H2).
  pose proof (hex_value_bound _ _ H3). pose proof (hex_value_bound _ _ H4).
  cbn [escape_run]. cbn [escape_step exc_bind].
  change (plain_step 0x5C out) with (Backslash, out). cbv beta iota.
  cbn [escape_step exc_bind].
  change (backslash_step 0x75 out) with (Hex 4 0, out). cbv beta iota.
  rewrite (hex_value_not_octal_state names 0 h1 out d1 2 H1). cbn [exc_bind].
  rewrite (hex_value_not_octal_state names _ h2 out d2 1 H2). cbn [exc_bind].
  rewrite (hex_value_not_octal_state names _ h3 out d3 0 H3). cbn [exc_bind].
  cbn [escape_step]. rewrite H4.
  replace ((((0 * 16 + d1) * 16 + d2) * 16 + d3) * 16 + d4) with (hex4 d1 d2 d3 d4)
    by (unfold hex4; lia).
  replace (hex4 d1 d2 d3 d4 <=? 0x10FFFF) with true
    by (symmetry; apply N.leb_le; unfold hex4; lia).
  reflexivity.
Qed.

Lemma startswith_app p s : startswith p (p ++ s) = true.
Proof. induction p as [|c t IH]; [reflexivity|]. cbn. rewrite N.eqb_refl. exact IH. Qed.

Lemma contains_app needle a b : contains needle (a ++ needle ++ b) = true.
Proof.
  induction a as [|c t IH].
  - cbn [app]. destruct (needle ++ b) eqn:E; cbn [contains];
      rewrite <- E, startswith_app; reflexivity.
  - cbn [app contains]. rewrite IH. apply orb_true_r.
Qed.

(** X25. A [\uXXXX] escape in an otherwise plain ASCII transcript is
    replaced by the code point its four hexadecimal digits spell, and the
    text around it is kept as it is. *)
Theorem decode_unicode_text_escape (env : Env) (before after : str)
    (h1 h2 h3 h4 d1 d2 d3 d4 : N) :
  Forall plain_ascii before -> Forall plain_ascii after ->
  hex_value h1 = Some d1 -> hex_value h2 = Some d2 ->
  hex_value h3 = Some d3 -> hex_value h4 = Some d4 ->
  decode_unicode_text env (before ++ py "\u" ++ [h1; h2; h3; h4] ++ after) =
    Val (before ++ [hex4 d1 d2 d3 d4] ++ after).
Proof.
  intros Hb Ha H1 H2 H3 H4. unfold decode_unicode_text.
  rewrite contains_app.
  assert (forall c, hex_value c <> None -> c < 0x80) as Hhex.
  { intros c. unfold hex_value, is_digit.
    destruct ((0x30 <=? c) && (c <=? 0x39)) eqn:E1;
      [intros _; apply andb_true_iff in E1 as [_ E]; apply N.leb_le in E; lia|].
    destruct ((0x61 <=? c) && (c <=? 0x66)) eqn:E2;
      [intros _; apply andb_true_iff in E2 as [_ E]; apply N.leb_le in E; lia|].
    destruct ((0x41 <=? c) && (c <=? 0x46)) eqn:E3;
      [intros _; apply andb_true_iff in E3 as [_ E]; apply N.leb_le in E; lia|].
    contradiction. }
  rewrite encode_utf8_ascii.
  2:{ apply Forall_app. split; [eapply Forall_impl; [exact Hb|]; intros c [H _]; exact H|].
      change (py "\u" ++ [h1; h2; h3; h4] ++ after)
        with ([0x5C; 0x75; h1; h2; h3; h4] ++ after).
      apply Forall_app. split.
      - repeat constructor; (apply Hhex; congruence) || (vm_compute; reflexivity).
      - eapply Forall_impl; [exact Ha|]. intros c [H _]. exact H. }
  cbn [exc_bind]. unfold decode_unicode_escape.
  rewrite escape_run_plain
    by (eapply Forall_impl; [exact Hb|]; intros c [_ H]; exact H).
  change (py "\u" ++ [h1; h2; h3; h4] ++ after)
    with (0x5C :: 0x75 :: h1 :: h2 :: h3 :: h4 :: after).
  rewrite (escape_run_u _ _ _ _ _ _ _ _ _ _ _ H1 H2 H3 H4).
  rewrite <- (app_nil_r after).
  rewrite escape_run_plain
    by (eapply Forall_impl; [exact Ha|]; intros c [_ H]; exact H).
  cbn [escape_run escape_finish]. rewrite !app_nil_r. f_equal.
  rewrite rev_app_distr. cbn [rev]. rewrite !rev_involutive, <- app_assoc.
  reflexivity.
Qed.

Lemma decode_unicode_text_escape_witness :
  decode_unicode_text demo_env
    (py "MSME " ++ py "\u" ++ [0x30; 0x39; 0x32; 0x38] ++ py " loan")
  = Val (py "MSME " ++ [hex4 0 9 2 8] ++ py " loan").
Proof.
  apply (decode_unicode_text_escape demo_env (py "MSME ") (py " loan")
           0x30 0x39 0x32 0x38 0 9 2 8);
    try reflexivity;
    repeat constructor; (vm_compute; reflexivity) || discriminate.
Defined.

(** X26. The pass decodes the UTF-8 bytes of the text as Latin-1: in a
    transcript that holds an escape, a code point between U+0080 and U+07FF
    that was not escaped comes out as two code points, its two UTF-8 bytes,
    and is lost. *)
Theorem decode_unicode_text_mangles (env : Env) (h1 h2 h3 h4 d1 d2 d3 d4 c : N) :
  hex_value h1 = Some d1 -> hex_value h2 = Some d2 ->
  hex_value h3 = Some d3 -> hex_value h4 = Some d4 ->
  0x80 <= c < 0x800 ->
  decode_unicode_text env (py "\u" ++ [h1; h2; h3; h4] ++ [c]) =
    Val [hex4 d1 d2 d3 d4; 0xC0 + c / 64; 0x80 + c mod 64].
Proof.
  intros H1 H2 H3 H4 [Hlo Hhi]. unfold decode_unicode_text.
  replace (contains (py "\u") (py "\u" ++ [h1; h2; h3; h4] ++ [c])) with true
    by (symmetry; apply (contains_app (py "\u") [])).
  assert (forall x d, hex_value x = Some d -> utf8_char x = Val [x]) as Hhex.
  { intros x d. unfold hex_value, is_digit, utf8_char.
    destruct ((0x30 <=? x) && (x <=? 0x39)) eqn:E1.
    { intros _. apply andb_true_iff in E1 as [_ E]. apply N.leb_le in E.
      destruct (N.ltb_spec x 0x80); [reflexivity|lia]. }
    destruct ((0x61 <=? x) && (x <=? 0x66)) eqn:E2.
    { intros _. apply andb_true_iff in E2 as [_ E]. apply N.leb_le in E.
      destruct (N.ltb_spec x 0x80); [reflexivity|lia]. }
    destruct ((0x41 <=? x) && (x <=? 0x46)) eqn:E3; [|discriminate].
    intros _. apply andb_true_iff in E3 as [_ E]. apply N.leb_le in E.
    destruct (N.ltb_spec x 0x80); [reflexivity|lia]. }
  assert (utf8_char c = Val [0xC0 + c / 64; 0x80 + c mod 64]) as Hc.
  { unfold utf8_char. destruct (N.ltb_spec c 0x80); [lia|].
    destruct (N.ltb_spec c 0x800); [reflexivity|lia]. }
  change (py "\u" ++ [h1; h2; h3; h4] ++ [c])
    with (0x5C :: 0x75 :: h1 :: h2 :: h3 :: h4 :: [c]).
  cbn [encode_utf8].
  change (utf8_char 0x5C) with (@Val bytes [0x5C]).
  change (utf8_char 0x75) with (@Val bytes [0x75]).
  rewrite (Hhex _ _ H1), (Hhex _ _ H2), (Hhex _ _ H3), (Hhex _ _ H4), Hc.
  cbn [exc_bind app]. unfold decode_unicode_escape.
  rewrite (escape_run_u _ _ _ _ _ _ _ _ _ _ _ H1 H2 H3 H4).
  cbn [escape_run escape_step exc_bind]. unfold plain_step.
  replace (0xC0 + c / 64 =? 0x5C) with false
    by (symmetry; apply N.eqb_neq; generalize (c / 64); intros; lia).
  cbv beta iota. cbn [escape_step exc_bind]. unfold plain_step.
  replace (0x80 + c mod 64 =? 0x5C) with false
    by (symmetry; apply N.eqb_neq; generalize (c mod 64); intros; lia).
  reflexivity.
Qed.

Lemma decode_unicode_text_mangles_witness :
  decode_unicode_text demo_env (py "\u" ++ [0x30; 0x39; 0x32; 0x38] ++ [0xE9]) =
    Val [hex4 0 9 2 8; 0xC0 + 0xE9 / 64; 0x80 + 0xE9 mod 64].
Proof.
  apply (decode_unicode_text_mangles demo_env 0x30 0x39 0x32 0x38 0 9 2 8 0xE9);
    try reflexivity.
  lia.
Defined.

(** ** Reply playback *)

Lemma text_to_speech_events env text language w :
  exists events,
    snd (text_to_speech env text language w) = record w events
    /\ Forall local_event events.
Proof.
  unfold text_to_speech.
  destruct (truthy_opt (SARVAM_API_KEY env)); cbn [negb];
    [|exists []; split; [symmetry; apply record_nil|constructor]].
  exists [EvTts text language]. split; [|repeat constructor].
  unfold bind at 1. rewrite emit_record. unfold bind, lift.
  destruct (sarvam_tts env text language) as [[|[|c t] rest]|e]; reflexivity.
Qed.

(** X27. Reply playback never raises and calls neither the backend nor the
    tool.  With text-to-speech off it does nothing; otherwise it plays the
    audio [text_to_speech] returned, or, when [text_to_speech] raised,
    shows the warning "TTS failed: ..." with the text of the exception. *)
Theorem speak_reply_degrades (env : Env) (assistant_response : str) (w : World) :
  exists tts events,
    speak_reply env assistant_response w = (Val tts, record w events)
    /\ converse_calls events = 0%nat /\ tool_calls events = 0%nat
    /\ match tts with
       | TtsDisabled => enable_tts (session w) = false /\ events = []
       | TtsPlayed =>
           enable_tts (session w) = true
           /\ exists audio,
                fst (text_to_speech env assistant_response (tts_language (session w)) w)
                  = Val audio
                /\ last events = Some (EvUi (StAudio audio))
       | TtsFailed e =>
           enable_tts (session w) = true
           /\ fst (text_to_speech env assistant_response (tts_language (session w)) w)
              = Raise e
           /\ last events = Some (EvUi (StWarning (py "TTS failed: " ++ exn_str e)))
       end.
Proof.
  unfold speak_reply. unfold bind at 1. unfold get_session at 1.
  destruct (enable_tts (session w)) eqn:He.
  2:{ exists TtsDisabled, []. split; [unfold ret; rewrite record_nil; reflexivity|].
      repeat split; reflexivity. }
  unfold bind at 1. unfold try_except. unfold bind at 1.
  destruct (text_to_speech_events env assistant_response (tts_language (session w)) w)
    as (events & Hw & Hlocal).
  destruct (text_to_speech env assistant_response (tts_language (session w)) w)
    as [r w1]. cbn [snd] in Hw. subst w1.
  destruct (local_events_calls events Hlocal) as [Hc Ht].
  destruct r as [audio_data|e]; cbv beta iota.
  - exists TtsPlayed, (events ++ [EvUi (StAudio audio_data)]).
    split; [unfold ui; rewrite emit_record, record_app; reflexivity|].
    rewrite converse_calls_app, tool_calls_app, Hc, Ht.
    repeat split. exists audio_data. split; [reflexivity|apply last_snoc].
  - exists (TtsFailed e),
      (events ++ [EvUi (StWarning (py "TTS failed: " ++ exn_str e))]).
    split; [unfold bind, ui; rewrite emit_record, record_app; reflexivity|].
    rewrite converse_calls_app, tool_calls_app, Hc, Ht.
    repeat split. apply last_snoc.
Qed.

(** ** The history the next turn sends *)

Lemma generate_message_opens env model_id input_text documents images history w blocks :
  ~ blank input_text ->
  build_content_blocks input_text documents images = Val blocks ->
  exists r events,
    generate_message env model_id input_text documents images history w =
      (r, record w (EvConverse (first_request env model_id (turn_messages w history blocks))
                    :: events)).
Proof.
  intros Hnb Hb.
  rewrite (generate_message_first_call _ _ _ _ _ _ _ blocks Hnb Hb). cbv zeta.
  set (request := first_request env model_id (turn_messages w history blocks)).
  destruct (converse env request) as [first|e].
  2:{ exists (Raise e), []. reflexivity. }
  destruct (str_eqb (stopReason first) (py "tool_use")).
  2:{ exists (Val (output_message first)), []. reflexivity. }
  destruct (traced_run
              (answer_tool_requests env model_id
                 (turn_messages w history blocks ++ [output_message first])
                 (output_message first) (content (output_message first)))
              (record w [EvConverse request])) as (r & events & Hr);
    [apply traced_answer_tool_requests|].
  rewrite Hr, record_app. exists r, events. reflexivity.
Qed.

(** A turn whose backend call returns a message that starts with a text
    block completes, and leaves the history with the two new turns. *)
Lemma submit_completed env text_input audio_prompt documents images w message w2
    assistant_response more :
  submits (session w) text_input audio_prompt documents images = true ->
  runtime_client env = Val tt ->
  generate_message env (BEDROCK_MODEL_ID env) (submitted_prompt text_input audio_prompt)
    documents images None
    (record (note_uploads w documents images)
       (turn_opening (submitted_prompt text_input audio_prompt))) = (Val message, w2) ->
  content message = TextBlock assistant_response :: more ->
  exists tts events,
    submit env text_input audio_prompt documents images w =
      (Val (Completed assistant_response tts),
       {| session :=
            completed_session (noted_session (session w) documents images)
              (submitted_prompt text_input audio_prompt) assistant_response;
          files := files w;
          trace := trace w ++ events |}).
Proof.
  intros Hs Hc Hg Hm.
  set (prompt := submitted_prompt text_input audio_prompt) in *.
  unfold submit. unfold bind at 1. unfold get_session at 1.
  unfold bind at 1. unfold put_session at 1. cbv zeta.
  rewrite submit_condition, Hs.
  fold (noted_session (session w) documents images).
  fold (note_uploads w documents images). fold prompt.
  assert (truthy (strip prompt) = true) as Hp.
  { unfold prompt. rewrite submitted_prompt_stripped. unfold submits in Hs.
    destruct (truthy (submitted_prompt text_input audio_prompt)); [reflexivity|].
    discriminate Hs. }
  unfold bind at 1. unfold try_except.
  rewrite (turn_body_run env prompt documents images _ Hp), Hc, Hg.
  unfold first_text. rewrite Hm.
  destruct (traced_run
              (generate_message env (BEDROCK_MODEL_ID env) prompt documents images None)
              (record (note_uploads w documents images) (turn_opening prompt)))
    as (r & ev1 & Hg'); [apply traced_generate_message|].
  rewrite Hg in Hg'. injection Hg' as _ ->.
  destruct (speak_reply_returns env assistant_response
              (record (record (record (note_uploads w documents images)
                                 (turn_opening prompt)) ev1)
                 [EvUi (StMarkdown assistant_response)])) as (tts & ev2 & Hr).
  rewrite Hr. exists tts.
  exists (((turn_opening prompt ++ ev1) ++ [EvUi (StMarkdown assistant_response)]) ++ ev2).
  unfold ret. f_equal. unfold completed_session, record, note_uploads. cbn.
  rewrite <- !app_assoc. reflexivity.
Qed.

Lemma limit_chat_history_after history prompt assistant_response :
  limit_chat_history (history_after history prompt assistant_response) =
  history_after (slice_last 48 history) prompt assistant_response.
Proof.
  unfold limit_chat_history, history_after, slice_last.
  rewrite length_app. cbn [length].
  destruct (Nat.ltb_spec 50 (length history + 2)) as [H|H].
  - rewrite drop_app_le by lia.
    replace (length history + 2 - 50)%nat with (length history - 48)%nat by lia.
    reflexivity.
  - replace (length history - 48)%nat with 0%nat by lia. reflexivity.
Qed.

(** X28. What a completed turn leaves for the next one.  When a submitted
    turn's call of [generate_message] returns a message that starts with a
    text block, the turn completes; and in the next run of the script,
    after the initialisation at its top, the first request that
    [generate_message] sends for a non-blank prompt whose blocks are built
    holds: the last 48 of the earlier turns that have a text, then the
    stripped prompt of the completed turn as a user message and the first
    text block of its reply as an assistant message, each as one text
    block, then the new user message.  The attachments of the completed
    turn and the further blocks of its reply are not sent again. *)
Theorem next_turn_sends_completed_turn (env : Env)
    (text_input audio_prompt : option str) (documents images : list UploadedFile)
    (w w2 : World) (message : Message) (assistant_response : str)
    (more : list ContentBlock)
    (model_id : option str) (next_prompt : str)
    (next_documents next_images : list UploadedFile) (blocks : list ContentBlock) :
  let prompt := submitted_prompt text_input audio_prompt in
  submits (session w) text_input audio_prompt documents images = true ->
  runtime_client env = Val tt ->
  generate_message env (BEDROCK_MODEL_ID env) prompt documents images None
    (record (note_uploads w documents images) (turn_opening prompt)) = (Val message, w2) ->
  content message = TextBlock assistant_response :: more ->
  ~ blank next_prompt ->
  build_content_blocks next_prompt next_documents next_images = Val blocks ->
  exists tts w' r events,
    submit env text_input audio_prompt documents images w =
      (Val (Completed assistant_response tts), w')
    /\ generate_message env model_id next_prompt next_documents next_images None
         (next_run w') =
       (r, record (next_run w')
             (EvConverse
                (first_request env model_id
                   (history_messages (slice_last 48 (chat_history (session w)))
                    ++ [{| role := py "user"; content := [TextBlock prompt] |};
                        {| role := py "assistant";
                           content := [TextBlock assistant_response] |}]
                    ++ [{| role := py "user"; content := blocks |}]))
              :: events)).
Proof.
  intros prompt Hs Hc Hg Hm Hnb Hb.
  destruct (submit_completed env text_input audio_prompt documents images w message w2
              assistant_response more Hs Hc Hg Hm) as (tts & ev & Hrun).
  fold prompt in Hrun.
  set (w' := {| session := completed_session (noted_session (session w) documents images)
                             prompt assistant_response;
                files := files w; trace := trace w ++ ev |}) in *.
  destruct (generate_message_opens env model_id next_prompt next_documents next_images
              None (next_run w') blocks Hnb Hb) as (r & events & Hnext).
  exists tts, w', r, events. split; [exact Hrun|].
  rewrite Hnext. do 4 f_equal.
  unfold turn_messages, next_run, session_init, as_raw, w', completed_session.
  cbn [default from_option id session chat_history raw_chat_history noted_session].
  rewrite limit_chat_history_after. unfold history_after, history_messages.
  rewrite omap_app, <- app_assoc. reflexivity.
Qed.

Lemma next_turn_sends_completed_turn_witness :
  exists tts w' r events,
    submit demo_env (Some (py " Namaste ")) None [] [] speaking_world =
      (Val (Completed (py "Namaste.") tts), w')
    /\ generate_message demo_env (Some (py "model")) (py "MSME") [] [] None (next_run w') =
       (r, record (next_run w')
             (EvConverse
                (first_request demo_env (Some (py "model"))
                   (history_messages (slice_last 48 (sample_history 2))
                    ++ [{| role := py "user"; content := [TextBlock (py "Namaste")] |};
                        {| role := py "assistant";
                           content := [TextBlock (py "Namaste.")] |}]
                    ++ [{| role := py "user"; content := [TextBlock (py "MSME")] |}]))
              :: events)).
Proof.
  apply (next_turn_sends_completed_turn demo_env (Some (py " Namaste ")) None [] []
           speaking_world
           (snd (generate_message demo_env (Some (py "model")) (py "Namaste") [] [] None
                   (record (note_uploads speaking_world [] [])
                      (turn_opening (py "Namaste")))))
           (output_message final_answer) (py "Namaste.") []
           (Some (py "model")) (py "MSME") [] [] [TextBlock (py "MSME")]).
  - vm_compute. reflexivity.
  - reflexivity.
  - vm_compute. reflexivity.
  - reflexivity.
  - intros H. apply Forall_inv in H. vm_compute in H. discriminate H.
  - reflexivity.
Defined.

(** ** Images and broken streams *)



Lemma read_completion_broken chunks e rest result :
  read_completion (List.map Val chunks ++ Raise e :: rest) result = Raise e.
Proof.
  revert result. induction chunks as [|chunk more IH]; intros result; [reflexivity|].
  cbn. apply IH.
Qed.

(** X30. A stream that breaks after some chunks gives no partial answer:
    the chunks already read are dropped and the result is the error
    "Failed to retrieve information due to internal error.", returned and
    not raised. *)
Theorem scheme_info_broken_stream (env : Env) (query : str) (w : World)
    (chunks : list str) (e : exn) (rest : list (Exc str)) :
  agent_configured env ->
  agent_client env = Val tt ->
  invoke_agent env query = Val (List.map Val chunks ++ Raise e :: rest) ->
  get_government_scheme_info env query w =
    (Val [(py "error", py "Failed to retrieve information due to internal error.")],
     record w [EvToolCall query; EvInvokeAgent query]).
Proof.
  intros [Hi Ha] Hc Hr. unfold get_government_scheme_info.
  unfold bind at 1. rewrite emit_record. rewrite Hi, Ha. cbn [negb orb].
  unfold bind at 1. rewrite Hc. unfold lift at 1.
  unfold bind at 1. unfold try_except.
  unfold bind at 1. rewrite emit_record, record_app.
  unfold bind at 1. rewrite Hr. unfold lift.
  rewrite read_completion_broken. reflexivity.
Qed.

Lemma scheme_info_broken_stream_witness :
  get_government_scheme_info
    (sample_env final_answer
       (Val [Val (py "Subsidy of ");
             Raise (Exception (py "stream closed")); Val (py "25 percent.")])
       stt_ok)
    (py "MSME") empty_world =
    (Val [(py "error", py "Failed to retrieve information due to internal error.")],
     record empty_world [EvToolCall (py "MSME"); EvInvokeAgent (py "MSME")]).
Proof.
  apply (scheme_info_broken_stream
           (sample_env final_answer
              (Val [Val (py "Subsidy of ");
                    Raise (Exception (py "stream closed")); Val (py "25 percent.")])
              stt_ok)
           (py "MSME") empty_world [py "Subsidy of "]
           (Exception (py "stream closed")) [Val (py "25 percent.")]).
  - split; reflexivity.
  - reflexivity.
  - reflexivity.
Defined.
